(** * FabZClean order tracking: order lifecycle and worker scans

    A shallow embedding of the two backends of the repository (the Flask
    application under [src/app] and the FastAPI application under
    [fabzclean-fastapi/app]) and the properties of their order and scan
    handlers.

    Conventions of the embedding.
    - A table is the list of its rows in primary-key order; [Query.get] and
      [filter_by(...).first()] are [find] over that list.
    - A handler is a function from the committed store to a response and the
      committed store that the request leaves behind.  The session of a
      request is a working copy of the store; [commit] installs the working
      copy as a whole or raises and leaves the committed store as it was.
    - What a handler cannot decide by itself is an argument of the handler:
      the bytes the operating system hands to [secrets], whether the database
      accepts a commit, whether the QR image can be written to disk.
    - Money is a count of hundredths ([Numeric(10, 2)]); [float(price)]
      written back into a [Numeric(10, 2)] column gives the same hundredths.
      A price that a request carries goes through [numeric_10_2].
    - The bookkeeping columns [created_at] and [updated_at] are filled by the
      database clock and are not part of the rows below. *)

From Stdlib Require Import ZArith NArith List String Ascii Bool Lia.
From Stdlib Require Import Strings.Byte.
Import ListNotations.

Local Open Scope string_scope.
Local Open Scope Z_scope.

(** ** The [secrets] module: random tokens *)

Module Secrets.

(** The stream of bytes the operating system returns to this call. *)
Definition Entropy := nat -> byte.

(** [os.urandom(nbytes)] *)
Definition token_bytes (e : Entropy) (nbytes : nat) : list byte :=
  map e (seq 0 nbytes).

Definition hexdigits : string := "0123456789abcdef".

Definition hex_digit (n : N) : ascii :=
  match String.get (N.to_nat n) hexdigits with
  | Some c => c
  | None => "0"%char
  end.

Definition hexlify_byte (b : byte) : string :=
  String (hex_digit (Byte.to_N b / 16))
    (String (hex_digit (Byte.to_N b mod 16)) EmptyString).

(** [binascii.hexlify(bs).decode('ascii')] *)
Fixpoint hexlify (bs : list byte) : string :=
  match bs with
  | [] => EmptyString
  | b :: rest => hexlify_byte b ++ hexlify rest
  end.

(** [secrets.token_hex(nbytes)] *)
Definition token_hex (e : Entropy) (nbytes : nat) : string :=
  hexlify (token_bytes e nbytes).

(** The alphabet of [base64.urlsafe_b64encode]. *)
Definition b64_alphabet : string :=
  "ABCDEFGHIJKLMNOPQRSTUVWXYZabcdefghijklmnopqrstuvwxyz0123456789-_".

Definition b64_char (n : N) : ascii :=
  match String.get (N.to_nat n) b64_alphabet with
  | Some c => c
  | None => "A"%char
  end.

(** [base64.urlsafe_b64encode(bs).rstrip(b'=')]: three bytes give four
    characters; a tail of one byte gives two and a tail of two gives three
    once the padding is stripped. *)
Fixpoint b64_urlsafe_nopad (bs : list byte) : string :=
  match bs with
  | [] => EmptyString
  | [a] =>
      let x := Byte.to_N a in
      String (b64_char (x / 4)) (String (b64_char ((x mod 4) * 16)) EmptyString)
  | [a; b] =>
      let x := Byte.to_N a in
      let y := Byte.to_N b in
      String (b64_char (x / 4))
        (String (b64_char ((x mod 4) * 16 + y / 16))
           (String (b64_char ((y mod 16) * 4)) EmptyString))
  | a :: b :: c :: rest =>
      let x := Byte.to_N a in
      let y := Byte.to_N b in
      let z := Byte.to_N c in
      String (b64_char (x / 4))
        (String (b64_char ((x mod 4) * 16 + y / 16))
           (String (b64_char ((y mod 16) * 4 + z / 64))
              (String (b64_char (z mod 64)) (b64_urlsafe_nopad rest))))
  end.

(** [secrets.token_urlsafe(nbytes)] *)
Definition token_urlsafe (e : Entropy) (nbytes : nat) : string :=
  b64_urlsafe_nopad (token_bytes e nbytes).

(** Reading a hexadecimal string back as a number, most significant digit
    first; used to count the order numbers. *)
Definition unhex_digit (c : ascii) : option N :=
  let n := N_of_ascii c in
  if ((48 <=? n) && (n <=? 57))%N then Some (n - 48)%N
  else if ((97 <=? n) && (n <=? 102))%N then Some (n - 87)%N
  else None.

Fixpoint unhexlify_from (acc : N) (s : string) : option N :=
  match s with
  | EmptyString => Some acc
  | String c rest =>
      match unhex_digit c with
      | Some d => unhexlify_from (16 * acc + d)%N rest
      | None => None
      end
  end.

Definition unhexlify : string -> option N := unhexlify_from 0%N.

Definition is_lower_hex (c : ascii) : bool :=
  match unhex_digit c with Some _ => true | None => false end.

Fixpoint string_forallb (p : ascii -> bool) (s : string) : bool :=
  match s with
  | EmptyString => true
  | String c rest => p c && string_forallb p rest
  end.

(** Bytes as a big-endian number and back. *)
Definition bytes_to_N (bs : list byte) : N :=
  fold_left (fun acc b => (256 * acc + Byte.to_N b)%N) bs 0%N.

Definition byte_of_N (n : N) : byte :=
  match Byte.of_N n with Some b => b | None => x00 end.

Fixpoint N_to_bytes (k : nat) (n : N) : list byte :=
  match k with
  | O => []
  | S k' => N_to_bytes k' (n / 256)%N ++ [byte_of_N (n mod 256)%N]
  end.

End Secrets.

(** ** The data model ([app/models]) *)

Module Service.
Inductive Status := active | inactive.

Record t := mk {
  id : Z;
  name : string;
  price : Z;                       (* Numeric(10, 2), in hundredths *)
  duration_minutes : option Z;
  status : Status
}.
End Service.

(** The columns of [fabzclean-fastapi/app/models/customer.py]; the Flask
    application imports its [Customer] from a module that declares the same
    columns, as the fixtures of [tests/conftest.py] show.  The handlers below
    read [id] and [email] only. *)
Module Customer.
Record t := mk {
  id : Z;
  name : string;
  email : string;
  phone : option string;
  password_hash : string;
  is_active : bool
}.
End Customer.

Module Order.
Inductive Status :=
  created | picked_up | processing | completed | delivered | cancelled.

(** [status] is declared [nullable=False]; a Python object can still carry
    [None] there until the commit refuses it, hence the option. *)
Record t := mk {
  id : Z;
  order_number : string;
  customer_id : Z;
  service_id : Z;
  pickup_date : option Z;
  instructions : option string;
  total_cost : Z;                  (* Numeric(10, 2), in hundredths *)
  status : option Status;
  qr_code_path : option string
}.

Definition set_pickup_date (v : option Z) (o : t) : t :=
  mk (id o) (order_number o) (customer_id o) (service_id o) v
     (instructions o) (total_cost o) (status o) (qr_code_path o).

Definition set_instructions (v : option string) (o : t) : t :=
  mk (id o) (order_number o) (customer_id o) (service_id o) (pickup_date o)
     v (total_cost o) (status o) (qr_code_path o).

Definition set_status (v : option Status) (o : t) : t :=
  mk (id o) (order_number o) (customer_id o) (service_id o) (pickup_date o)
     (instructions o) (total_cost o) v (qr_code_path o).

Definition set_qr_code_path (v : option string) (o : t) : t :=
  mk (id o) (order_number o) (customer_id o) (service_id o) (pickup_date o)
     (instructions o) (total_cost o) (status o) v.
End Order.

Module Worker.
Record t := mk {
  id : Z;
  name : string;
  email : option string;
  token : option string
}.

Definition set_token (v : option string) (w : t) : t :=
  mk (id w) (name w) (email w) v.
End Worker.

Module Track.
(** [order_id] is declared [nullable=False]; the option is there for the
    same reason as in [Order.status]. *)
Record t := mk {
  id : Z;
  order_id : option Z;
  worker_id : option Z;
  action : string;
  note : option string;
  location : option string
}.

Definition set_order_id (v : option Z) (tr : t) : t :=
  mk (id tr) v (worker_id tr) (action tr) (note tr) (location tr).
End Track.

(** ** The persistence store and the session *)

Record Store := mkStore {
  services : list Service.t;
  customers : list Customer.t;
  orders : list Order.t;
  workers : list Worker.t;
  tracks : list Track.t
}.

Definition with_services (l : list Service.t) (st : Store) : Store :=
  mkStore l (customers st) (orders st) (workers st) (tracks st).

Definition with_orders (l : list Order.t) (st : Store) : Store :=
  mkStore (services st) (customers st) l (workers st) (tracks st).

Definition with_workers (l : list Worker.t) (st : Store) : Store :=
  mkStore (services st) (customers st) (orders st) l (tracks st).

Definition with_tracks (l : list Track.t) (st : Store) : Store :=
  mkStore (services st) (customers st) (orders st) (workers st) l.

Definition is_some {A : Type} (o : option A) : bool :=
  match o with Some _ => true | None => false end.

Section Unique.
Context {A : Type} (eqb : A -> A -> bool).

Fixpoint memb (a : A) (l : list A) : bool :=
  match l with
  | [] => false
  | x :: rest => eqb a x || memb a rest
  end.

Fixpoint uniqueb (l : list A) : bool :=
  match l with
  | [] => true
  | x :: rest => negb (memb x rest) && uniqueb rest
  end.
End Unique.

(** The declared constraints a handler below can run into: the primary key
    of [orders], [unique=True] on [Service.name] and [Order.order_number],
    [nullable=False] on [Order.status] and [Track.order_id]. *)
Definition services_ok (l : list Service.t) : bool :=
  uniqueb String.eqb (map Service.name l).

Definition orders_ok (l : list Order.t) : bool :=
  forallb (fun o => is_some (Order.status o)) l
  && uniqueb Z.eqb (map Order.id l)
  && uniqueb String.eqb (map Order.order_number l).

Definition tracks_ok (l : list Track.t) : bool :=
  forallb (fun tr => is_some (Track.order_id tr)) l.

Definition integrity (st : Store) : bool :=
  services_ok (services st) && orders_ok (orders st) && tracks_ok (tracks st).

Inductive Exn :=
| OperationalError     (* the database is unreachable or refuses the statement *)
| IntegrityError       (* a declared constraint is violated *)
| OSError.             (* the QR image cannot be written *)

(** [db.session.commit()]: the working copy becomes the committed store, or
    the commit raises and nothing of the working copy is kept. *)
Definition commit (db_accepts : bool) (work : Store) : Exn + Store :=
  if negb db_accepts then inl OperationalError
  else if integrity work then inr work
  else inl IntegrityError.

(** Autoincrement primary key of the next inserted row. *)
Definition next_id (ids : list Z) : Z := 1 + fold_right Z.max 0 ids.

(** Queries *)
Definition get_service (id : Z) (st : Store) : option Service.t :=
  find (fun s => Service.id s =? id) (services st).

Definition get_customer (id : Z) (st : Store) : option Customer.t :=
  find (fun c => Customer.id c =? id) (customers st).

Definition get_order (id : Z) (st : Store) : option Order.t :=
  find (fun o => Order.id o =? id) (orders st).

Definition get_worker (id : Z) (st : Store) : option Worker.t :=
  find (fun w => Worker.id w =? id) (workers st).

Definition order_by_number (number : string) (st : Store) : option Order.t :=
  find (fun o => String.eqb (Order.order_number o) number) (orders st).

Definition has_token (tok : string) (w : Worker.t) : bool :=
  match Worker.token w with
  | Some t => String.eqb t tok
  | None => false
  end.

Definition worker_by_token (tok : string) (st : Store) : option Worker.t :=
  find (has_token tok) (workers st).

(** Writing a changed row back under its primary key. *)
Definition put_order (o : Order.t) (l : list Order.t) : list Order.t :=
  map (fun x => if Order.id x =? Order.id o then o else x) l.

Definition put_worker (w : Worker.t) (l : list Worker.t) : list Worker.t :=
  map (fun x => if Worker.id x =? Worker.id w then w else x) l.

Definition put_service (s : Service.t) (l : list Service.t) : list Service.t :=
  map (fun x => if Service.id x =? Service.id s then s else x) l.

Definition references (order_id : Z) (tr : Track.t) : bool :=
  match Track.order_id tr with
  | Some i => i =? order_id
  | None => false
  end.

(** [db.session.delete(order)].  [Track.order] is declared as
    [relationship("Order", backref=backref("tracks", ...))] with no [cascade]
    option and [Track.order_id] as a plain [ForeignKey("orders.id")]: on the
    deletion of the parent the ORM blanks the foreign key of the rows of
    [order.tracks] and deletes none of them. *)
Definition session_delete_order (o : Order.t) (st : Store) : Store :=
  with_tracks
    (map (fun tr => if references (Order.id o) tr
                    then Track.set_order_id None tr else tr) (tracks st))
    (with_orders
       (filter (fun x => negb (Order.id x =? Order.id o)) (orders st)) st).

(** ** Responses *)

Inductive Response :=
| Msg (code : Z) (msg : string)
| OrderCreated (id : Z) (order_number : string) (qr_code_path : option string)
| OrderOut (o : Order.t)
| OrderUpdated (o : Order.t)
| ServiceUpdated (id : Z) (name : string)
| ScanRecorded (track_id : Z) (action : string)
| WorkerToken (token : string) (id : Z) (name : string) (email : option string)
| Unhandled (e : Exn).

(** A response of the 2xx class; an exception nobody catches is answered by
    the framework with 500. *)
Definition is_success (r : Response) : bool :=
  match r with
  | Msg code _ => (200 <=? code) && (code <? 300)
  | Unhandled _ => false
  | _ => true
  end.

(** ** QR labels ([utils/qr.py], [utils/qr_generator.py]) *)

Record QrPayload := mkQrPayload {
  qr_order_number : string;
  qr_email : string;
  qr_service : string
}.

(** [generate_order_qr]: writes [<QR_DIR>/<order_number>.png] and returns the
    relative path; [img.save] raises when the file cannot be written. *)
Definition generate_order_qr (disk_ok : bool) (order_number : string)
    (payload : QrPayload) : Exn + string :=
  let filename := order_number ++ ".png" in
  if disk_ok then inr ("/static/qr/" ++ filename) else inl OSError.

(** [auth.startswith("Bearer ")] and [auth.split(" ", 1)[1]] *)
Definition bearer_token (authorization : option string) : option string :=
  let auth := match authorization with Some a => a | None => EmptyString end in
  if String.prefix "Bearer " auth
  then Some (String.substring 7 (String.length auth - 7) auth)
  else None.

(** [x] when it is a non-empty string ([if not x] is false). *)
Definition nonempty (x : option string) : option string :=
  match x with
  | Some (String c rest) => Some (String c rest)
  | _ => None
  end.

(** ** Handlers that answer with data *)

(** The answer of a handler that returns a JSON document: the status code
    with the document, an error message with its code, or an exception that
    leaves the handler. *)
Inductive Reply (A : Type) :=
| Ok (code : Z) (body : A)
| Err (code : Z) (msg : string)
| Raised (e : Exn).

Arguments Ok {A} code body.
Arguments Err {A} code msg.
Arguments Raised {A} e.

Definition replied_ok {A : Type} (r : Reply A) : bool :=
  match r with
  | Ok code _ => (200 <=? code) && (code <? 300)
  | _ => false
  end.

(** [unique=True] on the nullable [Worker.email]: the emails that are set
    are pairwise different. *)
Definition worker_emails (l : list Worker.t) : list string :=
  flat_map (fun w => match Worker.email w with
                     | Some x => [x]
                     | None => []
                     end) l.

Definition workers_ok (l : list Worker.t) : bool :=
  uniqueb String.eqb (worker_emails l).

(** The commit of a session that inserted a worker. *)
Definition commit_workers (db_accepts : bool) (work : Store) : Exn + Store :=
  if negb db_accepts then inl OperationalError
  else if workers_ok (workers work) then commit db_accepts work
  else inl IntegrityError.

(** A JSON number of [x] hundredths written to a [Numeric(10, 2)] column
    and read back.  The number travels as a double: one of at most ten
    digits comes back as it was sent, the double being off by far less than
    half a hundredth.  What comes back for a longer one depends on the
    nearest double and on the database engine, which is the argument
    [db_numeric]. *)
Definition numeric_10_2 (db_numeric : Z -> Z) (x : Z) : Z :=
  if Z.abs x <? 10 ^ 10 then x else db_numeric x.

(** ** The Flask application ([src/app/api]) *)

Module Flask.

(** [orders/routes.py: gen_order_number] *)
Definition gen_order_number (e : Secrets.Entropy) : string :=
  Secrets.token_hex e 6.

(** What [OrderCreateSchema().load] returns. *)
Module OrderCreateSchema.
Record data := mk {
  service_id : Z;
  pickup_date : option Z;
  instructions : option string
}.
End OrderCreateSchema.

(** What [OrderUpdateSchema().load(..., partial=True)] returns: a key is
    absent ([None]), present with [null] ([Some None]; all three fields are
    [allow_none]) or present with a validated value; [status] is validated
    against the six status names. *)
Module OrderUpdateSchema.
Record data := mk {
  pickup_date : option (option Z);
  instructions : option (option string);
  status : option (option Order.Status)
}.
End OrderUpdateSchema.

(** [orders/routes.py: create_order], after [jwt_required] has produced the
    identity [customer_id].  [loaded] is [None] when the schema raises
    [ValidationError]. *)
Definition create_order (e : Secrets.Entropy)
    (db_accepts1 disk_ok db_accepts2 : bool)
    (customer_id : Z) (loaded : option OrderCreateSchema.data)
    (st : Store) : Response * Store :=
  match loaded with
  | None => (Msg 400 "Validation error", st)
  | Some data =>
    match get_customer customer_id st with
    | None => (Msg 401 "Invalid user", st)
    | Some customer =>
      match get_service (OrderCreateSchema.service_id data) st with
      | None => (Msg 400 "Invalid service", st)
      | Some service =>
        let order_number := gen_order_number e in
        let total_cost := Service.price service in
        let order :=
          Order.mk (next_id (map Order.id (orders st))) order_number
            (Customer.id customer) (Service.id service)
            (OrderCreateSchema.pickup_date data)
            (OrderCreateSchema.instructions data)
            total_cost (Some Order.created) None in
        match commit db_accepts1 (with_orders (orders st ++ [order]) st) with
        | inl exn => (Unhandled exn, st)
        | inr st1 =>
          let payload :=
            mkQrPayload (Order.order_number order) (Customer.email customer)
              (Service.name service) in
          match generate_order_qr disk_ok (Order.order_number order) payload with
          | inl exn => (Unhandled exn, st1)
          | inr qr_path =>
            let order := Order.set_qr_code_path (Some qr_path) order in
            match commit db_accepts2
                    (with_orders (put_order order (orders st1)) st1) with
            | inl exn => (Unhandled exn, st1)
            | inr st2 =>
              (OrderCreated (Order.id order) (Order.order_number order)
                 (Order.qr_code_path order), st2)
            end
          end
        end
      end
    end
  end.

(** [orders/routes.py: update_order] *)
Definition update_order (db_accepts : bool) (customer_id : Z) (order_id : Z)
    (loaded : option OrderUpdateSchema.data) (st : Store) : Response * Store :=
  match get_order order_id st with
  | None => (Msg 404 "Not Found", st)
  | Some order =>
    if negb (Order.customer_id order =? customer_id)
    then (Msg 403 "Forbidden", st)
    else
      match loaded with
      | None => (Msg 400 "Validation error", st)
      | Some data =>
        let order :=
          match OrderUpdateSchema.pickup_date data with
          | Some v => Order.set_pickup_date v order
          | None => order
          end in
        let order :=
          match OrderUpdateSchema.instructions data with
          | Some v => Order.set_instructions v order
          | None => order
          end in
        let order :=
          match OrderUpdateSchema.status data with
          | Some v => Order.set_status v order
          | None => order
          end in
        match commit db_accepts (with_orders (put_order order (orders st)) st) with
        | inl exn => (Unhandled exn, st)
        | inr st' => (OrderUpdated order, st')
        end
      end
  end.

(** [orders/routes.py: delete_order] *)
Definition delete_order (db_accepts : bool) (customer_id : Z) (order_id : Z)
    (st : Store) : Response * Store :=
  match get_order order_id st with
  | None => (Msg 404 "Not Found", st)
  | Some order =>
    if negb (Order.customer_id order =? customer_id)
    then (Msg 403 "Forbidden", st)
    else
      match commit db_accepts (session_delete_order order st) with
      | inl exn => (Unhandled exn, st)
      | inr st' => (Msg 200 "Deleted", st')
      end
  end.

(** The JSON body of [PUT /services/<id>]: a key is absent or present. *)
Module ServiceUpdate.
Record data := mk {
  name : option string;
  price : option Z;
  duration_minutes : option (option Z);
  status : option Service.Status
}.
End ServiceUpdate.

(** [services/routes.py: update_service] *)
Definition update_service (db_accepts : bool) (service_id : Z)
    (data : ServiceUpdate.data) (st : Store) : Response * Store :=
  match get_service service_id st with
  | None => (Msg 404 "Not Found", st)
  | Some service =>
    let service :=
      Service.mk (Service.id service)
        (match ServiceUpdate.name data with
         | Some v => v | None => Service.name service end)
        (match ServiceUpdate.price data with
         | Some v => v | None => Service.price service end)
        (match ServiceUpdate.duration_minutes data with
         | Some v => v | None => Service.duration_minutes service end)
        (match ServiceUpdate.status data with
         | Some v => v | None => Service.status service end) in
    match commit db_accepts
            (with_services (put_service service (services st)) st) with
    | inl exn => (Unhandled exn, st)
    | inr st' =>
      (ServiceUpdated (Service.id service) (Service.name service), st')
    end
  end.

(** [workers/routes.py: require_worker_token] *)
Definition require_worker_token (authorization : option string)
    (st : Store) : Response + Worker.t :=
  match bearer_token authorization with
  | None => inl (Msg 401 "Missing worker token")
  | Some token =>
    match worker_by_token token st with
    | None => inl (Msg 401 "Invalid token")
    | Some worker => inr worker
    end
  end.

(** The JSON body of [POST /workers/login]. *)
Module LoginBody.
Record data := mk {
  worker_id : option Z;
  password : option string
}.
End LoginBody.

(** [workers/routes.py: worker_login]; [if not worker_id] holds for a
    missing id and for [0]. *)
Definition worker_login (e : Secrets.Entropy) (db_accepts : bool)
    (data : LoginBody.data) (st : Store) : Response * Store :=
  let worker_id := LoginBody.worker_id data in
  let password := LoginBody.password data in
  match worker_id with
  | None => (Msg 400 "Missing worker_id", st)
  | Some worker_id =>
    if worker_id =? 0 then (Msg 400 "Missing worker_id", st)
    else
      match get_worker worker_id st with
      | None => (Msg 404 "Worker not found", st)
      | Some worker =>
        let token := Secrets.token_urlsafe e 32 in
        let worker := Worker.set_token (Some token) worker in
        match commit db_accepts
                (with_workers (put_worker worker (workers st)) st) with
        | inl exn => (Unhandled exn, st)
        | inr st' =>
          (WorkerToken token (Worker.id worker) (Worker.name worker)
             (Worker.email worker), st')
        end
      end
  end.

(** The JSON body of [POST /workers/scan]. *)
Module ScanBody.
Record data := mk {
  order_number : option string;
  action : option string;
  location : option string;
  note : option string
}.
End ScanBody.

(** The [if]/[elif] chain of [scan]: the status an action label assigns,
    if any. *)
Definition action_status (action : string) : option Order.Status :=
  if String.eqb action "picked_up" then Some Order.picked_up
  else if String.eqb action "processing" then Some Order.processing
  else if String.eqb action "completed" then Some Order.completed
  else if String.eqb action "delivered" then Some Order.delivered
  else None.

(** [workers/routes.py: scan] under [require_worker_token] *)
Definition scan (db_accepts : bool) (authorization : option string)
    (data : ScanBody.data) (st : Store) : Response * Store :=
  match require_worker_token authorization st with
  | inl resp => (resp, st)
  | inr worker =>
    match nonempty (ScanBody.order_number data),
          nonempty (ScanBody.action data) with
    | Some order_number, Some action =>
      match order_by_number order_number st with
      | None => (Msg 404 "Order not found", st)
      | Some order =>
        let track :=
          Track.mk (next_id (map Track.id (tracks st)))
            (Some (Order.id order)) (Some (Worker.id worker)) action
            (ScanBody.note data) (ScanBody.location data) in
        let work :=
          match action_status action with
          | Some s =>
              with_orders
                (put_order (Order.set_status (Some s) order) (orders st)) st
          | None => st
          end in
        match commit db_accepts (with_tracks (tracks st ++ [track]) work) with
        | inl exn => (Unhandled exn, st)
        | inr st' => (ScanRecorded (Track.id track) (Track.action track), st')
        end
      end
    | _, _ => (Msg 400 "Missing fields", st)
    end
  end.

(** [workers/routes.py: register_worker], after [jwt_required]; [loaded] is
    [None] when [WorkerCreateSchema] raises [ValidationError], which is
    answered with the messages of the error. *)
Module WorkerCreateSchema.
Record data := mk {
  name : string;
  email : option string
}.
End WorkerCreateSchema.

Definition register_worker (e : Secrets.Entropy) (db_accepts : bool)
    (loaded : option WorkerCreateSchema.data) (st : Store)
    : Reply Worker.t * Store :=
  match loaded with
  | None => (Err 400 "err.messages", st)
  | Some validated =>
    let w :=
      Worker.mk (next_id (map Worker.id (workers st)))
        (WorkerCreateSchema.name validated)
        (WorkerCreateSchema.email validated) None in
    let w := Worker.set_token (Some (Secrets.token_hex e 16)) w in
    match commit_workers db_accepts (with_workers (workers st ++ [w]) st) with
    | inl exn => (Raised exn, st)
    | inr st' => (Ok 201 w, st')
    end
  end.

(** [o.service.name if o.service else None] *)
Definition service_name (o : Order.t) (st : Store) : option string :=
  option_map Service.name (get_service (Order.service_id o) st).

(** One entry of [orders/routes.py: list_orders]. *)
Module OrderItem.
Record t := mk {
  id : Z;
  order_number : string;
  service_id : Z;
  service_name : option string;
  status : option Order.Status;
  total_cost : Z;
  qr_code_path : option string
}.
End OrderItem.

(** [orders/routes.py: list_orders] *)
Definition list_orders (customer_id : Z) (st : Store) : list OrderItem.t :=
  map (fun o =>
         OrderItem.mk (Order.id o) (Order.order_number o) (Order.service_id o)
           (service_name o st) (Order.status o) (Order.total_cost o)
           (Order.qr_code_path o))
    (filter (fun o => Order.customer_id o =? customer_id) (orders st)).

(** [models/order.py: Order.to_dict], without the two timestamps;
    [total_cost] is [0.0] when the stored amount is falsy. *)
Module OrderDict.
Record t := mk {
  id : Z;
  order_number : string;
  customer_id : Z;
  service_id : Z;
  service_name : option string;
  pickup_date : option Z;
  instructions : option string;
  total_cost : Z;
  status : option Order.Status;
  qr_code_path : option string
}.
End OrderDict.

Definition to_dict (o : Order.t) (st : Store) : OrderDict.t :=
  OrderDict.mk (Order.id o) (Order.order_number o) (Order.customer_id o)
    (Order.service_id o) (service_name o st) (Order.pickup_date o)
    (Order.instructions o)
    (if Order.total_cost o =? 0 then 0 else Order.total_cost o)
    (Order.status o) (Order.qr_code_path o).

(** One entry of [services/routes.py: list_services]. *)
Module ServiceItem.
Record t := mk {
  id : Z;
  name : string;
  price : Z;
  duration_minutes : option Z
}.
End ServiceItem.

Definition is_active (s : Service.t) : bool :=
  match Service.status s with
  | Service.active => true
  | Service.inactive => false
  end.

(** [services/routes.py: list_services] *)
Definition list_services (st : Store) : list ServiceItem.t :=
  map (fun s =>
         ServiceItem.mk (Service.id s) (Service.name s) (Service.price s)
           (Service.duration_minutes s))
    (filter is_active (services st)).

(** The JSON body of [POST /services]: [name], [price] and
    [duration_minutes] are read with [data.get], so a missing key and [null]
    are the same; [status] is read with the default ["active"], so a missing
    key ([None]) differs from [null] ([Some None]).  The price is the JSON
    number in hundredths. *)
Module ServiceCreate.
Record data := mk {
  name : option string;
  price : option Z;
  duration_minutes : option Z;
  status : option (option Service.Status)
}.
End ServiceCreate.

(** [services/routes.py: create_service], after [jwt_required].  A [null]
    status reaches the constructor as [None]; the INSERT of the unit of work
    leaves a [None] attribute out, so the column default ["active"] fills
    it, as it does for a missing key. *)
Definition create_service (db_numeric : Z -> Z) (db_accepts : bool)
    (data : ServiceCreate.data) (st : Store) : Reply (Z * string) * Store :=
  match nonempty (ServiceCreate.name data), ServiceCreate.price data with
  | Some name, Some price =>
    let s :=
      Service.mk (next_id (map Service.id (services st))) name
        (numeric_10_2 db_numeric price)
        (ServiceCreate.duration_minutes data)
        (match ServiceCreate.status data with
         | Some (Some v) => v
         | Some None | None => Service.active
         end) in
    match commit db_accepts (with_services (services st ++ [s]) st) with
    | inl exn => (Raised exn, st)
    | inr st' => (Ok 201 (Service.id s, Service.name s), st')
    end
  | _, _ => (Err 400 "Missing fields", st)
  end.

(** [services/routes.py: get_service] *)
Definition get_service (service_id : Z) (st : Store) : Reply Service.t :=
  match find (fun s => Service.id s =? service_id) (services st) with
  | None => Err 404 "Not Found"
  | Some service => Ok 200 service
  end.

(** [orders/routes.py: get_order] *)
Definition get_order (customer_id : Z) (order_id : Z) (st : Store)
    : Reply OrderDict.t :=
  match find (fun o => Order.id o =? order_id) (orders st) with
  | None => Err 404 "Not Found"
  | Some order =>
    if negb (Order.customer_id order =? customer_id)
    then Err 403 "Forbidden"
    else Ok 200 (to_dict order st)
  end.

End Flask.

(** ** The FastAPI application ([fabzclean-fastapi/app/api/v1]) *)

Module FastApi.

(** [orders.py: gen_order_number] *)
Definition gen_order_number (e : Secrets.Entropy) : string :=
  Secrets.token_hex e 6.

(** [schemas/order.py: OrderCreate] *)
Module OrderCreate.
Record t := mk {
  service_id : Z;
  pickup_date : option Z;
  instructions : option string
}.
End OrderCreate.

(** [schemas/worker.py: WorkerScanIn] *)
Module WorkerScanIn.
Record t := mk {
  order_number : string;
  action : string;
  location : option string
}.
End WorkerScanIn.

(** [orders.py: create_order]; [current] is the customer that
    [get_current_customer] resolved. *)
Definition create_order (e : Secrets.Entropy)
    (db_accepts1 disk_ok db_accepts2 : bool)
    (current : Customer.t) (payload : OrderCreate.t)
    (st : Store) : Response * Store :=
  match get_service (OrderCreate.service_id payload) st with
  | None => (Msg 400 "Invalid service", st)
  | Some svc =>
    let order_number := gen_order_number e in
    let total_cost := Service.price svc in
    let order :=
      Order.mk (next_id (map Order.id (orders st))) order_number
        (Customer.id current) (Service.id svc)
        (OrderCreate.pickup_date payload) (OrderCreate.instructions payload)
        total_cost (Some Order.created) None in
    match commit db_accepts1 (with_orders (orders st ++ [order]) st) with
    | inl exn => (Unhandled exn, st)
    | inr st1 =>
      let qr_payload :=
        mkQrPayload (Order.order_number order) (Customer.email current)
          (Service.name svc) in
      match generate_order_qr disk_ok (Order.order_number order) qr_payload with
      | inl exn => (Unhandled exn, st1)
      | inr qr_path =>
        let order := Order.set_qr_code_path (Some qr_path) order in
        match commit db_accepts2
                (with_orders (put_order order (orders st1)) st1) with
        | inl exn => (Unhandled exn, st1)
        | inr st2 => (OrderOut order, st2)
        end
      end
    end
  end.

(** [orders.py: update_order]; the body is an [OrderCreate], of which
    [pickup_date] and [instructions] are used when they are truthy. *)
Definition update_order (db_accepts : bool) (current : Customer.t)
    (order_id : Z) (payload : OrderCreate.t) (st : Store)
    : Response * Store :=
  match get_order order_id st with
  | None => (Msg 403 "Forbidden", st)
  | Some order =>
    if negb (Order.customer_id order =? Customer.id current)
    then (Msg 403 "Forbidden", st)
    else
      let order :=
        match OrderCreate.pickup_date payload with
        | Some v => Order.set_pickup_date (Some v) order
        | None => order
        end in
      let order :=
        match nonempty (OrderCreate.instructions payload) with
        | Some v => Order.set_instructions (Some v) order
        | None => order
        end in
      match commit db_accepts (with_orders (put_order order (orders st)) st) with
      | inl exn => (Unhandled exn, st)
      | inr st' => (Msg 200 "Updated", st')
      end
  end.

(** [orders.py: delete_order] *)
Definition delete_order (db_accepts : bool) (current : Customer.t)
    (order_id : Z) (st : Store) : Response * Store :=
  match get_order order_id st with
  | None => (Msg 403 "Forbidden", st)
  | Some order =>
    if negb (Order.customer_id order =? Customer.id current)
    then (Msg 403 "Forbidden", st)
    else
      match commit db_accepts (session_delete_order order st) with
      | inl exn => (Unhandled exn, st)
      | inr st' => (Msg 200 "Deleted", st')
      end
  end.

(** The [if]/[elif] chain of [scan]: the status an action label assigns,
    if any. *)
Definition action_status (action : string) : option Order.Status :=
  if String.eqb action "picked_up" then Some Order.picked_up
  else if String.eqb action "delivered" then Some Order.delivered
  else None.

(** [workers.py: scan] *)
Definition scan (db_accepts : bool) (authorization : option string)
    (payload : WorkerScanIn.t) (st : Store) : Response * Store :=
  match bearer_token authorization with
  | None => (Msg 401 "Missing worker token", st)
  | Some token =>
    match worker_by_token token st with
    | None => (Msg 401 "Invalid worker token", st)
    | Some worker =>
      match order_by_number (WorkerScanIn.order_number payload) st with
      | None => (Msg 404 "Order not found", st)
      | Some order =>
        let t :=
          Track.mk (next_id (map Track.id (tracks st)))
            (Some (Order.id order)) (Some (Worker.id worker))
            (WorkerScanIn.action payload) None
            (WorkerScanIn.location payload) in
        let work :=
          match action_status (WorkerScanIn.action payload) with
          | Some s =>
              with_orders
                (put_order (Order.set_status (Some s) order) (orders st)) st
          | None => st
          end in
        match commit db_accepts (with_tracks (tracks st ++ [t]) work) with
        | inl exn => (Unhandled exn, st)
        | inr st' => (ScanRecorded (Track.id t) (Track.action t), st')
        end
      end
    end
  end.

(** [orders.py: list_orders]; each row is returned with the name of its
    service when the service exists. *)
Definition list_orders (current : Customer.t) (st : Store)
    : list (Order.t * option string) :=
  map (fun r => (r, option_map Service.name (get_service (Order.service_id r) st)))
    (filter (fun o => Order.customer_id o =? Customer.id current) (orders st)).

Definition is_active (s : Service.t) : bool :=
  match Service.status s with
  | Service.active => true
  | Service.inactive => false
  end.

(** [services.py: list_services] *)
Definition list_services (st : Store) : list Service.t :=
  filter is_active (services st).

(** [schemas/service.py: ServiceCreate] *)
Module ServiceCreate.
Record t := mk {
  name : string;
  price : Z;
  duration_minutes : option Z
}.
End ServiceCreate.

(** [services.py: create_service]; the status is left to the column default
    [ServiceStatus.active], and [db.refresh] reads the row back. *)
Definition create_service (db_numeric : Z -> Z) (db_accepts : bool)
    (payload : ServiceCreate.t) (st : Store) : Reply Service.t * Store :=
  match find (fun s => String.eqb (Service.name s) (ServiceCreate.name payload))
          (services st) with
  | Some _ => (Err 400 "Service exists", st)
  | None =>
    let s :=
      Service.mk (next_id (map Service.id (services st)))
        (ServiceCreate.name payload)
        (numeric_10_2 db_numeric (ServiceCreate.price payload))
        (ServiceCreate.duration_minutes payload) Service.active in
    match commit db_accepts (with_services (services st ++ [s]) st) with
    | inl exn => (Raised exn, st)
    | inr st' => (Ok 201 s, st')
    end
  end.

(** [schemas/worker.py: WorkerCreate] *)
Module WorkerCreate.
Record t := mk {
  name : string;
  email : option string
}.
End WorkerCreate.

(** [workers.py: register_worker]; [admin_email] is [settings.ADMIN_EMAIL]
    and [current] the customer that [get_current_customer] resolved. *)
Definition register_worker (admin_email : string) (e : Secrets.Entropy)
    (db_accepts : bool) (current : Customer.t) (payload : WorkerCreate.t)
    (st : Store) : Reply Worker.t * Store :=
  if negb (String.eqb (Customer.email current) admin_email)
  then (Err 403 "Admin only", st)
  else
    let token := Secrets.token_hex e 16 in
    let w :=
      Worker.mk (next_id (map Worker.id (workers st)))
        (WorkerCreate.name payload) (WorkerCreate.email payload)
        (Some token) in
    match commit_workers db_accepts (with_workers (workers st ++ [w]) st) with
    | inl exn => (Raised exn, st)
    | inr st' => (Ok 200 w, st')
    end.

End FastApi.

(** ** The admin blueprint of the Flask application ([src/app/admin]) *)

Module FlaskAdmin.

(** The two environment variables [login] reads; [None] when unset. *)
Record Env := mkEnv {
  ADMIN_EMAIL : option string;
  ADMIN_PASSWORD : option string
}.

(** The session cookie: the keys that are set, newest first. *)
Definition Session := list (string * bool).

Fixpoint session_get (key : string) (session : Session) : option bool :=
  match session with
  | [] => None
  | (k, v) :: rest => if String.eqb k key then Some v else session_get key rest
  end.

Definition session_set (key : string) (v : bool) (session : Session)
    : Session :=
  (key, v) :: filter (fun kv => negb (String.eqb (fst kv) key)) session.

(** [==] on two values that are a string or [None]. *)
Definition eq_optional (a b : option string) : bool :=
  match a, b with
  | Some x, Some y => String.eqb x y
  | None, None => true
  | _, _ => false
  end.

(** The JSON body of [POST /admin/login]. *)
Module LoginBody.
Record data := mk {
  email : option string;
  password : option string
}.
End LoginBody.

(** [admin/routes.py: admin_required] around a view [f]. *)
Definition admin_required {A : Type} (f : Session -> Reply A * Session)
    (session : Session) : Reply A * Session :=
  match session_get "is_admin" session with
  | Some true => f session
  | _ => (Err 401 "Admin login required", session)
  end.

(** [admin/routes.py: login] *)
Definition login (env : Env) (data : LoginBody.data) (session : Session)
    : Reply string * Session :=
  let email := LoginBody.email data in
  let password := LoginBody.password data in
  let admin_email := ADMIN_EMAIL env in
  let admin_password := ADMIN_PASSWORD env in
  if eq_optional email admin_email && eq_optional password admin_password
  then (Ok 200 "ok", session_set "is_admin" true session)
  else (Err 401 "Bad creds", session).

(** [admin/routes.py: logout] *)
Definition logout : Session -> Reply string * Session :=
  admin_required (fun _ => (Ok 200 "logged out", [])).

(** One entry of [admin/routes.py: list_orders], without [created_at]. *)
Module OrderRow.
Record t := mk {
  id : Z;
  order_number : string;
  customer_id : Z;
  service_id : Z;
  status : option Order.Status;
  total_cost : Z
}.
End OrderRow.

(** [admin/routes.py: list_orders] *)
Definition list_orders (st : Store)
    : Session -> Reply (list OrderRow.t) * Session :=
  admin_required (fun session =>
    (Ok 200
       (map (fun o =>
               OrderRow.mk (Order.id o) (Order.order_number o)
                 (Order.customer_id o) (Order.service_id o) (Order.status o)
                 (Order.total_cost o)) (orders st)),
     session)).

End FlaskAdmin.

(** ** [src/app/utils/responses.py] and [src/app/utils/security.py] *)

Module Utils.

(** The ["pagination"] object of [paginated_response]. *)
Record Pagination := mkPagination {
  page : Z;
  per_page : Z;
  total : Z;
  pages : Z
}.

(** [responses.py: paginated_response], the document under ["data"];
    [None] when the division raises [ZeroDivisionError].  [//] rounds down,
    as [Z.div] does. *)
Definition paginated_response {A : Type} (items : list A) (page per_page : Z)
    (total : option Z) : option (list A * Pagination) :=
  let total :=
    match total with
    | None => Z.of_nat (List.length items)
    | Some t => t
    end in
  if 0 <? total then
    if per_page =? 0 then None
    else Some (items,
               mkPagination page per_page total
                 ((total + per_page - 1) / per_page))
  else Some (items, mkPagination page per_page total 0).

(** [security.py: generate_token] *)
Definition generate_token (e : Secrets.Entropy) (length : nat) : string :=
  Secrets.token_urlsafe e length.

(** [security.py: generate_order_token] *)
Definition generate_order_token (e : Secrets.Entropy) : string :=
  Secrets.token_urlsafe e 32.

Definition is_urlsafe (c : ascii) : bool :=
  let n := N_of_ascii c in
  ((65 <=? n) && (n <=? 90) || (97 <=? n) && (n <=? 122)
   || (48 <=? n) && (n <=? 57) || (n =? 45) || (n =? 95))%N.

End Utils.

(** ** Requests that write to the store

    The handlers above that can change the store, each with the arguments
    of one request, and the store a sequence of such requests leaves. *)

Inductive Request :=
| FlaskCreateOrder (e : Secrets.Entropy) (db_accepts1 disk_ok db_accepts2 : bool)
    (customer_id : Z) (loaded : option Flask.OrderCreateSchema.data)
| FlaskUpdateOrder (db_accepts : bool) (customer_id order_id : Z)
    (loaded : option Flask.OrderUpdateSchema.data)
| FlaskDeleteOrder (db_accepts : bool) (customer_id order_id : Z)
| FlaskCreateService (db_numeric : Z -> Z) (db_accepts : bool)
    (data : Flask.ServiceCreate.data)
| FlaskUpdateService (db_accepts : bool) (service_id : Z)
    (data : Flask.ServiceUpdate.data)
| FlaskWorkerLogin (e : Secrets.Entropy) (db_accepts : bool)
    (data : Flask.LoginBody.data)
| FlaskRegisterWorker (e : Secrets.Entropy) (db_accepts : bool)
    (loaded : option Flask.WorkerCreateSchema.data)
| FlaskScan (db_accepts : bool) (authorization : option string)
    (data : Flask.ScanBody.data)
| FastApiCreateOrder (e : Secrets.Entropy)
    (db_accepts1 disk_ok db_accepts2 : bool) (current : Customer.t)
    (payload : FastApi.OrderCreate.t)
| FastApiUpdateOrder (db_accepts : bool) (current : Customer.t) (order_id : Z)
    (payload : FastApi.OrderCreate.t)
| FastApiDeleteOrder (db_accepts : bool) (current : Customer.t) (order_id : Z)
| FastApiCreateService (db_numeric : Z -> Z) (db_accepts : bool)
    (payload : FastApi.ServiceCreate.t)
| FastApiRegisterWorker (admin_email : string) (e : Secrets.Entropy)
    (db_accepts : bool) (current : Customer.t)
    (payload : FastApi.WorkerCreate.t)
| FastApiScan (db_accepts : bool) (authorization : option string)
    (payload : FastApi.WorkerScanIn.t).

Definition handle (req : Request) (st : Store) : Store :=
  match req with
  | FlaskCreateOrder e d1 k d2 c l => snd (Flask.create_order e d1 k d2 c l st)
  | FlaskUpdateOrder d c o l => snd (Flask.update_order d c o l st)
  | FlaskDeleteOrder d c o => snd (Flask.delete_order d c o st)
  | FlaskCreateService n d b => snd (Flask.create_service n d b st)
  | FlaskUpdateService d i b => snd (Flask.update_service d i b st)
  | FlaskWorkerLogin e d b => snd (Flask.worker_login e d b st)
  | FlaskRegisterWorker e d l => snd (Flask.register_worker e d l st)
  | FlaskScan d a b => snd (Flask.scan d a b st)
  | FastApiCreateOrder e d1 k d2 c p => snd (FastApi.create_order e d1 k d2 c p st)
  | FastApiUpdateOrder d c o p => snd (FastApi.update_order d c o p st)
  | FastApiDeleteOrder d c o => snd (FastApi.delete_order d c o st)
  | FastApiCreateService n d p => snd (FastApi.create_service n d p st)
  | FastApiRegisterWorker a e d c p => snd (FastApi.register_worker a e d c p st)
  | FastApiScan d a p => snd (FastApi.scan d a p st)
  end.

Definition run (reqs : list Request) (st : Store) : Store :=
  fold_left (fun s req => handle req s) reqs st.

(** The working copy a scan commits: the new Track row together with the
    status the action assigns. *)
Definition scan_work (status : option Order.Status) (order : Order.t)
    (tr : Track.t) (st : Store) : Store :=
  with_tracks (tracks st ++ [tr])
    match status with
    | Some s =>
        with_orders (put_order (Order.set_status (Some s) order) (orders st)) st
    | None => st
    end.

(** ** Sample data

    The rows of the fixtures of [tests/conftest.py], and the same store after
    the worker has scanned the order once. *)

Definition sample_service : Service.t :=
  Service.mk 1 "Test Service" 10000 (Some 60) Service.active.

Definition sample_customer : Customer.t :=
  Customer.mk 1 "Test Customer" "test@example.com" (Some "1234567890")
    "$argon2id$" true.

Definition sample_order : Order.t :=
  Order.mk 1 "ORD-TEST-001" 1 1 None None 10000 (Some Order.created) None.

Definition sample_worker : Worker.t :=
  Worker.mk 1 "Test Worker" (Some "worker@example.com")
    (Some "test-worker-token").

Definition sample_store : Store :=
  mkStore [sample_service] [sample_customer] [sample_order] [sample_worker] [].

Definition sample_track : Track.t :=
  Track.mk 1 (Some 1) (Some 1) "picked_up" (Some "Picked up")
    (Some "Warehouse A").

Definition sample_store_scanned : Store :=
  mkStore [sample_service] [sample_customer]
    [Order.set_status (Some Order.picked_up) sample_order]
    [sample_worker] [sample_track].

Definition sample_authorization : option string :=
  Some "Bearer test-worker-token".

(** Six bytes and thirty-two bytes of entropy for the samples. *)
Definition sample_entropy : Secrets.Entropy :=
  fun i => Secrets.byte_of_N (N.of_nat (17 * i + 3) mod 256).

(** The columns of an order that no handler assigns after the insert. *)
Definition same_fixed_columns (o' o : Order.t) : Prop :=
  Order.order_number o' = Order.order_number o
  /\ Order.customer_id o' = Order.customer_id o
  /\ Order.service_id o' = Order.service_id o
  /\ Order.total_cost o' = Order.total_cost o.

(** The sample store with an order that already has the number the sample
    entropy yields, with a second, inactive service, and with a second
    worker. *)
Definition sample_store_taken : Store :=
  with_orders
    [sample_order;
     Order.mk 2 "031425364758" 1 1 None None 10000 (Some Order.created) None]
    sample_store.

Definition sample_inactive_service : Service.t :=
  Service.mk 2 "Dry Clean" 25000 None Service.inactive.

Definition sample_store_inactive : Store :=
  with_services [sample_service; sample_inactive_service] sample_store.

Definition sample_other_customer : Customer.t :=
  Customer.mk 2 "Other Customer" "other@example.com" None "$argon2id$" true.

(** The foreign keys of a Track row: [order_id] is the id of a stored
    order and [worker_id], where it is set, the id of a stored worker. *)
Definition track_refers (st : Store) (tr : Track.t) : bool :=
  match Track.order_id tr with
  | Some i => memb Z.eqb i (map Order.id (orders st))
  | None => false
  end
  && match Track.worker_id tr with
     | Some i => memb Z.eqb i (map Worker.id (workers st))
     | None => true
     end.

Definition tracks_refer (st : Store) : bool :=
  forallb (track_refers st) (tracks st).

(** * Properties *)

(** ** Order numbers *)

Section OrderNumbers.
Import Secrets.

Lemma token_bytes_length e n : List.length (token_bytes e n) = n.
Proof. unfold token_bytes. now rewrite length_map, length_seq. Qed.

Lemma hexlify_length bs : String.length (hexlify bs) = (2 * List.length bs)%nat.
Proof.
  induction bs as [|b bs IH]; [reflexivity|].
  cbn [hexlify hexlify_byte String.append String.length List.length].
  rewrite IH. lia.
Qed.

Lemma unhex_hex_digit n : (n < 16)%N -> unhex_digit (hex_digit n) = Some n.
Proof.
  intros H.
  assert (Hn : exists k, (k < 16)%nat /\ n = N.of_nat k).
  { exists (N.to_nat n). split; [lia | now rewrite N2Nat.id]. }
  destruct Hn as (k & Hk & ->).
  do 16 (destruct k as [|k]; [reflexivity|]). lia.
Qed.

Lemma nibbles b :
  (Byte.to_N b / 16 < 16)%N /\ (Byte.to_N b mod 16 < 16)%N.
Proof.
  pose proof (Byte.to_N_bounded b) as Hb. split.
  - apply N.Div0.div_lt_upper_bound. lia.
  - apply N.mod_lt. discriminate.
Qed.

Lemma hexlify_lower_hex bs : string_forallb is_lower_hex (hexlify bs) = true.
Proof.
  induction bs as [|b bs IH]; [reflexivity|].
  destruct (nibbles b) as [Hhi Hlo].
  cbn [hexlify hexlify_byte String.append string_forallb].
  unfold is_lower_hex at 1 2.
  now rewrite (unhex_hex_digit _ Hhi), (unhex_hex_digit _ Hlo), IH.
Qed.

Lemma unhexlify_from_hexlify bs acc :
  unhexlify_from acc (hexlify bs)
  = Some (fold_left (fun a b => (256 * a + Byte.to_N b)%N) bs acc).
Proof.
  revert acc. induction bs as [|b bs IH]; intros acc; [reflexivity|].
  destruct (nibbles b) as [Hhi Hlo].
  cbn [hexlify hexlify_byte String.append unhexlify_from fold_left].
  rewrite (unhex_hex_digit _ Hhi), (unhex_hex_digit _ Hlo), IH.
  do 2 f_equal.
  pose proof (N.div_mod (Byte.to_N b) 16). lia.
Qed.

Lemma unhexlify_hexlify bs : unhexlify (hexlify bs) = Some (bytes_to_N bs).
Proof. apply unhexlify_from_hexlify. Qed.

Lemma bytes_to_N_snoc bs b :
  bytes_to_N (bs ++ [b]) = (256 * bytes_to_N bs + Byte.to_N b)%N.
Proof. unfold bytes_to_N. now rewrite fold_left_app. Qed.

Lemma bytes_to_N_bound bs : (bytes_to_N bs < 256 ^ N.of_nat (List.length bs))%N.
Proof.
  induction bs as [|b bs IH] using rev_ind; [cbn; lia|].
  rewrite bytes_to_N_snoc, length_app, Nat.add_comm.
  cbn [List.length Nat.add]. rewrite Nat2N.inj_succ, N.pow_succ_r'.
  pose proof (Byte.to_N_bounded b). lia.
Qed.

Lemma byte_of_to_N b : byte_of_N (Byte.to_N b) = b.
Proof. unfold byte_of_N. now rewrite Byte.of_to_N. Qed.

Lemma to_N_byte_of n : (n < 256)%N -> Byte.to_N (byte_of_N n) = n.
Proof.
  intros H. unfold byte_of_N.
  destruct (Byte.of_N n) as [b|] eqn:E.
  - now apply Byte.to_of_N.
  - apply Byte.of_N_None_iff in E. lia.
Qed.

Lemma N_to_bytes_length k n : List.length (N_to_bytes k n) = k.
Proof.
  revert n. induction k as [|k IH]; intros n; [reflexivity|].
  cbn [N_to_bytes]. rewrite length_app, IH. cbn. lia.
Qed.

Lemma N_to_bytes_to_N bs : N_to_bytes (List.length bs) (bytes_to_N bs) = bs.
Proof.
  induction bs as [|b bs IH] using rev_ind; [reflexivity|].
  rewrite bytes_to_N_snoc, length_app, Nat.add_comm.
  cbn [List.length Nat.add N_to_bytes].
  pose proof (Byte.to_N_bounded b) as Hb.
  assert (Hq : ((256 * bytes_to_N bs + Byte.to_N b) / 256 = bytes_to_N bs)%N).
  { symmetry. apply (N.div_unique _ 256 _ (Byte.to_N b)); lia. }
  assert (Hr : ((256 * bytes_to_N bs + Byte.to_N b) mod 256 = Byte.to_N b)%N).
  { symmetry. apply (N.mod_unique _ 256 (bytes_to_N bs)); lia. }
  now rewrite Hq, Hr, IH, byte_of_to_N.
Qed.

Lemma bytes_to_N_to_bytes k n :
  (n < 256 ^ N.of_nat k)%N -> bytes_to_N (N_to_bytes k n) = n.
Proof.
  revert n. induction k as [|k IH]; intros n H.
  - cbn in *. lia.
  - rewrite Nat2N.inj_succ, N.pow_succ_r' in H.
    cbn [N_to_bytes]. rewrite bytes_to_N_snoc, IH.
    + rewrite to_N_byte_of by (apply N.mod_lt; discriminate).
      pose proof (N.div_mod n 256). lia.
    + apply N.Div0.div_lt_upper_bound. lia.
Qed.

Lemma token_bytes_of_list bs :
  token_bytes (fun i => nth i bs x00) (List.length bs) = bs.
Proof.
  unfold token_bytes.
  induction bs as [|b bs IH] using rev_ind; [reflexivity|].
  rewrite length_app, Nat.add_comm. cbn [List.length Nat.add].
  rewrite seq_S, map_app. cbn [map Nat.add]. f_equal.
  - rewrite <- IH at 2. apply map_ext_in. intros i Hi.
    apply in_seq in Hi. apply app_nth1. lia.
  - now rewrite nth_middle.
Qed.

End OrderNumbers.

(** C9.  The order number of either backend is the hexadecimal encoding of
    six random bytes: twelve characters, each a digit or a letter from a to
    f, hence non-empty and within the 64 characters of the [order_number]
    column.  Read as a number it lies below 2^48; every number below 2^48 is
    the reading of an order number the generator can produce; and order
    numbers with the same reading are the same string: the generator draws
    from exactly 2^48 values. *)
Theorem gen_order_number_format (e : Secrets.Entropy) :
  FastApi.gen_order_number e = Flask.gen_order_number e
  /\ Flask.gen_order_number e
     = Secrets.hexlify (Secrets.token_bytes e 6)
  /\ List.length (Secrets.token_bytes e 6) = 6%nat
  /\ String.length (Flask.gen_order_number e) = 12%nat
  /\ Secrets.string_forallb Secrets.is_lower_hex (Flask.gen_order_number e)
     = true
  /\ Flask.gen_order_number e <> EmptyString
  /\ (String.length (Flask.gen_order_number e) <= 64)%nat
  /\ (exists n, (n < 2 ^ 48)%N
                /\ Secrets.unhexlify (Flask.gen_order_number e) = Some n)
  /\ (forall n, (n < 2 ^ 48)%N ->
        exists e', Secrets.unhexlify (Flask.gen_order_number e') = Some n)
  /\ (forall e1 e2,
        Secrets.unhexlify (Flask.gen_order_number e1)
        = Secrets.unhexlify (Flask.gen_order_number e2) ->
        Flask.gen_order_number e1 = Flask.gen_order_number e2).
Proof.
  unfold FastApi.gen_order_number, Flask.gen_order_number, Secrets.token_hex.
  assert (Hlen : forall e0,
             String.length (Secrets.hexlify (Secrets.token_bytes e0 6)) = 12%nat).
  { intros e0. now rewrite hexlify_length, token_bytes_length. }
  split; [reflexivity|]. split; [reflexivity|].
  split; [apply token_bytes_length|]. split; [apply Hlen|].
  split; [apply hexlify_lower_hex|].
  split; [intros H; specialize (Hlen e); rewrite H in Hlen; discriminate|].
  split; [rewrite Hlen; lia|].
  split; [|split].
  - exists (Secrets.bytes_to_N (Secrets.token_bytes e 6)). split.
    + pose proof (bytes_to_N_bound (Secrets.token_bytes e 6)) as Hb.
      now rewrite token_bytes_length in Hb.
    + apply unhexlify_hexlify.
  - intros n Hn.
    exists (fun i => nth i (Secrets.N_to_bytes 6 n) x00).
    pose proof (token_bytes_of_list (Secrets.N_to_bytes 6 n)) as Ht.
    rewrite N_to_bytes_length in Ht. rewrite Ht, unhexlify_hexlify.
    f_equal. now apply bytes_to_N_to_bytes.
  - intros e1 e2. rewrite !unhexlify_hexlify. intros H.
    injection H as H. f_equal.
    rewrite <- (N_to_bytes_to_N (Secrets.token_bytes e1 6)).
    rewrite <- (N_to_bytes_to_N (Secrets.token_bytes e2 6)).
    now rewrite H, !token_bytes_length.
Qed.

(** ** The store: keys, constraints and the commit *)

Section UniqueFacts.
Context {K : Type} (eqb : K -> K -> bool).
Hypothesis eqb_spec : forall x y, eqb x y = true <-> x = y.

Lemma memb_In (a : K) (l : list K) : memb eqb a l = true <-> In a l.
Proof.
  induction l as [|x l IH]; cbn.
  - split; [discriminate | tauto].
  - rewrite orb_true_iff, IH, eqb_spec. split; intros [H|H]; auto.
Qed.

Lemma memb_false (a : K) (l : list K) : memb eqb a l = false <-> ~ In a l.
Proof.
  rewrite <- memb_In. destruct (memb eqb a l); split; congruence.
Qed.

Lemma uniqueb_NoDup (l : list K) : uniqueb eqb l = true <-> NoDup l.
Proof.
  induction l as [|x l IH]; cbn.
  - split; [constructor | reflexivity].
  - rewrite andb_true_iff, negb_true_iff, memb_false, IH.
    split.
    + intros [H1 H2]. now constructor.
    + intros H. inversion H. auto.
Qed.

Lemma uniqueb_snoc (l : list K) (a : K) :
  uniqueb eqb l = true -> ~ In a l -> uniqueb eqb (l ++ [a]) = true.
Proof.
  rewrite !uniqueb_NoDup. intros Hl Ha.
  apply NoDup_app; [assumption | repeat constructor; intros [] | ].
  intros x Hx [<-|[]]. contradiction.
Qed.

Lemma unique_key_eq {A : Type} (key : A -> K) (l : list A) (x y : A) :
  uniqueb eqb (map key l) = true ->
  In x l -> In y l -> key x = key y -> x = y.
Proof.
  rewrite uniqueb_NoDup.
  induction l as [|z l IH]; cbn; [tauto|].
  intros Hnd Hx Hy Hk. inversion Hnd as [|? ? Hz Hl]; subst.
  destruct Hx as [->|Hx], Hy as [->|Hy]; auto.
  - exfalso. apply Hz. rewrite Hk. now apply in_map.
  - exfalso. apply Hz. rewrite <- Hk. now apply in_map.
Qed.

End UniqueFacts.

Lemma string_eqb_spec (x y : string) : String.eqb x y = true <-> x = y.
Proof. apply String.eqb_eq. Qed.

Lemma next_id_above (ids : list Z) (i : Z) : In i ids -> i < next_id ids.
Proof.
  unfold next_id. induction ids as [|x ids IH]; cbn [fold_right In]; [tauto|].
  intros [->|H]; [lia|]. specialize (IH H). lia.
Qed.

Lemma next_id_fresh (ids : list Z) : ~ In (next_id ids) ids.
Proof. intros H. apply next_id_above in H. lia. Qed.

Lemma in_put_order (o x : Order.t) (l : list Order.t) :
  In x (put_order o l) -> x = o \/ In x l.
Proof.
  unfold put_order. rewrite in_map_iff. intros (y & Hy & Hin).
  destruct (Order.id y =? Order.id o); subst; auto.
Qed.

Lemma map_put_order {B : Type} (g : Order.t -> B) (o : Order.t)
    (l : list Order.t) :
  (forall x, In x l -> Order.id x = Order.id o -> g x = g o) ->
  map g (put_order o l) = map g l.
Proof.
  intros H. unfold put_order. rewrite map_map. apply map_ext_in.
  intros x Hx. destruct (Z.eqb_spec (Order.id x) (Order.id o)); auto.
  symmetry. auto.
Qed.

Lemma put_order_absent (o : Order.t) (l : list Order.t) :
  ~ In (Order.id o) (map Order.id l) -> put_order o l = l.
Proof.
  intros H. unfold put_order. rewrite <- (map_id l) at 2.
  apply map_ext_in. intros x Hx.
  destruct (Z.eqb_spec (Order.id x) (Order.id o)) as [E|]; [|reflexivity].
  exfalso. apply H. rewrite <- E. now apply in_map.
Qed.

Lemma put_order_snoc (o o' : Order.t) (l : list Order.t) :
  Order.id o' = Order.id o -> ~ In (Order.id o) (map Order.id l) ->
  put_order o' (l ++ [o]) = (l ++ [o'])%list.
Proof.
  intros E H. unfold put_order. rewrite map_app. cbn [map].
  rewrite <- E, Z.eqb_refl. f_equal.
  apply (put_order_absent o'). now rewrite E.
Qed.

Lemma get_order_put (o : Order.t) (l : list Order.t) :
  In (Order.id o) (map Order.id l) ->
  find (fun x => Order.id x =? Order.id o) (put_order o l) = Some o.
Proof.
  induction l as [|x l IH]; cbn; [tauto|].
  destruct (Z.eqb_spec (Order.id x) (Order.id o)) as [E|NE].
  - intros _. now rewrite Z.eqb_refl.
  - intros [H|H]; [contradiction|].
    destruct (Z.eqb_spec (Order.id x) (Order.id o)); [contradiction|]. auto.
Qed.

Lemma get_order_put_other (o : Order.t) (i : Z) (l : list Order.t) :
  i <> Order.id o ->
  find (fun x => Order.id x =? i) (put_order o l)
  = find (fun x => Order.id x =? i) l.
Proof.
  intros NE. induction l as [|x l IH]; cbn; [reflexivity|].
  destruct (Z.eqb_spec (Order.id x) (Order.id o)) as [E|NE'].
  - destruct (Z.eqb_spec (Order.id o) i); [congruence|].
    destruct (Z.eqb_spec (Order.id x) i); [congruence|]. apply IH.
  - destruct (Order.id x =? i); [reflexivity | apply IH].
Qed.

Lemma orders_ok_put (o o0 : Order.t) (l : list Order.t) :
  orders_ok l = true -> In o0 l ->
  Order.id o = Order.id o0 -> Order.order_number o = Order.order_number o0 ->
  is_some (Order.status o) = true ->
  orders_ok (put_order o l) = true.
Proof.
  unfold orders_ok. rewrite !andb_true_iff.
  intros [[Hst Hid] Hnum] Hin Eid Enum Hsome.
  assert (Hsame : forall x, In x l -> Order.id x = Order.id o -> x = o0).
  { intros x Hx E. apply (unique_key_eq Z.eqb Z.eqb_eq Order.id l); auto.
    congruence. }
  repeat split.
  - apply forallb_forall. intros x Hx.
    apply in_put_order in Hx as [->|Hx]; [assumption|].
    now apply (proj1 (forallb_forall _ _) Hst).
  - rewrite map_put_order; [assumption | auto].
  - rewrite map_put_order; [assumption|].
    intros x Hx E. rewrite (Hsame x Hx E). now symmetry.
Qed.

Lemma orders_ok_snoc (o : Order.t) (l : list Order.t) :
  orders_ok l = true ->
  ~ In (Order.id o) (map Order.id l) ->
  ~ In (Order.order_number o) (map Order.order_number l) ->
  is_some (Order.status o) = true ->
  orders_ok (l ++ [o]) = true.
Proof.
  unfold orders_ok. rewrite !andb_true_iff.
  intros [[Hst Hid] Hnum] Hi Hn Hsome.
  rewrite forallb_app, !map_app. cbn [forallb map].
  rewrite Hst, Hsome. repeat split.
  - apply (uniqueb_snoc Z.eqb Z.eqb_eq); assumption.
  - apply (uniqueb_snoc String.eqb string_eqb_spec); assumption.
Qed.

Lemma tracks_ok_snoc (tr : Track.t) (l : list Track.t) :
  tracks_ok (l ++ [tr]) = tracks_ok l && is_some (Track.order_id tr).
Proof.
  unfold tracks_ok. rewrite forallb_app. cbn. now rewrite andb_true_r.
Qed.

Lemma commit_inr (db_accepts : bool) (work st' : Store) :
  commit db_accepts work = inr st' ->
  db_accepts = true /\ integrity work = true /\ st' = work.
Proof.
  unfold commit. destruct db_accepts; cbn; [|discriminate].
  destruct (integrity work); [|discriminate].
  intros H. injection H as <-. auto.
Qed.

Lemma commit_accepts (work : Store) :
  integrity work = true -> commit true work = inr work.
Proof. unfold commit. cbn. now intros ->. Qed.

Lemma integrity_parts (st : Store) :
  integrity st = true <->
  services_ok (services st) = true /\ orders_ok (orders st) = true
  /\ tracks_ok (tracks st) = true.
Proof. unfold integrity. rewrite !andb_true_iff. tauto. Qed.

(** ** Scans *)

Lemma order_by_number_In (number : string) (st : Store) (o : Order.t) :
  order_by_number number st = Some o ->
  In o (orders st) /\ Order.order_number o = number.
Proof.
  unfold order_by_number. intros H. apply find_some in H as [Hin Heq].
  split; [assumption | now apply String.eqb_eq].
Qed.

Lemma worker_by_token_In (tok : string) (st : Store) (w : Worker.t) :
  worker_by_token tok st = Some w ->
  In w (workers st) /\ Worker.token w = Some tok.
Proof.
  unfold worker_by_token, has_token. intros H.
  apply find_some in H as [Hin Heq]. split; [assumption|].
  destruct (Worker.token w); [|discriminate].
  apply String.eqb_eq in Heq. now subst.
Qed.

Lemma commit_cases (db_accepts : bool) (work : Store) :
  (exists exn, commit db_accepts work = inl exn)
  \/ (db_accepts = true /\ integrity work = true
      /\ commit db_accepts work = inr work).
Proof.
  unfold commit. destruct db_accepts; cbn; [|eauto].
  destruct (integrity work); eauto.
Qed.

Lemma flask_scan_cases (db_accepts : bool) (authorization : option string)
    (data : Flask.ScanBody.data) (st : Store) :
  (is_success (fst (Flask.scan db_accepts authorization data st)) = false
   /\ snd (Flask.scan db_accepts authorization data st) = st)
  \/ exists worker number action order,
       Flask.require_worker_token authorization st = inr worker
       /\ nonempty (Flask.ScanBody.order_number data) = Some number
       /\ nonempty (Flask.ScanBody.action data) = Some action
       /\ order_by_number number st = Some order
       /\ Flask.scan db_accepts authorization data st
          = (ScanRecorded (next_id (map Track.id (tracks st))) action,
             scan_work (Flask.action_status action) order
               (Track.mk (next_id (map Track.id (tracks st)))
                  (Some (Order.id order)) (Some (Worker.id worker)) action
                  (Flask.ScanBody.note data) (Flask.ScanBody.location data))
               st).
Proof.
  unfold Flask.scan.
  destruct (Flask.require_worker_token authorization st) as [resp|worker] eqn:Hw.
  - left. split; [|reflexivity].
    unfold Flask.require_worker_token in Hw.
    destruct (bearer_token authorization); [|now inversion Hw].
    destruct (worker_by_token s st); now inversion Hw.
  - destruct (nonempty (Flask.ScanBody.order_number data)) as [number|];
      [|left; split; reflexivity].
    destruct (nonempty (Flask.ScanBody.action data)) as [action|];
      [|left; split; reflexivity].
    destruct (order_by_number number st) as [order|] eqn:Ho;
      [|left; split; reflexivity].
    match goal with
    | |- context [commit db_accepts ?w] =>
        destruct (commit_cases db_accepts w) as [[exn Hc]|(_ & _ & Hc)];
        rewrite Hc
    end.
    + left. split; reflexivity.
    + right. exists worker, number, action, order. repeat split; auto.
Qed.

Lemma fastapi_scan_cases (db_accepts : bool) (authorization : option string)
    (payload : FastApi.WorkerScanIn.t) (st : Store) :
  (is_success (fst (FastApi.scan db_accepts authorization payload st)) = false
   /\ snd (FastApi.scan db_accepts authorization payload st) = st)
  \/ exists token worker order,
       bearer_token authorization = Some token
       /\ worker_by_token token st = Some worker
       /\ order_by_number (FastApi.WorkerScanIn.order_number payload) st
          = Some order
       /\ FastApi.scan db_accepts authorization payload st
          = (ScanRecorded (next_id (map Track.id (tracks st)))
               (FastApi.WorkerScanIn.action payload),
             scan_work
               (FastApi.action_status (FastApi.WorkerScanIn.action payload))
               order
               (Track.mk (next_id (map Track.id (tracks st)))
                  (Some (Order.id order)) (Some (Worker.id worker))
                  (FastApi.WorkerScanIn.action payload) None
                  (FastApi.WorkerScanIn.location payload))
               st).
Proof.
  unfold FastApi.scan.
  destruct (bearer_token authorization) as [token|];
    [|left; split; reflexivity].
  destruct (worker_by_token token st) as [worker|] eqn:Hw;
    [|left; split; reflexivity].
  destruct (order_by_number _ st) as [order|] eqn:Ho;
    [|left; split; reflexivity].
  match goal with
  | |- context [commit db_accepts ?w] =>
      destruct (commit_cases db_accepts w) as [[exn Hc]|(_ & _ & Hc)];
      rewrite Hc
  end.
  - left. split; reflexivity.
  - right. exists token, worker, order. repeat split; auto.
Qed.

Lemma scan_work_status (s : Order.Status) (order : Order.t) (tr : Track.t)
    (st : Store) :
  In order (orders st) ->
  get_order (Order.id order) (scan_work (Some s) order tr st)
  = Some (Order.set_status (Some s) order).
Proof.
  intros Hin. unfold get_order, scan_work. cbn.
  apply (get_order_put (Order.set_status (Some s) order)).
  cbn. now apply in_map.
Qed.

(** The Flask handler does what the specification asks of a recorded scan:
    the new Track row carries the action, the order and the worker, and the
    four lifecycle actions set the status they name while any other label
    leaves every order as it was. *)
Lemma flask_scan_recorded (db_accepts : bool) (authorization : option string)
    (data : Flask.ScanBody.data) (st : Store) :
  is_success (fst (Flask.scan db_accepts authorization data st)) = true ->
  exists worker order action track_id,
    Flask.require_worker_token authorization st = inr worker
    /\ nonempty (Flask.ScanBody.action data) = Some action
    /\ In order (orders st)
    /\ Some (Order.order_number order)
       = nonempty (Flask.ScanBody.order_number data)
    /\ fst (Flask.scan db_accepts authorization data st)
       = ScanRecorded track_id action
    /\ tracks (snd (Flask.scan db_accepts authorization data st))
       = (tracks st
          ++ [Track.mk track_id (Some (Order.id order))
                (Some (Worker.id worker)) action (Flask.ScanBody.note data)
                (Flask.ScanBody.location data)])%list
    /\ ~ In track_id (map Track.id (tracks st))
    /\ match Flask.action_status action with
       | Some s =>
           option_map Order.status
             (get_order (Order.id order)
                (snd (Flask.scan db_accepts authorization data st)))
           = Some (Some s)
       | None =>
           orders (snd (Flask.scan db_accepts authorization data st))
           = orders st
       end.
Proof.
  intros Hok.
  destruct (flask_scan_cases db_accepts authorization data st)
    as [[Hf _]|(worker & number & action & order & Hw & Hn & Ha & Ho & Hs)].
  - congruence.
  - apply order_by_number_In in Ho as [Hin Hnum].
    exists worker, order, action, (next_id (map Track.id (tracks st))).
    rewrite Hs. cbn [fst snd].
    repeat split; auto using next_id_fresh.
    + congruence.
    + destruct (Flask.action_status action) as [s|] eqn:Hact.
      * now rewrite scan_work_status.
      * reflexivity.
Qed.

Lemma flask_action_status_lifecycle :
  Flask.action_status "picked_up" = Some Order.picked_up
  /\ Flask.action_status "processing" = Some Order.processing
  /\ Flask.action_status "completed" = Some Order.completed
  /\ Flask.action_status "delivered" = Some Order.delivered
  /\ forall action,
       action <> "picked_up" -> action <> "processing" ->
       action <> "completed" -> action <> "delivered" ->
       Flask.action_status action = None.
Proof.
  repeat split; try reflexivity.
  intros action H1 H2 H3 H4. unfold Flask.action_status.
  apply String.eqb_neq in H1, H2, H3, H4. now rewrite H1, H2, H3, H4.
Qed.

(** C1.  In the FastAPI backend a scan with the lifecycle action
    [processing] (and likewise [completed]) by an authenticated worker
    against an existing order is recorded, and its Track row is appended
    with the action, the order id and the worker id, but the order keeps its
    former status [created]; the Flask backend sets [processing] and
    [completed] on the same input. *)
Theorem fastapi_scan_processing_keeps_status :
  let scan action :=
    FastApi.scan true sample_authorization
      (FastApi.WorkerScanIn.mk "ORD-TEST-001" action None) sample_store in
  let scan' action :=
    Flask.scan true sample_authorization
      (Flask.ScanBody.mk (Some "ORD-TEST-001") (Some action) None None)
      sample_store in
  fst (scan "processing") = ScanRecorded 1 "processing"
  /\ tracks (snd (scan "processing"))
     = [Track.mk 1 (Some 1) (Some 1) "processing" None None]
  /\ option_map Order.status (get_order 1 (snd (scan "processing")))
     = Some (Some Order.created)
  /\ fst (scan "completed") = ScanRecorded 1 "completed"
  /\ option_map Order.status (get_order 1 (snd (scan "completed")))
     = Some (Some Order.created)
  /\ option_map Order.status (get_order 1 (snd (scan' "processing")))
     = Some (Some Order.processing)
  /\ option_map Order.status (get_order 1 (snd (scan' "completed")))
     = Some (Some Order.completed).
Proof. cbv zeta. repeat split; vm_compute; reflexivity. Qed.

(** Either scan handler commits once, so a scan has two outcomes only.
    Either it fails and the committed store is the one before the request:
    no Track row, no status change.  Or it is recorded, and then the Track
    row has been appended and, in the same commit, the order carries the
    status that the handler assigns to the action; for an action to which
    the handler assigns none, the orders are as before.  For
    [workers/routes.py: scan] these are the four lifecycle actions; for
    [v1/workers.py: scan] only [picked_up] and [delivered], so that a
    recorded [processing] or [completed] falls under "assigns none". *)
Theorem scan_atomic (db_accepts : bool) (authorization : option string)
    (st : Store) :
  (forall data : Flask.ScanBody.data,
     let r := Flask.scan db_accepts authorization data st in
     (is_success (fst r) = false /\ snd r = st)
     \/ exists worker order action,
          In worker (workers st) /\ In order (orders st)
          /\ fst r = ScanRecorded (next_id (map Track.id (tracks st))) action
          /\ tracks (snd r)
             = (tracks st
                ++ [Track.mk (next_id (map Track.id (tracks st)))
                      (Some (Order.id order)) (Some (Worker.id worker)) action
                      (Flask.ScanBody.note data)
                      (Flask.ScanBody.location data)])%list
          /\ match Flask.action_status action with
             | Some s =>
                 orders (snd r)
                 = put_order (Order.set_status (Some s) order) (orders st)
                 /\ get_order (Order.id order) (snd r)
                    = Some (Order.set_status (Some s) order)
             | None => orders (snd r) = orders st
             end)
  /\ (forall payload : FastApi.WorkerScanIn.t,
        let r := FastApi.scan db_accepts authorization payload st in
        (is_success (fst r) = false /\ snd r = st)
        \/ exists worker order,
             In worker (workers st) /\ In order (orders st)
             /\ fst r
                = ScanRecorded (next_id (map Track.id (tracks st)))
                    (FastApi.WorkerScanIn.action payload)
             /\ tracks (snd r)
                = (tracks st
                   ++ [Track.mk (next_id (map Track.id (tracks st)))
                         (Some (Order.id order)) (Some (Worker.id worker))
                         (FastApi.WorkerScanIn.action payload) None
                         (FastApi.WorkerScanIn.location payload)])%list
             /\ match FastApi.action_status
                        (FastApi.WorkerScanIn.action payload) with
                | Some s =>
                    orders (snd r)
                    = put_order (Order.set_status (Some s) order) (orders st)
                    /\ get_order (Order.id order) (snd r)
                       = Some (Order.set_status (Some s) order)
                | None => orders (snd r) = orders st
                end).
Proof.
  split.
  - intros data r. subst r.
    destruct (flask_scan_cases db_accepts authorization data st)
      as [H|(worker & number & action & order & Hw & Hn & Ha & Ho & Hs)];
      [now left | right].
    apply order_by_number_In in Ho as [Hin _].
    unfold Flask.require_worker_token in Hw.
    destruct (bearer_token authorization) as [token|]; [|discriminate].
    destruct (worker_by_token token st) as [w|] eqn:Hwt; [|discriminate].
    injection Hw as ->. apply worker_by_token_In in Hwt as [Hwin _].
    exists worker, order, action. rewrite Hs. cbn [fst snd].
    repeat split; auto.
    destruct (Flask.action_status action) as [s|] eqn:Hact; [split|];
      try reflexivity.
    now apply scan_work_status.
  - intros payload r. subst r.
    destruct (fastapi_scan_cases db_accepts authorization payload st)
      as [H|(token & worker & order & Hb & Hw & Ho & Hs)];
      [now left | right].
    apply order_by_number_In in Ho as [Hin _].
    apply worker_by_token_In in Hw as [Hwin _].
    exists worker, order. rewrite Hs. cbn [fst snd].
    repeat split; auto.
    destruct (FastApi.action_status _) as [s|] eqn:Hact; [split|];
      try reflexivity.
    now apply scan_work_status.
Qed.

(** C5.  In the FastAPI backend the scan of an existing order by an
    authenticated worker with the lifecycle action [completed] is answered
    as recorded and leaves the Track row without the status change: the
    Track table has the new row and the orders are what they were, the order
    still [created].  The Flask backend, on the same request, appends the
    same row and sets the order to [completed]; and when the database
    refuses the commit, neither backend keeps the row or the status. *)
Theorem fastapi_scan_track_without_status :
  let fastapi db_accepts :=
    FastApi.scan db_accepts sample_authorization
      (FastApi.WorkerScanIn.mk "ORD-TEST-001" "completed" (Some "Plant 2"))
      sample_store in
  let flask db_accepts :=
    Flask.scan db_accepts sample_authorization
      (Flask.ScanBody.mk (Some "ORD-TEST-001") (Some "completed")
         (Some "Plant 2") None)
      sample_store in
  let row := Track.mk 1 (Some 1) (Some 1) "completed" None (Some "Plant 2") in
  is_success (fst (fastapi true)) = true
  /\ tracks (snd (fastapi true)) = [row]
  /\ orders (snd (fastapi true)) = [sample_order]
  /\ Order.status sample_order = Some Order.created
  /\ is_success (fst (flask true)) = true
  /\ tracks (snd (flask true)) = [row]
  /\ orders (snd (flask true))
     = [Order.set_status (Some Order.completed) sample_order]
  /\ snd (fastapi false) = sample_store
  /\ snd (flask false) = sample_store.
Proof. cbv zeta. repeat split; vm_compute; reflexivity. Qed.

Lemma nonempty_Some (x : option string) (s : string) :
  nonempty x = Some s <-> x = Some s /\ s <> EmptyString.
Proof.
  destruct x as [[|c rest]|]; cbn; split;
    try discriminate; try (intros [H _]; discriminate).
  - intros [H Hs]. injection H as <-. congruence.
  - intros H. injection H as <-. split; [reflexivity | discriminate].
  - intros [H _]. exact H.
Qed.

(** C7.  A scan by an authenticated worker whose order number resolves to no
    order is answered 404 "Order not found" and leaves the store as it was;
    in the Flask backend the request carries a non-empty order number and
    action, as the check for missing fields comes before the lookup.
    Whatever the credentials and the other fields, a scan with such an order
    number is not recorded and changes nothing: no Track row is created. *)
Theorem scan_unknown_order_not_found (db_accepts : bool)
    (authorization : option string) (token : string) (worker : Worker.t)
    (number : string) (st : Store)
    (Hbearer : bearer_token authorization = Some token)
    (Hworker : worker_by_token token st = Some worker)
    (Hunknown : order_by_number number st = None) :
  (forall action location,
     FastApi.scan db_accepts authorization
       (FastApi.WorkerScanIn.mk number action location) st
     = (Msg 404 "Order not found", st))
  /\ (forall action location note,
        number <> EmptyString -> action <> EmptyString ->
        Flask.scan db_accepts authorization
          (Flask.ScanBody.mk (Some number) (Some action) location note) st
        = (Msg 404 "Order not found", st))
  /\ (forall authorization' action location,
        let r := FastApi.scan db_accepts authorization'
                   (FastApi.WorkerScanIn.mk number action location) st in
        is_success (fst r) = false /\ snd r = st
        /\ tracks (snd r) = tracks st)
  /\ (forall authorization' action location note,
        let r := Flask.scan db_accepts authorization'
                   (Flask.ScanBody.mk (Some number) action location note) st in
        is_success (fst r) = false /\ snd r = st
        /\ tracks (snd r) = tracks st).
Proof.
  repeat apply conj.
  - intros action location. unfold FastApi.scan.
    rewrite Hbearer, Hworker. cbn [FastApi.WorkerScanIn.order_number].
    now rewrite Hunknown.
  - intros action location note Hn Ha. unfold Flask.scan.
    unfold Flask.require_worker_token. rewrite Hbearer, Hworker.
    cbn [Flask.ScanBody.order_number Flask.ScanBody.action].
    destruct number as [|c rest]; [congruence|].
    destruct action as [|c' rest']; [congruence|].
    cbn [nonempty]. now rewrite Hunknown.
  - intros authorization' action location r. subst r.
    destruct (fastapi_scan_cases db_accepts authorization'
                (FastApi.WorkerScanIn.mk number action location) st)
      as [[Hf Hs]|(tok & w & order & _ & _ & Ho & _)].
    + now rewrite Hs.
    + cbn in Ho. congruence.
  - intros authorization' action location note r. subst r.
    destruct (flask_scan_cases db_accepts authorization'
                (Flask.ScanBody.mk (Some number) action location note) st)
      as [[Hf Hs]|(w & number' & action' & order & _ & Hn & _ & Ho & _)].
    + now rewrite Hs.
    + apply nonempty_Some in Hn as [Hn _]. cbn in Hn.
      injection Hn as <-. congruence.
Qed.

Lemma scan_unknown_order_not_found_witness :
  Flask.scan true sample_authorization
    (Flask.ScanBody.mk (Some "ffffffffffff") (Some "picked_up") None None)
    sample_store
  = (Msg 404 "Order not found", sample_store)
  /\ FastApi.scan true sample_authorization
       (FastApi.WorkerScanIn.mk "ffffffffffff" "picked_up" None) sample_store
     = (Msg 404 "Order not found", sample_store).
Proof.
  destruct (scan_unknown_order_not_found true sample_authorization
              "test-worker-token" sample_worker "ffffffffffff" sample_store)
    as (Hfast & Hflask & _); try reflexivity.
  split.
  - apply Hflask; discriminate.
  - apply Hfast.
Defined.

(** ** Creating orders *)

(** C8.  A create-order request of an authenticated customer whose service
    id names no Service is answered 400 "Invalid service" by both backends,
    and the store, hence the [orders] table, is left as it was. *)
Theorem create_order_invalid_service (e : Secrets.Entropy)
    (db_accepts1 disk_ok db_accepts2 : bool) (customer_id : Z)
    (current : Customer.t) (service_id : Z) (pickup_date : option Z)
    (instructions : option string) (st : Store)
    (Hcustomer : get_customer customer_id st = Some current)
    (Hservice : get_service service_id st = None) :
  Flask.create_order e db_accepts1 disk_ok db_accepts2 customer_id
    (Some (Flask.OrderCreateSchema.mk service_id pickup_date instructions)) st
  = (Msg 400 "Invalid service", st)
  /\ FastApi.create_order e db_accepts1 disk_ok db_accepts2 current
       (FastApi.OrderCreate.mk service_id pickup_date instructions) st
     = (Msg 400 "Invalid service", st).
Proof.
  unfold Flask.create_order, FastApi.create_order. cbn.
  now rewrite Hcustomer, Hservice.
Qed.

Lemma create_order_invalid_service_witness :
  Flask.create_order sample_entropy true true true 1
    (Some (Flask.OrderCreateSchema.mk 999 None None)) sample_store
  = (Msg 400 "Invalid service", sample_store)
  /\ FastApi.create_order sample_entropy true true true sample_customer
       (FastApi.OrderCreate.mk 999 None None) sample_store
     = (Msg 400 "Invalid service", sample_store).
Proof.
  apply (create_order_invalid_service sample_entropy true true true 1
           sample_customer 999 None None sample_store); reflexivity.
Defined.

(** The row [create_order] inserts and, once the label exists, updates. *)
Lemma flask_create_order_eq (e : Secrets.Entropy)
    (db_accepts1 disk_ok db_accepts2 : bool) (customer_id : Z)
    (data : Flask.OrderCreateSchema.data) (customer : Customer.t)
    (service : Service.t) (st : Store) :
  get_customer customer_id st = Some customer ->
  get_service (Flask.OrderCreateSchema.service_id data) st = Some service ->
  let order qr :=
    Order.mk (next_id (map Order.id (orders st))) (Flask.gen_order_number e)
      (Customer.id customer) (Service.id service)
      (Flask.OrderCreateSchema.pickup_date data)
      (Flask.OrderCreateSchema.instructions data)
      (Service.price service) (Some Order.created) qr in
  let work qr := with_orders (orders st ++ [order qr]) st in
  let path := ("/static/qr/" ++ (Flask.gen_order_number e ++ ".png"))%string in
  Flask.create_order e db_accepts1 disk_ok db_accepts2 customer_id
    (Some data) st
  = match commit db_accepts1 (work None) with
    | inl exn => (Unhandled exn, st)
    | inr _ =>
        if disk_ok then
          match commit db_accepts2 (work (Some path)) with
          | inl exn => (Unhandled exn, work None)
          | inr _ =>
              (OrderCreated (next_id (map Order.id (orders st)))
                 (Flask.gen_order_number e) (Some path), work (Some path))
          end
        else (Unhandled OSError, work None)
    end.
Proof.
  intros Hc Hs order work path. unfold Flask.create_order.
  rewrite Hc, Hs. fold (order None). fold (work None).
  destruct (commit db_accepts1 (work None)) as [exn|st1] eqn:H1;
    [reflexivity|].
  apply commit_inr in H1 as (_ & _ & ->).
  unfold generate_order_qr. cbn [Order.order_number order].
  destruct disk_ok; [|reflexivity].
  assert (Hw : forall q,
             with_orders
               (put_order (Order.set_qr_code_path q (order None))
                  (orders (work None))) (work None)
             = work q).
  { intros q. unfold work. cbn [orders with_orders].
    rewrite put_order_snoc; [reflexivity | reflexivity |].
    apply next_id_fresh. }
  rewrite Hw. fold path.
  destruct (commit db_accepts2 (work (Some path))) as [exn|st2] eqn:H2;
    [reflexivity|].
  apply commit_inr in H2 as (_ & _ & ->). reflexivity.
Qed.

Lemma fastapi_create_order_eq (e : Secrets.Entropy)
    (db_accepts1 disk_ok db_accepts2 : bool) (current : Customer.t)
    (payload : FastApi.OrderCreate.t) (svc : Service.t) (st : Store) :
  get_service (FastApi.OrderCreate.service_id payload) st = Some svc ->
  let order qr :=
    Order.mk (next_id (map Order.id (orders st))) (FastApi.gen_order_number e)
      (Customer.id current) (Service.id svc)
      (FastApi.OrderCreate.pickup_date payload)
      (FastApi.OrderCreate.instructions payload)
      (Service.price svc) (Some Order.created) qr in
  let work qr := with_orders (orders st ++ [order qr]) st in
  let path :=
    ("/static/qr/" ++ (FastApi.gen_order_number e ++ ".png"))%string in
  FastApi.create_order e db_accepts1 disk_ok db_accepts2 current payload st
  = match commit db_accepts1 (work None) with
    | inl exn => (Unhandled exn, st)
    | inr _ =>
        if disk_ok then
          match commit db_accepts2 (work (Some path)) with
          | inl exn => (Unhandled exn, work None)
          | inr _ => (OrderOut (order (Some path)), work (Some path))
          end
        else (Unhandled OSError, work None)
    end.
Proof.
  intros Hs order work path. unfold FastApi.create_order.
  rewrite Hs. fold (order None). fold (work None).
  destruct (commit db_accepts1 (work None)) as [exn|st1] eqn:H1;
    [reflexivity|].
  apply commit_inr in H1 as (_ & _ & ->).
  unfold generate_order_qr. cbn [Order.order_number order].
  destruct disk_ok; [|reflexivity].
  assert (Hw : forall q,
             with_orders
               (put_order (Order.set_qr_code_path q (order None))
                  (orders (work None))) (work None)
             = work q).
  { intros q. unfold work. cbn [orders with_orders].
    rewrite put_order_snoc; [reflexivity | reflexivity |].
    apply next_id_fresh. }
  rewrite Hw. fold path.
  destruct (commit db_accepts2 (work (Some path))) as [exn|st2] eqn:H2;
    [reflexivity|].
  apply commit_inr in H2 as (_ & _ & ->). reflexivity.
Qed.

Lemma flask_update_service_orders (db_accepts : bool) (service_id : Z)
    (data : Flask.ServiceUpdate.data) (st : Store) :
  orders (snd (Flask.update_service db_accepts service_id data st))
  = orders st.
Proof.
  unfold Flask.update_service.
  destruct (get_service service_id st) as [service|]; [|reflexivity].
  match goal with
  | |- context [commit db_accepts ?w] =>
      destruct (commit db_accepts w) as [exn|st'] eqn:Hc
  end; [reflexivity|].
  apply commit_inr in Hc as (_ & _ & ->). reflexivity.
Qed.

(** C3.  Whenever [create_order] inserts a row, in either backend, the row is
    the last of the table and its [total_cost] is the price that the Service
    named by the request has in the store the request started from; a
    successful response is such a case.  [update_service], whatever it does
    to the price of a Service, leaves the [orders] table, hence every
    [total_cost], as it was. *)
Theorem create_order_total_cost_snapshot (st : Store) :
  (forall e db_accepts1 disk_ok db_accepts2 customer_id loaded,
     let r := Flask.create_order e db_accepts1 disk_ok db_accepts2
                customer_id loaded st in
     (is_success (fst r) = false /\ orders (snd r) = orders st)
     \/ exists data service o,
          loaded = Some data
          /\ get_service (Flask.OrderCreateSchema.service_id data) st
             = Some service
          /\ orders (snd r) = (orders st ++ [o])%list
          /\ Order.service_id o = Service.id service
          /\ Order.total_cost o = Service.price service)
  /\ (forall e db_accepts1 disk_ok db_accepts2 current payload,
        let r := FastApi.create_order e db_accepts1 disk_ok db_accepts2
                   current payload st in
        (is_success (fst r) = false /\ orders (snd r) = orders st)
        \/ exists svc o,
             get_service (FastApi.OrderCreate.service_id payload) st = Some svc
             /\ orders (snd r) = (orders st ++ [o])%list
             /\ Order.service_id o = Service.id svc
             /\ Order.total_cost o = Service.price svc)
  /\ (forall db_accepts service_id data,
        orders (snd (Flask.update_service db_accepts service_id data st))
        = orders st).
Proof.
  repeat apply conj.
  - intros e db1 disk db2 cid loaded r. subst r.
    destruct loaded as [data|]; [|left; split; reflexivity].
    destruct (get_customer cid st) as [customer|] eqn:Hc;
      [|left; unfold Flask.create_order; rewrite Hc; split; reflexivity].
    destruct (get_service (Flask.OrderCreateSchema.service_id data) st)
      as [service|] eqn:Hs;
      [|left; unfold Flask.create_order; rewrite Hc, Hs; split; reflexivity].
    rewrite (flask_create_order_eq e db1 disk db2 cid data customer service st Hc Hs).
    destruct (commit db1 _) as [exn|st1]; [left; split; reflexivity|].
    right. exists data, service.
    destruct disk; [destruct (commit db2 _) as [exn|st2]|];
      eexists; repeat split; first [exact Hs | reflexivity].
  - intros e db1 disk db2 current payload r. subst r.
    destruct (get_service (FastApi.OrderCreate.service_id payload) st)
      as [svc|] eqn:Hs;
      [|left; unfold FastApi.create_order; rewrite Hs; split; reflexivity].
    rewrite (fastapi_create_order_eq e db1 disk db2 current payload svc st Hs).
    destruct (commit db1 _) as [exn|st1]; [left; split; reflexivity|].
    right. exists svc.
    destruct disk; [destruct (commit db2 _) as [exn|st2]|];
      eexists; repeat split; first [exact Hs | reflexivity].
  - intros. apply flask_update_service_orders.
Qed.

Lemma integrity_insert_order (o : Order.t) (st : Store) :
  integrity st = true ->
  Order.id o = next_id (map Order.id (orders st)) ->
  ~ In (Order.order_number o) (map Order.order_number (orders st)) ->
  is_some (Order.status o) = true ->
  integrity (with_orders (orders st ++ [o]) st) = true.
Proof.
  rewrite !integrity_parts. cbn [services orders tracks with_orders].
  intros (Hs & Ho & Ht) Hid Hnum Hst. repeat split; try assumption.
  apply orders_ok_snoc; try assumption.
  rewrite Hid. apply next_id_fresh.
Qed.

(** C4, as the code has it.  When the order has been committed and the QR
    image cannot be written, the order row is in the store, in state
    [created] with the price of the Service and no label path, and the
    failure is not caught: the exception leaves the handler, and the request
    is answered as a server error and not as a created order. *)
Theorem create_order_label_failure (e : Secrets.Entropy) (db_accepts2 : bool)
    (customer_id : Z) (current : Customer.t) (service : Service.t)
    (service_id : Z) (pickup_date : option Z) (instructions : option string)
    (st : Store)
    (Hlegal : integrity st = true)
    (Hcustomer : get_customer customer_id st = Some current)
    (Hservice : get_service service_id st = Some service)
    (Hfresh : ~ In (Flask.gen_order_number e)
                (map Order.order_number (orders st))) :
  let order :=
    Order.mk (next_id (map Order.id (orders st))) (Flask.gen_order_number e)
      (Customer.id current) (Service.id service) pickup_date instructions
      (Service.price service) (Some Order.created) None in
  Flask.create_order e true false db_accepts2 customer_id
    (Some (Flask.OrderCreateSchema.mk service_id pickup_date instructions)) st
  = (Unhandled OSError, with_orders (orders st ++ [order]) st)
  /\ FastApi.create_order e true false db_accepts2 current
       (FastApi.OrderCreate.mk service_id pickup_date instructions) st
     = (Unhandled OSError, with_orders (orders st ++ [order]) st)
  /\ is_success (Unhandled OSError) = false
  /\ get_order (Order.id order) (with_orders (orders st ++ [order]) st)
     = Some order.
Proof.
  intros order.
  assert (Hw : commit true (with_orders (orders st ++ [order]) st)
               = inr (with_orders (orders st ++ [order]) st)).
  { apply commit_accepts. now apply integrity_insert_order. }
  repeat apply conj.
  - rewrite (flask_create_order_eq e true false db_accepts2 customer_id
               (Flask.OrderCreateSchema.mk service_id pickup_date instructions)
               current service st Hcustomer Hservice).
    cbn [Flask.OrderCreateSchema.pickup_date
           Flask.OrderCreateSchema.instructions].
    fold order. now rewrite Hw.
  - rewrite (fastapi_create_order_eq e true false db_accepts2 current
               (FastApi.OrderCreate.mk service_id pickup_date instructions)
               service st Hservice).
    cbn [FastApi.OrderCreate.pickup_date FastApi.OrderCreate.instructions].
    unfold FastApi.gen_order_number. fold (Flask.gen_order_number e).
    fold order. now rewrite Hw.
  - reflexivity.
  - unfold get_order. cbn [orders with_orders].
    rewrite <- (put_order_snoc order order (orders st)) at 1;
      [|reflexivity | apply next_id_fresh].
    apply get_order_put. rewrite map_app. apply in_or_app. right. now left.
Qed.

Lemma create_order_label_failure_witness :
  Flask.create_order sample_entropy true false true 1
    (Some (Flask.OrderCreateSchema.mk 1 None None)) sample_store
  = (Unhandled OSError,
     with_orders
       [sample_order;
        Order.mk 2 "031425364758" 1 1 None None 10000 (Some Order.created)
          None]
       sample_store).
Proof.
  refine (proj1 (create_order_label_failure sample_entropy true 1
                   sample_customer sample_service 1 None None sample_store
                   eq_refl eq_refl eq_refl _)).
  cbn. intros [H|[]]. discriminate.
Defined.

(** C4 as stated fails: on the sample store, with a disk that refuses the
    image, neither backend answers with a successful response carrying a
    warning; the response is the uncaught exception. *)
Lemma create_order_label_failure_propagates :
  let flask :=
    Flask.create_order sample_entropy true false true 1
      (Some (Flask.OrderCreateSchema.mk 1 None None)) sample_store in
  let fastapi :=
    FastApi.create_order sample_entropy true false true sample_customer
      (FastApi.OrderCreate.mk 1 None None) sample_store in
  fst flask = Unhandled OSError
  /\ fst fastapi = Unhandled OSError
  /\ is_success (fst flask) <> true
  /\ is_success (fst fastapi) <> true.
Proof. cbv zeta. repeat split; vm_compute; congruence. Qed.

(** ** Updating and deleting orders *)

Lemma get_order_id (i : Z) (st : Store) (o : Order.t) :
  get_order i st = Some o -> In o (orders st) /\ Order.id o = i.
Proof.
  unfold get_order. intros H. apply find_some in H as [Hin Heq].
  split; [assumption | now apply Z.eqb_eq].
Qed.

(** C2, as the code has it.  A successful update of an order leaves every
    other row of every table as it was, and of the order itself it changes
    nothing but [pickup_date], [instructions] and, in the Flask backend when
    the validated body has a [status] key, [status], which becomes the
    supplied value; without that key the status is the one before.  The
    FastAPI backend never changes the status.  Only the owner gets a
    successful response. *)
Theorem update_order_frame (st : Store) (order_id : Z) (order : Order.t)
    (Hget : get_order order_id st = Some order) :
  (forall db_accepts customer_id loaded,
     let r := Flask.update_order db_accepts customer_id order_id loaded st in
     is_success (fst r) = true ->
     exists data,
       loaded = Some data
       /\ customer_id = Order.customer_id order
       /\ get_order order_id (snd r)
          = Some
              (Order.mk (Order.id order) (Order.order_number order)
                 (Order.customer_id order) (Order.service_id order)
                 (match Flask.OrderUpdateSchema.pickup_date data with
                  | Some v => v
                  | None => Order.pickup_date order
                  end)
                 (match Flask.OrderUpdateSchema.instructions data with
                  | Some v => v
                  | None => Order.instructions order
                  end)
                 (Order.total_cost order)
                 (match Flask.OrderUpdateSchema.status data with
                  | Some v => v
                  | None => Order.status order
                  end)
                 (Order.qr_code_path order))
       /\ (forall i, i <> order_id -> get_order i (snd r) = get_order i st)
       /\ services (snd r) = services st
       /\ customers (snd r) = customers st
       /\ workers (snd r) = workers st
       /\ tracks (snd r) = tracks st)
  /\ (forall db_accepts current payload,
        let r := FastApi.update_order db_accepts current order_id payload st in
        is_success (fst r) = true ->
        Customer.id current = Order.customer_id order
        /\ get_order order_id (snd r)
           = Some
               (Order.mk (Order.id order) (Order.order_number order)
                  (Order.customer_id order) (Order.service_id order)
                  (match FastApi.OrderCreate.pickup_date payload with
                   | Some v => Some v
                   | None => Order.pickup_date order
                   end)
                  (match nonempty (FastApi.OrderCreate.instructions payload) with
                   | Some v => Some v
                   | None => Order.instructions order
                   end)
                  (Order.total_cost order) (Order.status order)
                  (Order.qr_code_path order))
        /\ (forall i, i <> order_id -> get_order i (snd r) = get_order i st)
        /\ services (snd r) = services st
        /\ customers (snd r) = customers st
        /\ workers (snd r) = workers st
        /\ tracks (snd r) = tracks st).
Proof.
  pose proof (get_order_id _ _ _ Hget) as [Hin Hid].
  assert (Hput : forall o',
             Order.id o' = Order.id order ->
             get_order order_id
               (with_orders (put_order o' (orders st)) st) = Some o'
             /\ forall i, i <> order_id ->
                  get_order i (with_orders (put_order o' (orders st)) st)
                  = get_order i st).
  { intros o' E. unfold get_order. cbn [orders with_orders]. split.
    - rewrite <- Hid, <- E. apply get_order_put. rewrite E. now apply in_map.
    - intros i Hi. apply get_order_put_other. congruence. }
  split.
  - intros db cid loaded r. subst r. unfold Flask.update_order. rewrite Hget.
    destruct (Z.eqb_spec (Order.customer_id order) cid) as [Hc|Hc];
      cbn [negb]; [|discriminate].
    destruct loaded as [data|]; [|discriminate].
    match goal with
    | |- context [commit db ?w] => destruct (commit db w) as [exn|st'] eqn:Hcm
    end; [discriminate|].
    apply commit_inr in Hcm as (_ & _ & ->). intros _.
    exists data. cbn [fst snd].
    match goal with
    | |- context [put_order ?o _] => destruct (Hput o) as [H1 H2]
    end.
    { destruct data as [[p|] [i|] [s|]]; reflexivity. }
    repeat split; auto.
    rewrite H1. f_equal.
    destruct order, data as [[p|] [i|] [s|]]; reflexivity.
  - intros db current payload r. subst r. unfold FastApi.update_order.
    rewrite Hget.
    destruct (Z.eqb_spec (Order.customer_id order) (Customer.id current))
      as [Hc|Hc]; cbn [negb]; [|discriminate].
    match goal with
    | |- context [commit db ?w] => destruct (commit db w) as [exn|st'] eqn:Hcm
    end; [discriminate|].
    apply commit_inr in Hcm as (_ & _ & ->). intros _. cbn [fst snd].
    match goal with
    | |- context [put_order ?o _] => destruct (Hput o) as [H1 H2]
    end.
    { destruct (FastApi.OrderCreate.pickup_date payload),
        (nonempty (FastApi.OrderCreate.instructions payload)); reflexivity. }
    repeat split; auto.
    rewrite H1. f_equal.
    destruct order, (FastApi.OrderCreate.pickup_date payload),
      (nonempty (FastApi.OrderCreate.instructions payload)); reflexivity.
Qed.

Lemma update_order_frame_witness :
  let r :=
    Flask.update_order true 1 1
      (Some (Flask.OrderUpdateSchema.mk None (Some (Some "Handle with care"))
               (Some (Some Order.processing)))) sample_store in
  get_order 1 (snd r)
  = Some (Order.mk 1 "ORD-TEST-001" 1 1 None (Some "Handle with care") 10000
            (Some Order.processing) None)
  /\ tracks (snd r) = tracks sample_store.
Proof.
  cbv zeta.
  destruct (update_order_frame sample_store 1 sample_order eq_refl)
    as [Hflask _].
  destruct (Hflask true 1
              (Some (Flask.OrderUpdateSchema.mk None
                       (Some (Some "Handle with care"))
                       (Some (Some Order.processing)))) eq_refl)
    as (data & Hdata & _ & Horder & _ & _ & _ & _ & Htracks).
  injection Hdata as <-. split; [exact Horder | exact Htracks].
Defined.

(** C2 as stated fails in the Flask backend: the owner sets the status of
    the sample order from [created] to [processing] through update-order,
    as [tests/test_order_flow.py: test_update_order] does. *)
Lemma flask_update_order_sets_status :
  let r :=
    Flask.update_order true 1 1
      (Some (Flask.OrderUpdateSchema.mk None None
               (Some (Some Order.processing)))) sample_store in
  is_success (fst r) = true
  /\ option_map Order.status (get_order 1 sample_store)
     = Some (Some Order.created)
  /\ option_map Order.status (get_order 1 (snd r))
     = Some (Some Order.processing)
  /\ option_map Order.status (get_order 1 (snd r))
     <> option_map Order.status (get_order 1 sample_store).
Proof. cbv zeta. repeat split; vm_compute; congruence. Qed.

Lemma blank_tracks_ok (order_id : Z) (l : list Track.t) :
  tracks_ok
    (map (fun tr => if references order_id tr
                    then Track.set_order_id None tr else tr) l) = true ->
  existsb (references order_id) l = false.
Proof.
  unfold tracks_ok. induction l as [|tr l IH]; cbn [map forallb existsb];
    [reflexivity|].
  destruct (references order_id tr); cbn; [discriminate|].
  rewrite andb_true_iff. intros [_ H]. auto.
Qed.

Lemma blank_tracks_none (order_id : Z) (l : list Track.t) :
  existsb (references order_id) l = false ->
  map (fun tr => if references order_id tr
                 then Track.set_order_id None tr else tr) l = l.
Proof.
  induction l as [|tr l IH]; cbn [map existsb]; [reflexivity|].
  rewrite orb_false_iff. intros [-> H]. now rewrite IH.
Qed.

(** Dropping rows keeps a key column free of duplicates. *)
Lemma filter_keeps_keys_unique {K : Type} (key : Order.t -> K)
    (keep : Order.t -> bool) (rows : list Order.t) :
  NoDup (map key rows) -> NoDup (map key (filter keep rows)).
Proof.
  induction rows as [|row rows IHrows]; cbn [map filter]; [auto|].
  intros Hnd. apply NoDup_cons_iff in Hnd as [Hrow Hrows].
  destruct (keep row); [|auto]. cbn [map].
  apply NoDup_cons; [|auto].
  intros Hin. apply Hrow. apply in_map_iff in Hin as (y & <- & Hy).
  apply filter_In in Hy as [Hy _]. now apply in_map.
Qed.

Lemma orders_ok_filter (p : Order.t -> bool) (l : list Order.t) :
  orders_ok l = true -> orders_ok (filter p l) = true.
Proof.
  unfold orders_ok. rewrite !andb_true_iff.
  rewrite !(uniqueb_NoDup Z.eqb Z.eqb_eq).
  rewrite !(uniqueb_NoDup String.eqb string_eqb_spec).
  intros [[Hst Hid] Hnum]. repeat split; auto using filter_keeps_keys_unique.
  apply forallb_forall. intros x Hx. apply filter_In in Hx as [Hx _].
  now apply (proj1 (forallb_forall _ _) Hst).
Qed.

Lemma find_filter_out (i : Z) (l : list Order.t) :
  find (fun x => Order.id x =? i)
    (filter (fun x => negb (Order.id x =? i)) l) = None.
Proof.
  induction l as [|x l IH]; cbn [filter find]; [reflexivity|].
  destruct (Order.id x =? i) eqn:E; cbn [negb find]; [assumption|].
  now rewrite E.
Qed.

Lemma track_not_referencing (order_id : Z) (l : list Track.t) (tr : Track.t) :
  existsb (references order_id) l = false -> In tr l ->
  Track.order_id tr <> Some order_id.
Proof.
  intros H Hin E.
  assert (Hex : existsb (references order_id) l = true).
  { apply existsb_exists. exists tr. split; [assumption|].
    unfold references. rewrite E. apply Z.eqb_refl. }
  congruence.
Qed.

(** C6, as the code has it.  No delete of an order deletes a Track row.  An
    owner's delete of an order that no Track row references removes the order
    row, once the store accepts the commit.  An owner's delete of an order
    that a Track row references is refused: the relationship has no delete
    cascade, the commit violates [nullable=False] on [Track.order_id], the
    exception leaves the handler and the order and its Track rows stay.
    Hence after a successful delete no Track row points to the deleted
    order.  Both backends behave alike. *)
Theorem delete_order_keeps_tracks (db_accepts : bool) (st : Store)
    (order_id : Z) (order : Order.t) (current : Customer.t)
    (Hlegal : integrity st = true)
    (Hget : get_order order_id st = Some order)
    (Howner : Order.customer_id order = Customer.id current) :
  let r := Flask.delete_order db_accepts (Customer.id current) order_id st in
  FastApi.delete_order db_accepts current order_id st = r
  /\ tracks (snd r) = tracks st
  /\ (existsb (references order_id) (tracks st) = true ->
      snd r = st
      /\ fst r = Unhandled (if db_accepts then IntegrityError
                            else OperationalError))
  /\ (existsb (references order_id) (tracks st) = false ->
      db_accepts = true ->
      fst r = Msg 200 "Deleted"
      /\ get_order order_id (snd r) = None
      /\ orders (snd r)
         = filter (fun x => negb (Order.id x =? order_id)) (orders st))
  /\ (is_success (fst r) = true ->
      get_order order_id (snd r) = None
      /\ forall tr, In tr (tracks (snd r)) ->
                    Track.order_id tr <> Some order_id).
Proof.
  pose proof (get_order_id _ _ _ Hget) as [Hin Hid].
  apply integrity_parts in Hlegal as (Hs & Ho & Ht).
  intros r. subst r.
  unfold Flask.delete_order, FastApi.delete_order. rewrite Hget, Howner.
  rewrite Z.eqb_refl. cbn [negb].
  unfold commit, integrity, session_delete_order.
  cbn [services orders tracks with_tracks with_orders].
  rewrite Hs, (orders_ok_filter _ _ Ho), Hid. cbn [andb].
  destruct (existsb (references order_id) (tracks st)) eqn:Hex.
  - assert (Hbad : tracks_ok
                     (map (fun tr => if references order_id tr
                                     then Track.set_order_id None tr else tr)
                        (tracks st)) = false).
    { apply not_true_is_false. intros E.
      apply blank_tracks_ok in E. congruence. }
    rewrite Hbad. destruct db_accepts; cbn; repeat split; try discriminate.
  - rewrite (blank_tracks_none _ _ Hex), Ht.
    destruct db_accepts; cbn; repeat split; try discriminate.
    + unfold get_order. cbn. apply find_filter_out.
    + unfold get_order. cbn. apply find_filter_out.
    + intros tr Htr. now apply (track_not_referencing order_id (tracks st)).
Qed.

Lemma delete_order_keeps_tracks_witness :
  Flask.delete_order true 1 1 sample_store_scanned
  = (Unhandled IntegrityError, sample_store_scanned)
  /\ Flask.delete_order true 1 1 sample_store
     = (Msg 200 "Deleted", with_orders [] sample_store).
Proof.
  split.
  - destruct (delete_order_keeps_tracks true sample_store_scanned 1
                (Order.set_status (Some Order.picked_up) sample_order)
                sample_customer eq_refl eq_refl eq_refl)
      as (_ & _ & Hrefused & _).
    destruct (Hrefused eq_refl) as [Hst Hresp].
    apply injective_projections; [exact Hresp | exact Hst].
  - destruct (delete_order_keeps_tracks true sample_store 1 sample_order
                sample_customer eq_refl eq_refl eq_refl)
      as (_ & Htracks & _ & Hdeleted & _).
    destruct (Hdeleted eq_refl eq_refl) as (Hresp & _ & Horders).
    apply injective_projections; [exact Hresp|].
    cbn [snd]. reflexivity.
Defined.

(** C6 as stated fails: the owner's delete of the scanned sample order does
    not succeed and deletes no Track row; the order and its Track row are
    still there. *)
Lemma delete_order_does_not_cascade :
  let r := Flask.delete_order true 1 1 sample_store_scanned in
  let r' := FastApi.delete_order true sample_customer 1 sample_store_scanned in
  fst r = Unhandled IntegrityError /\ fst r' = Unhandled IntegrityError
  /\ tracks (snd r) = [sample_track] /\ tracks (snd r') = [sample_track]
  /\ ~ (is_success (fst r) = true
        /\ forall tr, In tr (tracks (snd r)) -> Track.order_id tr <> Some 1)
  /\ ~ (is_success (fst r') = true
        /\ forall tr, In tr (tracks (snd r')) -> Track.order_id tr <> Some 1).
Proof.
  cbv zeta. repeat split; try (vm_compute; reflexivity);
    intros [H _]; vm_compute in H; discriminate.
Qed.

(** ** Worker login *)


Lemma token_urlsafe_32_length (e : Secrets.Entropy) :
  String.length (Secrets.token_urlsafe e 32) = 43%nat.
Proof. reflexivity. Qed.



(** ** The handlers on the sample data *)

Example hexlify_sample :
  Secrets.hexlify [x00; x0f; xa5; xff] = "000fa5ff".
Proof. reflexivity. Qed.

Example b64_urlsafe_sample :
  Secrets.b64_urlsafe_nopad [x4d; x61; x6e] = "TWFu"
  /\ Secrets.b64_urlsafe_nopad [x4d; x61] = "TWE"
  /\ Secrets.b64_urlsafe_nopad [x4d] = "TQ"
  /\ Secrets.b64_urlsafe_nopad [xff; xfe; xfd; xfc] = "__79_A".
Proof. repeat split; reflexivity. Qed.

Example sample_order_number :
  Flask.gen_order_number sample_entropy = "031425364758".
Proof. reflexivity. Qed.

(** A worker scans the sample order: one commit, Track row and status. *)
Example flask_scan_picked_up :
  Flask.scan true sample_authorization
    (Flask.ScanBody.mk (Some "ORD-TEST-001") (Some "picked_up")
       (Some "Warehouse A") (Some "Picked up")) sample_store
  = (ScanRecorded 1 "picked_up", sample_store_scanned).
Proof. reflexivity. Qed.

Example fastapi_scan_picked_up :
  FastApi.scan true sample_authorization
    (FastApi.WorkerScanIn.mk "ORD-TEST-001" "picked_up" None) sample_store
  = (ScanRecorded 1 "picked_up",
     mkStore [sample_service] [sample_customer]
       [Order.set_status (Some Order.picked_up) sample_order]
       [sample_worker]
       [Track.mk 1 (Some 1) (Some 1) "picked_up" None None]).
Proof. reflexivity. Qed.

(** The same scan when the database refuses the commit: nothing is kept. *)
Example flask_scan_refused :
  Flask.scan false sample_authorization
    (Flask.ScanBody.mk (Some "ORD-TEST-001") (Some "picked_up")
       (Some "Warehouse A") (Some "Picked up")) sample_store
  = (Unhandled OperationalError, sample_store).
Proof. reflexivity. Qed.

(** A label that is not recognised is recorded and changes no status. *)
Example flask_scan_other_action :
  Flask.scan true sample_authorization
    (Flask.ScanBody.mk (Some "ORD-TEST-001") (Some "inspected") None None)
    sample_store
  = (ScanRecorded 1 "inspected",
     with_tracks [Track.mk 1 (Some 1) (Some 1) "inspected" None None]
       sample_store).
Proof. reflexivity. Qed.

(** A scan without an action is rejected before the order is looked up. *)
Example flask_scan_missing_action :
  Flask.scan true sample_authorization
    (Flask.ScanBody.mk (Some "ORD-TEST-001") None None None) sample_store
  = (Msg 400 "Missing fields", sample_store).
Proof. reflexivity. Qed.

Example flask_create_order_sample :
  Flask.create_order sample_entropy true true true 1
    (Some (Flask.OrderCreateSchema.mk 1 None (Some "Handle with care")))
    sample_store
  = (OrderCreated 2 "031425364758" (Some "/static/qr/031425364758.png"),
     with_orders
       [sample_order;
        Order.mk 2 "031425364758" 1 1 None (Some "Handle with care") 10000
          (Some Order.created) (Some "/static/qr/031425364758.png")]
       sample_store).
Proof. reflexivity. Qed.

(** An order created at the old price keeps it when the price changes. *)
Example price_change_after_create :
  let st1 :=
    snd (Flask.create_order sample_entropy true true true 1
           (Some (Flask.OrderCreateSchema.mk 1 None None)) sample_store) in
  let st2 :=
    snd (Flask.update_service true 1
           (Flask.ServiceUpdate.mk None (Some 25000) None None) st1) in
  option_map Service.price (get_service 1 st2) = Some 25000
  /\ option_map Order.total_cost (get_order 2 st2) = Some 10000.
Proof. cbv zeta. split; reflexivity. Qed.

(** * Further properties of the handlers *)

(** ** Who may scan, and what a scan must carry *)

(** X1.  A scan whose [Authorization] header is missing, is not a bearer
    header or carries a token that no worker holds is answered 401 and the
    store stays as it was: in the Flask backend for every body, which the
    handler reads only after [require_worker_token] has let the request
    through; in the FastAPI backend for every body that is a [WorkerScanIn]
    (the framework validates the body before the handler runs, so another
    body never reaches the check of the header). *)
Theorem scan_unauthorized (db_accepts : bool) (authorization : option string)
    (st : Store) (resp : Response)
    (Hdenied : Flask.require_worker_token authorization st = inl resp) :
  (resp = Msg 401 "Missing worker token" \/ resp = Msg 401 "Invalid token")
  /\ (forall data, Flask.scan db_accepts authorization data st = (resp, st))
  /\ (forall payload,
        FastApi.scan db_accepts authorization payload st
        = (Msg 401 "Missing worker token", st)
        \/ FastApi.scan db_accepts authorization payload st
           = (Msg 401 "Invalid worker token", st)).
Proof.
  unfold Flask.scan, FastApi.scan. rewrite Hdenied.
  unfold Flask.require_worker_token in Hdenied.
  destruct (bearer_token authorization) as [token|].
  - destruct (worker_by_token token st); [discriminate|].
    injection Hdenied as <-. auto.
  - injection Hdenied as <-. auto.
Qed.

Lemma scan_unauthorized_witness :
  Flask.scan true (Some "Bearer stolen")
    (Flask.ScanBody.mk (Some "ORD-TEST-001") (Some "delivered") None None)
    sample_store
  = (Msg 401 "Invalid token", sample_store).
Proof.
  destruct (scan_unauthorized true (Some "Bearer stolen") sample_store
              (Msg 401 "Invalid token") eq_refl) as (_ & Hflask & _).
  apply Hflask.
Defined.

(** X2.  The Flask scan of an authenticated worker that lacks the order
    number or the action, or carries an empty string for one of them, is
    answered 400 "Missing fields" and changes nothing, also when the other
    field names an existing order. *)
Theorem flask_scan_missing_fields (db_accepts : bool)
    (authorization : option string) (worker : Worker.t)
    (data : Flask.ScanBody.data) (st : Store)
    (Hworker : Flask.require_worker_token authorization st = inr worker)
    (Hmissing : nonempty (Flask.ScanBody.order_number data) = None
                \/ nonempty (Flask.ScanBody.action data) = None) :
  Flask.scan db_accepts authorization data st = (Msg 400 "Missing fields", st).
Proof.
  unfold Flask.scan. rewrite Hworker.
  destruct Hmissing as [-> | ->]; [reflexivity|].
  now destruct (nonempty (Flask.ScanBody.order_number data)).
Qed.

Lemma flask_scan_missing_fields_witness :
  Flask.scan true sample_authorization
    (Flask.ScanBody.mk (Some "ORD-TEST-001") (Some "") None None) sample_store
  = (Msg 400 "Missing fields", sample_store).
Proof.
  apply (flask_scan_missing_fields true sample_authorization sample_worker).
  - reflexivity.
  - right. reflexivity.
Defined.

(** ** Orders and their owners *)

(** X3.  A customer who does not own an order gets 403 "Forbidden" and the
    store stays as it was, whatever the state of the database: in the Flask
    backend from get, from delete and from update with every body, one that
    [OrderUpdateSchema] rejects included, as the owner is checked before the
    body is loaded; in the FastAPI backend from delete and from update with
    every body that is an [OrderCreate], the only ones that reach the
    handler. *)
Theorem order_of_another_customer_forbidden (st : Store) (order_id : Z)
    (order : Order.t) (customer_id : Z) (current : Customer.t)
    (Hget : get_order order_id st = Some order)
    (Hother : Order.customer_id order <> customer_id)
    (Hcurrent : Customer.id current = customer_id) :
  Flask.get_order customer_id order_id st = Err 403 "Forbidden"
  /\ (forall db_accepts loaded,
        Flask.update_order db_accepts customer_id order_id loaded st
        = (Msg 403 "Forbidden", st))
  /\ (forall db_accepts,
        Flask.delete_order db_accepts customer_id order_id st
        = (Msg 403 "Forbidden", st))
  /\ (forall db_accepts payload,
        FastApi.update_order db_accepts current order_id payload st
        = (Msg 403 "Forbidden", st))
  /\ (forall db_accepts,
        FastApi.delete_order db_accepts current order_id st
        = (Msg 403 "Forbidden", st)).
Proof.
  unfold Flask.get_order, Flask.update_order, Flask.delete_order,
    FastApi.update_order, FastApi.delete_order.
  unfold get_order in Hget. fold (get_order order_id st). unfold get_order.
  rewrite Hget, Hcurrent.
  destruct (Z.eqb_spec (Order.customer_id order) customer_id);
    [contradiction|].
  cbn [negb]. repeat split.
Qed.

Lemma order_of_another_customer_forbidden_witness :
  Flask.delete_order true 2 1 sample_store
  = (Msg 403 "Forbidden", sample_store).
Proof.
  destruct (order_of_another_customer_forbidden sample_store 1 sample_order 2
              sample_other_customer eq_refl ltac:(discriminate) eq_refl)
    as (_ & _ & Hdelete & _).
  apply Hdelete.
Defined.

(** X4.  For an order id that no row has, the Flask backend answers get,
    update and delete with 404 while the FastAPI backend answers update and
    delete with 403, the same answer it gives for the order of another
    customer; none of them changes the store. *)
Theorem order_id_unknown (st : Store) (order_id : Z)
    (Hnone : get_order order_id st = None) :
  (forall customer_id,
     Flask.get_order customer_id order_id st = Err 404 "Not Found")
  /\ (forall db_accepts customer_id loaded,
        Flask.update_order db_accepts customer_id order_id loaded st
        = (Msg 404 "Not Found", st))
  /\ (forall db_accepts customer_id,
        Flask.delete_order db_accepts customer_id order_id st
        = (Msg 404 "Not Found", st))
  /\ (forall db_accepts current payload,
        FastApi.update_order db_accepts current order_id payload st
        = (Msg 403 "Forbidden", st))
  /\ (forall db_accepts current,
        FastApi.delete_order db_accepts current order_id st
        = (Msg 403 "Forbidden", st)).
Proof.
  unfold Flask.get_order, Flask.update_order, Flask.delete_order,
    FastApi.update_order, FastApi.delete_order.
  unfold get_order in Hnone. unfold get_order. rewrite Hnone.
  repeat split.
Qed.

Lemma order_id_unknown_witness :
  Flask.update_order true 1 7 None sample_store
  = (Msg 404 "Not Found", sample_store)
  /\ FastApi.delete_order true sample_customer 7 sample_store
     = (Msg 403 "Forbidden", sample_store).
Proof.
  destruct (order_id_unknown sample_store 7 eq_refl)
    as (_ & Hupdate & _ & _ & Hdelete).
  split; [apply Hupdate | apply Hdelete].
Defined.

(** ** Creating an order: the accepted request and its neighbours *)

Lemma get_service_id (i : Z) (st : Store) (s : Service.t) :
  get_service i st = Some s -> In s (services st) /\ Service.id s = i.
Proof.
  unfold get_service. intros H. apply find_some in H as [Hin Heq].
  split; [assumption | now apply Z.eqb_eq].
Qed.

Lemma get_customer_id (i : Z) (st : Store) (c : Customer.t) :
  get_customer i st = Some c -> In c (customers st) /\ Customer.id c = i.
Proof.
  unfold get_customer. intros H. apply find_some in H as [Hin Heq].
  split; [assumption | now apply Z.eqb_eq].
Qed.

Lemma uniqueb_snoc_dup {K : Type} (eqb : K -> K -> bool)
    (eqb_spec : forall x y, eqb x y = true <-> x = y) (l : list K) (a : K) :
  In a l -> uniqueb eqb (l ++ [a]) = false.
Proof.
  intros Hin. apply not_true_is_false. intros H.
  apply (uniqueb_NoDup eqb eqb_spec) in H.
  apply NoDup_remove_2 in H. apply H. now rewrite app_nil_r.
Qed.

(** Both commits of [create_order] are accepted on a legal store when the
    new order number is not taken. *)
Lemma flask_create_order_accepted (e : Secrets.Entropy) (customer_id : Z)
    (data : Flask.OrderCreateSchema.data) (customer : Customer.t)
    (service : Service.t) (st : Store) :
  integrity st = true ->
  get_customer customer_id st = Some customer ->
  get_service (Flask.OrderCreateSchema.service_id data) st = Some service ->
  ~ In (Flask.gen_order_number e) (map Order.order_number (orders st)) ->
  Flask.create_order e true true true customer_id (Some data) st
  = (OrderCreated (next_id (map Order.id (orders st)))
       (Flask.gen_order_number e)
       (Some ("/static/qr/" ++ (Flask.gen_order_number e ++ ".png"))%string),
     with_orders
       (orders st
        ++ [Order.mk (next_id (map Order.id (orders st)))
              (Flask.gen_order_number e) customer_id
              (Flask.OrderCreateSchema.service_id data)
              (Flask.OrderCreateSchema.pickup_date data)
              (Flask.OrderCreateSchema.instructions data)
              (Service.price service) (Some Order.created)
              (Some ("/static/qr/"
                     ++ (Flask.gen_order_number e ++ ".png"))%string)])
       st).
Proof.
  intros Hlegal Hc Hs Hfresh.
  rewrite (flask_create_order_eq e true true true customer_id data customer
             service st Hc Hs).
  apply get_customer_id in Hc as [_ ->].
  apply get_service_id in Hs as [_ ->].
  rewrite !commit_accepts; [reflexivity | |];
    now apply integrity_insert_order.
Qed.

Lemma fastapi_create_order_accepted (e : Secrets.Entropy)
    (current : Customer.t) (payload : FastApi.OrderCreate.t)
    (svc : Service.t) (st : Store) :
  integrity st = true ->
  get_service (FastApi.OrderCreate.service_id payload) st = Some svc ->
  ~ In (FastApi.gen_order_number e) (map Order.order_number (orders st)) ->
  FastApi.create_order e true true true current payload st
  = (OrderOut
       (Order.mk (next_id (map Order.id (orders st)))
          (FastApi.gen_order_number e) (Customer.id current)
          (FastApi.OrderCreate.service_id payload)
          (FastApi.OrderCreate.pickup_date payload)
          (FastApi.OrderCreate.instructions payload)
          (Service.price svc) (Some Order.created)
          (Some ("/static/qr/"
                 ++ (FastApi.gen_order_number e ++ ".png"))%string)),
     with_orders
       (orders st
        ++ [Order.mk (next_id (map Order.id (orders st)))
              (FastApi.gen_order_number e) (Customer.id current)
              (FastApi.OrderCreate.service_id payload)
              (FastApi.OrderCreate.pickup_date payload)
              (FastApi.OrderCreate.instructions payload)
              (Service.price svc) (Some Order.created)
              (Some ("/static/qr/"
                     ++ (FastApi.gen_order_number e ++ ".png"))%string)])
       st).
Proof.
  intros Hlegal Hs Hfresh.
  rewrite (fastapi_create_order_eq e true true true current payload svc st Hs).
  apply get_service_id in Hs as [_ ->].
  rewrite !commit_accepts; [reflexivity | |];
    now apply integrity_insert_order.
Qed.

Lemma flask_list_orders_snoc (customer_id : Z) (o : Order.t) (st : Store) :
  Flask.list_orders customer_id (with_orders (orders st ++ [o]) st)
  = (Flask.list_orders customer_id st
     ++ if Order.customer_id o =? customer_id
        then [Flask.OrderItem.mk (Order.id o) (Order.order_number o)
                (Order.service_id o) (Flask.service_name o st)
                (Order.status o) (Order.total_cost o) (Order.qr_code_path o)]
        else [])%list.
Proof.
  unfold Flask.list_orders. cbn [orders with_orders].
  rewrite filter_app, map_app. cbn [filter].
  destruct (Order.customer_id o =? customer_id); reflexivity.
Qed.

(** X5.  On a legal store, when the database accepts both commits, the
    image can be written and the generated order number is not taken, the
    Flask [create_order] of an existing customer for an existing service
    answers 201 with the new id, the order number and the label path
    ["/static/qr/<order_number>.png"].  Afterwards [list_orders] of that
    customer is the former list followed by the new order, in state
    [created], at the price and with the name of the service; the lists of
    all other customers are as before; and [get_order] of the owner returns
    the new order. *)
Theorem flask_create_order_then_list (e : Secrets.Entropy) (customer_id : Z)
    (customer : Customer.t) (service : Service.t)
    (data : Flask.OrderCreateSchema.data) (st : Store)
    (Hlegal : integrity st = true)
    (Hcustomer : get_customer customer_id st = Some customer)
    (Hservice : get_service (Flask.OrderCreateSchema.service_id data) st
                = Some service)
    (Hfresh : ~ In (Flask.gen_order_number e)
                (map Order.order_number (orders st))) :
  let r := Flask.create_order e true true true customer_id (Some data) st in
  let id := next_id (map Order.id (orders st)) in
  let path := ("/static/qr/" ++ (Flask.gen_order_number e ++ ".png"))%string in
  fst r = OrderCreated id (Flask.gen_order_number e) (Some path)
  /\ Flask.list_orders customer_id (snd r)
     = (Flask.list_orders customer_id st
        ++ [Flask.OrderItem.mk id (Flask.gen_order_number e)
              (Service.id service) (Some (Service.name service))
              (Some Order.created) (Service.price service) (Some path)])%list
  /\ (forall other, other <> customer_id ->
        Flask.list_orders other (snd r) = Flask.list_orders other st)
  /\ (exists d,
        Flask.get_order customer_id id (snd r) = Ok 200 d
        /\ Flask.OrderDict.order_number d = Flask.gen_order_number e
        /\ Flask.OrderDict.status d = Some Order.created
        /\ Flask.OrderDict.qr_code_path d = Some path).
Proof.
  intros r id path. subst r.
  rewrite (flask_create_order_accepted e customer_id data customer service st
             Hlegal Hcustomer Hservice Hfresh).
  cbn [fst snd]. fold id. fold path.
  pose proof (get_service_id _ _ _ Hservice) as [_ Hsid].
  split; [reflexivity|]. split; [|split].
  - rewrite flask_list_orders_snoc. cbn [Order.customer_id].
    rewrite Z.eqb_refl. do 2 f_equal.
    unfold Flask.service_name. cbn [Order.service_id Order.id
      Order.order_number Order.status Order.total_cost Order.qr_code_path].
    rewrite Hservice. cbn [option_map]. now rewrite Hsid.
  - intros other Hne. rewrite flask_list_orders_snoc. cbn [Order.customer_id].
    destruct (Z.eqb_spec customer_id other); [congruence|].
    apply app_nil_r.
  - unfold Flask.get_order. cbn [orders with_orders].
    match goal with
    | |- context [(orders st ++ [?o])%list] =>
        rewrite <- (put_order_snoc o o (orders st));
        [|reflexivity | apply next_id_fresh];
        change id with (Order.id o);
        rewrite (get_order_put o)
    end.
    + cbn [Order.customer_id]. rewrite Z.eqb_refl. cbn [negb].
      eexists. split; [reflexivity|]. cbn. auto.
    + rewrite map_app. apply in_or_app. right. now left.
Qed.

Lemma flask_create_order_then_list_witness :
  Flask.list_orders 1
    (snd (Flask.create_order sample_entropy true true true 1
            (Some (Flask.OrderCreateSchema.mk 1 None None)) sample_store))
  = [Flask.OrderItem.mk 1 "ORD-TEST-001" 1 (Some "Test Service")
       (Some Order.created) 10000 None;
     Flask.OrderItem.mk 2 "031425364758" 1 (Some "Test Service")
       (Some Order.created) 10000 (Some "/static/qr/031425364758.png")].
Proof.
  refine (proj1 (proj2
    (flask_create_order_then_list sample_entropy 1 sample_customer
       sample_service (Flask.OrderCreateSchema.mk 1 None None) sample_store
       eq_refl eq_refl eq_refl _))).
  cbn. intros [H|[]]. discriminate.
Defined.

(** X6.  When the generated order number is already the number of an order,
    [create_order] does not draw another one: on a legal store the first
    commit violates the unique constraint, the [IntegrityError] leaves the
    handler of either backend, and no row is inserted. *)
Theorem create_order_number_taken (e : Secrets.Entropy)
    (disk_ok db_accepts2 : bool) (customer_id : Z) (current : Customer.t)
    (service : Service.t) (service_id : Z) (pickup_date : option Z)
    (instructions : option string) (st : Store)
    (Hlegal : integrity st = true)
    (Hcustomer : get_customer customer_id st = Some current)
    (Hservice : get_service service_id st = Some service)
    (Htaken : In (Flask.gen_order_number e)
                (map Order.order_number (orders st))) :
  Flask.create_order e true disk_ok db_accepts2 customer_id
    (Some (Flask.OrderCreateSchema.mk service_id pickup_date instructions)) st
  = (Unhandled IntegrityError, st)
  /\ FastApi.create_order e true disk_ok db_accepts2 current
       (FastApi.OrderCreate.mk service_id pickup_date instructions) st
     = (Unhandled IntegrityError, st).
Proof.
  assert (Hrefused : forall o,
             Order.order_number o = Flask.gen_order_number e ->
             commit true (with_orders (orders st ++ [o]) st)
             = inl IntegrityError).
  { intros o Ho. unfold commit, integrity, orders_ok.
    cbn [negb services orders tracks with_orders].
    rewrite map_app with (f := Order.order_number). cbn [map]. rewrite Ho.
    rewrite (uniqueb_snoc_dup String.eqb string_eqb_spec _ _ Htaken).
    now rewrite !andb_false_r. }
  split.
  - rewrite (flask_create_order_eq e true disk_ok db_accepts2 customer_id
               (Flask.OrderCreateSchema.mk service_id pickup_date instructions)
               current service st Hcustomer Hservice).
    now rewrite Hrefused.
  - rewrite (fastapi_create_order_eq e true disk_ok db_accepts2 current
               (FastApi.OrderCreate.mk service_id pickup_date instructions)
               service st Hservice).
    now rewrite Hrefused.
Qed.


Lemma create_order_number_taken_witness :
  Flask.create_order sample_entropy true true true 1
    (Some (Flask.OrderCreateSchema.mk 1 None None)) sample_store_taken
  = (Unhandled IntegrityError, sample_store_taken).
Proof.
  refine (proj1
    (create_order_number_taken sample_entropy true true 1 sample_customer
       sample_service 1 None None sample_store_taken eq_refl eq_refl eq_refl
       _)).
  cbn. auto.
Defined.

(** ** Services *)

Lemma flask_list_services_active (st : Store) (item : Flask.ServiceItem.t) :
  In item (Flask.list_services st) <->
  exists s, In s (services st) /\ Service.status s = Service.active
            /\ item = Flask.ServiceItem.mk (Service.id s) (Service.name s)
                        (Service.price s) (Service.duration_minutes s).
Proof.
  unfold Flask.list_services. rewrite in_map_iff. split.
  - intros (s & <- & Hs). apply filter_In in Hs as [Hin Hact].
    exists s. repeat split; auto.
    unfold Flask.is_active in Hact. now destruct (Service.status s).
  - intros (s & Hin & Hact & ->). exists s. split; [reflexivity|].
    apply filter_In. split; [assumption|].
    unfold Flask.is_active. now rewrite Hact.
Qed.

(** X7.  [create_order] does not look at the status of the service.  A
    service that is [inactive] is left out of [list_services] (the Flask
    list has entries of active services only), yet [get_service] returns it and, under the conditions of an
    accepted request, [create_order] of either backend creates an order for
    it at its price. *)
Theorem create_order_for_inactive_service (e : Secrets.Entropy)
    (customer_id : Z) (current : Customer.t) (service : Service.t)
    (service_id : Z) (pickup_date : option Z) (instructions : option string)
    (st : Store)
    (Hlegal : integrity st = true)
    (Hcustomer : get_customer customer_id st = Some current)
    (Hservice : get_service service_id st = Some service)
    (Hinactive : Service.status service = Service.inactive)
    (Hfresh : ~ In (Flask.gen_order_number e)
                (map Order.order_number (orders st))) :
  ~ In service (FastApi.list_services st)
  /\ (forall item, In item (Flask.list_services st) ->
        exists s, In s (services st) /\ Service.status s = Service.active
                  /\ item = Flask.ServiceItem.mk (Service.id s)
                              (Service.name s) (Service.price s)
                              (Service.duration_minutes s))
  /\ Flask.get_service service_id st = Ok 200 service
  /\ (exists o,
        Flask.create_order e true true true customer_id
          (Some (Flask.OrderCreateSchema.mk service_id pickup_date
                   instructions)) st
        = (OrderCreated (Order.id o) (Order.order_number o)
             (Order.qr_code_path o),
           with_orders (orders st ++ [o]) st)
        /\ FastApi.create_order e true true true current
             (FastApi.OrderCreate.mk service_id pickup_date instructions) st
           = (OrderOut o, with_orders (orders st ++ [o]) st)
        /\ Order.service_id o = Service.id service
        /\ Order.total_cost o = Service.price service
        /\ Order.status o = Some Order.created).
Proof.
  pose proof (get_service_id _ _ _ Hservice) as [_ Hsid].
  pose proof (get_customer_id _ _ _ Hcustomer) as [_ Hcid].
  repeat apply conj.
  - unfold FastApi.list_services. rewrite filter_In.
    unfold FastApi.is_active. rewrite Hinactive. intros [_ H]. discriminate.
  - intros item Hitem. now apply flask_list_services_active.
  - unfold Flask.get_service. unfold get_service in Hservice.
    now rewrite Hservice.
  - exists (Order.mk (next_id (map Order.id (orders st)))
              (Flask.gen_order_number e) customer_id service_id pickup_date
              instructions (Service.price service) (Some Order.created)
              (Some ("/static/qr/"
                     ++ (Flask.gen_order_number e ++ ".png"))%string)).
    split; [|split; [|split; [|split]]].
    + apply (flask_create_order_accepted e customer_id
               (Flask.OrderCreateSchema.mk service_id pickup_date instructions)
               current service st Hlegal Hcustomer Hservice Hfresh).
    + rewrite (fastapi_create_order_accepted e current
                 (FastApi.OrderCreate.mk service_id pickup_date instructions)
                 service st Hlegal Hservice Hfresh).
      unfold FastApi.gen_order_number, Flask.gen_order_number.
      cbn [FastApi.OrderCreate.service_id FastApi.OrderCreate.pickup_date
             FastApi.OrderCreate.instructions
             Flask.OrderCreateSchema.service_id
             Flask.OrderCreateSchema.pickup_date
             Flask.OrderCreateSchema.instructions].
      now rewrite Hcid.
    + cbn. now rewrite Hsid.
    + reflexivity.
    + reflexivity.
Qed.

Lemma create_order_for_inactive_service_witness :
  exists o,
    Flask.create_order sample_entropy true true true 1
      (Some (Flask.OrderCreateSchema.mk 2 None None)) sample_store_inactive
    = (OrderCreated (Order.id o) (Order.order_number o) (Order.qr_code_path o),
       with_orders (orders sample_store_inactive ++ [o]) sample_store_inactive)
    /\ Order.total_cost o = 25000.
Proof.
  destruct (create_order_for_inactive_service sample_entropy 1 sample_customer
              sample_inactive_service 2 None None sample_store_inactive
              eq_refl eq_refl eq_refl eq_refl)
    as (_ & _ & _ & o & Hflask & _ & _ & Hcost & _).
  - cbn. intros [H|[]]. discriminate.
  - exists o. split; [exact Hflask | exact Hcost].
Defined.

Lemma find_snoc_new {A : Type} (p : A -> bool) (l : list A) (a : A) :
  (forall x, In x l -> p x = false) -> p a = true ->
  find p (l ++ [a]) = Some a.
Proof.
  intros Hl Ha. induction l as [|x l IH]; cbn.
  - now rewrite Ha.
  - rewrite (Hl x (or_introl eq_refl)). apply IH.
    intros y Hy. apply Hl. now right.
Qed.

Lemma find_snoc_old {A : Type} (p : A -> bool) (l : list A) (a x : A) :
  find p l = Some x -> find p (l ++ [a]) = Some x.
Proof.
  induction l as [|y l IH]; cbn; [discriminate|].
  destruct (p y); auto.
Qed.

Lemma get_service_inserted (s : Service.t) (st : Store) :
  Service.id s = next_id (map Service.id (services st)) ->
  get_service (Service.id s) (with_services (services st ++ [s]) st) = Some s.
Proof.
  intros Hid. unfold get_service. cbn [services with_services].
  apply find_snoc_new; [|apply Z.eqb_refl].
  intros x Hx. apply Z.eqb_neq. intros E.
  apply (next_id_fresh (map Service.id (services st))).
  rewrite <- Hid, <- E. now apply in_map.
Qed.

Lemma integrity_insert_service (s : Service.t) (st : Store) :
  integrity st = true ->
  ~ In (Service.name s) (map Service.name (services st)) ->
  integrity (with_services (services st ++ [s]) st) = true.
Proof.
  rewrite !integrity_parts. cbn [services orders tracks with_services].
  intros (Hs & Ho & Ht) Hname. repeat split; try assumption.
  unfold services_ok in *. rewrite map_app. cbn [map].
  now apply (uniqueb_snoc String.eqb string_eqb_spec).
Qed.

Lemma flask_get_service_eq (service_id : Z) (st : Store) :
  Flask.get_service service_id st
  = match get_service service_id st with
    | Some service => Ok 200 service
    | None => Err 404 "Not Found"
    end.
Proof. reflexivity. Qed.

Lemma numeric_10_2_in_range (db_numeric : Z -> Z) (x : Z) :
  Z.abs x < 10 ^ 10 -> numeric_10_2 db_numeric x = x.
Proof.
  intros H. unfold numeric_10_2.
  now destruct (Z.ltb_spec (Z.abs x) (10 ^ 10)); [|lia].
Qed.

(** X8.  A second service with the name of an existing one is refused by
    both backends and the store stays as it was, but not in the same way:
    the Flask [create_service] runs into the unique constraint and the
    [IntegrityError] leaves the handler, the FastAPI [create_service] looks
    the name up first and answers 400 "Service exists". *)
Theorem create_service_name_taken (db_numeric : Z -> Z) (name : string)
    (price : Z) (duration_minutes : option Z)
    (status : option (option Service.Status)) (st : Store)
    (Hlegal : integrity st = true)
    (Hname : name <> EmptyString)
    (Htaken : In name (map Service.name (services st))) :
  Flask.create_service db_numeric true
    (Flask.ServiceCreate.mk (Some name) (Some price) duration_minutes status)
    st
  = (Raised IntegrityError, st)
  /\ FastApi.create_service db_numeric true
       (FastApi.ServiceCreate.mk name price duration_minutes) st
     = (Err 400 "Service exists", st).
Proof.
  split.
  - unfold Flask.create_service. cbn [Flask.ServiceCreate.name
      Flask.ServiceCreate.price Flask.ServiceCreate.status
      Flask.ServiceCreate.duration_minutes].
    destruct name as [|c rest]; [congruence|]. cbn [nonempty].
    assert (Hrefused : forall s,
               Service.name s = String c rest ->
               commit true (with_services (services st ++ [s]) st)
               = inl IntegrityError).
    { intros s Hs. unfold commit, integrity, services_ok.
      cbn [negb services orders tracks with_services].
      rewrite map_app. cbn [map]. rewrite Hs.
      now rewrite (uniqueb_snoc_dup String.eqb string_eqb_spec _ _ Htaken). }
    now rewrite Hrefused.
  - unfold FastApi.create_service. cbn [FastApi.ServiceCreate.name].
    destruct (find _ (services st)) as [s|] eqn:Hfind; [reflexivity|].
    apply in_map_iff in Htaken as (s & Hs & Hin).
    pose proof (find_none _ _ Hfind s Hin) as Hne. cbn in Hne.
    rewrite Hs, String.eqb_refl in Hne. discriminate.
Qed.

Lemma create_service_name_taken_witness :
  Flask.create_service (fun x => x) true
    (Flask.ServiceCreate.mk (Some "Test Service") (Some 500) None None)
    sample_store
  = (Raised IntegrityError, sample_store)
  /\ FastApi.create_service (fun x => x) true
       (FastApi.ServiceCreate.mk "Test Service" 500 None) sample_store
     = (Err 400 "Service exists", sample_store).
Proof.
  apply (create_service_name_taken (fun x => x) "Test Service" 500 None None
           sample_store).
  - reflexivity.
  - discriminate.
  - cbn. auto.
Defined.

(** X9.  A service created under a new, non-empty name and with a price of
    at most ten digits (the range of [Numeric(10, 2)]), on a legal store
    whose database accepts the commit, can be fetched under the id of the
    answer, with the name, price and duration of the request.  In the Flask
    backend its status is the one the request names, and [active] when the
    [status] key is missing or [null]; in the FastAPI backend it is always
    [active] and the service is listed at once.  Orders and tracks are
    untouched. *)
Theorem create_service_then_get (db_numeric : Z -> Z) (name : string)
    (price : Z) (duration_minutes : option Z)
    (status : option (option Service.Status)) (st : Store)
    (Hlegal : integrity st = true)
    (Hname : name <> EmptyString)
    (Hprice : Z.abs price < 10 ^ 10)
    (Hnew : ~ In name (map Service.name (services st))) :
  let id := next_id (map Service.id (services st)) in
  let flask :=
    Flask.create_service db_numeric true
      (Flask.ServiceCreate.mk (Some name) (Some price) duration_minutes
         status) st in
  let fastapi :=
    FastApi.create_service db_numeric true
      (FastApi.ServiceCreate.mk name price duration_minutes) st in
  fst flask = Ok 201 (id, name)
  /\ Flask.get_service id (snd flask)
     = Ok 200
         (Service.mk id name price duration_minutes
            (match status with
             | Some (Some v) => v
             | Some None | None => Service.active
             end))
  /\ fst fastapi
     = Ok 201 (Service.mk id name price duration_minutes Service.active)
  /\ get_service id (snd fastapi)
     = Some (Service.mk id name price duration_minutes Service.active)
  /\ In (Service.mk id name price duration_minutes Service.active)
        (FastApi.list_services (snd fastapi))
  /\ orders (snd flask) = orders st /\ tracks (snd flask) = tracks st
  /\ orders (snd fastapi) = orders st /\ tracks (snd fastapi) = tracks st.
Proof.
  intros id flask fastapi. subst flask fastapi.
  unfold Flask.create_service, FastApi.create_service.
  cbn [Flask.ServiceCreate.name Flask.ServiceCreate.price
         Flask.ServiceCreate.status Flask.ServiceCreate.duration_minutes
         FastApi.ServiceCreate.name FastApi.ServiceCreate.price
         FastApi.ServiceCreate.duration_minutes].
  rewrite (numeric_10_2_in_range db_numeric price Hprice).
  assert (Hfind : find (fun s => String.eqb (Service.name s) name)
                    (services st) = None).
  { destruct (find _ (services st)) as [s|] eqn:E; [|reflexivity].
    apply find_some in E as [Hin Heq]. apply String.eqb_eq in Heq.
    exfalso. apply Hnew. rewrite <- Heq. now apply in_map. }
  rewrite Hfind.
  assert (Hcommit : forall v,
             commit true
               (with_services
                  (services st
                   ++ [Service.mk (next_id (map Service.id (services st)))
                         name price duration_minutes v]) st)
             = inr (with_services
                      (services st
                       ++ [Service.mk (next_id (map Service.id (services st)))
                             name price duration_minutes v]) st)).
  { intros v. apply commit_accepts. now apply integrity_insert_service. }
  assert (Hget : forall v,
             get_service id
               (with_services
                  (services st
                   ++ [Service.mk (next_id (map Service.id (services st)))
                         name price duration_minutes v]) st)
             = Some (Service.mk id name price duration_minutes v)).
  { intros v.
    apply (get_service_inserted (Service.mk id name price duration_minutes v)).
    reflexivity. }
  assert (Hne : nonempty (Some name) = Some name)
    by (destruct name; [congruence | reflexivity]).
  rewrite Hne.
  destruct status as [[v|]|]; rewrite !Hcommit; cbn [fst snd];
    rewrite ?flask_get_service_eq, !Hget;
    (repeat split;
     unfold FastApi.list_services; apply filter_In; split;
     [cbn [services with_services]; apply in_or_app; right; now left
     | reflexivity]).
Qed.

Lemma create_service_then_get_witness :
  Flask.get_service 2
    (snd (Flask.create_service (fun x => x) true
            (Flask.ServiceCreate.mk (Some "Ironing") (Some 4500) (Some 30)
               (Some None)) sample_store))
  = Ok 200 (Service.mk 2 "Ironing" 4500 (Some 30) Service.active).
Proof.
  refine (proj1 (proj2
    (create_service_then_get (fun x => x) "Ironing" 4500 (Some 30) (Some None)
       sample_store eq_refl _ _ _))).
  - discriminate.
  - reflexivity.
  - cbn. intros [H|[]]. discriminate.
Defined.

(** ** Worker tokens *)

Lemma substring_all (s : string) : String.substring 0 (String.length s) s = s.
Proof. induction s as [|c s IH]; cbn; [reflexivity | now rewrite IH]. Qed.

Lemma bearer_token_of (tok : string) :
  bearer_token (Some ("Bearer " ++ tok)%string) = Some tok.
Proof.
  unfold bearer_token. cbn.
  replace (String.prefix "" tok) with true by now destruct tok.
  now rewrite Nat.sub_0_r, substring_all.
Qed.

Lemma find_all_false {A : Type} (p : A -> bool) (l : list A) :
  (forall x, In x l -> p x = false) -> find p l = None.
Proof.
  induction l as [|x l IH]; cbn; [reflexivity|].
  intros H. rewrite (H x (or_introl eq_refl)). apply IH.
  intros y Hy. apply H. now right.
Qed.

Lemma find_put_worker (p : Worker.t -> bool) (w : Worker.t)
    (l : list Worker.t) :
  (forall x, In x l -> Worker.id x <> Worker.id w -> p x = false) ->
  p w = true ->
  In (Worker.id w) (map Worker.id l) ->
  find p (put_worker w l) = Some w.
Proof.
  intros Hl Hw. induction l as [|x l IH]; cbn; [tauto|].
  destruct (Z.eqb_spec (Worker.id x) (Worker.id w)) as [E|NE].
  - intros _. now rewrite Hw.
  - intros [H|H]; [contradiction|].
    rewrite (Hl x (or_introl eq_refl) NE). apply IH; [|assumption].
    intros y Hy. apply Hl. now right.
Qed.

Lemma in_put_worker (w x : Worker.t) (l : list Worker.t) :
  In x (put_worker w l) ->
  x = w \/ (In x l /\ Worker.id x <> Worker.id w).
Proof.
  unfold put_worker. rewrite in_map_iff. intros (y & Hy & Hin).
  destruct (Z.eqb_spec (Worker.id y) (Worker.id w)); subst; auto.
Qed.

(** X10.  A worker login rotates the token.  When no worker holds the newly
    generated token before the login and the old token was held by this
    worker only, then after the login the new token authenticates this
    worker, and the old token authenticates nobody: a scan that presents it
    is answered 401. *)
Theorem worker_login_rotates_token (e : Secrets.Entropy) (st : Store)
    (worker_id : Z) (worker : Worker.t) (old : string)
    (password : option string)
    (Hlegal : integrity st = true)
    (Hid : worker_id <> 0)
    (Hget : get_worker worker_id st = Some worker)
    (Hold : Worker.token worker = Some old)
    (Hsole : forall w, In w (workers st) -> Worker.token w = Some old ->
                       Worker.id w = worker_id)
    (Hnew : forall w, In w (workers st) ->
                      Worker.token w <> Some (Secrets.token_urlsafe e 32)) :
  let st' :=
    snd (Flask.worker_login e true
           (Flask.LoginBody.mk (Some worker_id) password) st) in
  let new := Secrets.token_urlsafe e 32 in
  Flask.require_worker_token (Some ("Bearer " ++ new)%string) st'
  = inr (Worker.set_token (Some new) worker)
  /\ Flask.require_worker_token (Some ("Bearer " ++ old)%string) st'
     = inl (Msg 401 "Invalid token")
  /\ (forall db_accepts data,
        Flask.scan db_accepts (Some ("Bearer " ++ old)%string) data st'
        = (Msg 401 "Invalid token", st')).
Proof.
  intros st' new.
  assert (Hst' : st' = with_workers
                         (put_worker (Worker.set_token (Some new) worker)
                            (workers st)) st).
  { subst st'. unfold Flask.worker_login. cbn [Flask.LoginBody.worker_id].
    destruct (Z.eqb_spec worker_id 0); [contradiction|].
    rewrite Hget. now rewrite commit_accepts by exact Hlegal. }
  clearbody st'. subst st'.
  unfold get_worker in Hget. apply find_some in Hget as [Hin Hwid].
  apply Z.eqb_eq in Hwid.
  assert (Hnewtok : Flask.require_worker_token
                      (Some ("Bearer " ++ new)%string)
                      (with_workers
                         (put_worker (Worker.set_token (Some new) worker)
                            (workers st)) st)
                    = inr (Worker.set_token (Some new) worker)).
  { unfold Flask.require_worker_token. rewrite bearer_token_of.
    unfold worker_by_token. cbn [workers with_workers].
    rewrite find_put_worker; [reflexivity | | |].
    - intros x Hx _. unfold has_token.
      specialize (Hnew x Hx). destruct (Worker.token x) as [t|]; [|reflexivity].
      apply String.eqb_neq. intros E. apply Hnew. now rewrite E.
    - unfold has_token. cbn [Worker.token Worker.set_token].
      apply String.eqb_refl.
    - cbn [Worker.id Worker.set_token]. now apply in_map. }
  assert (Holdtok : Flask.require_worker_token
                      (Some ("Bearer " ++ old)%string)
                      (with_workers
                         (put_worker (Worker.set_token (Some new) worker)
                            (workers st)) st)
                    = inl (Msg 401 "Invalid token")).
  { unfold Flask.require_worker_token. rewrite bearer_token_of.
    unfold worker_by_token. cbn [workers with_workers].
    rewrite find_all_false; [reflexivity|].
    intros x Hx. apply in_put_worker in Hx as [->|[Hx Hne]].
    - unfold has_token. cbn [Worker.token Worker.set_token].
      apply String.eqb_neq. intros E.
      apply (Hnew worker Hin). rewrite Hold. now f_equal.
    - unfold has_token. destruct (Worker.token x) as [t|] eqn:Ht;
        [|reflexivity].
      apply String.eqb_neq. intros ->. apply Hne.
      cbn [Worker.id Worker.set_token].
      rewrite (Hsole x Hx Ht). now symmetry. }
  repeat split; [exact Hnewtok | exact Holdtok |].
  intros db_accepts data. unfold Flask.scan. now rewrite Holdtok.
Qed.

Lemma worker_login_rotates_token_witness :
  let st' :=
    snd (Flask.worker_login sample_entropy true
           (Flask.LoginBody.mk (Some 1) None) sample_store) in
  Flask.scan true sample_authorization
    (Flask.ScanBody.mk (Some "ORD-TEST-001") (Some "picked_up") None None) st'
  = (Msg 401 "Invalid token", st').
Proof.
  cbv zeta.
  refine (proj2 (proj2
    (worker_login_rotates_token sample_entropy sample_store 1 sample_worker
       "test-worker-token" None eq_refl _ eq_refl eq_refl _ _)) true _).
  - discriminate.
  - intros w [<-|[]] _. reflexivity.
  - intros w [<-|[]]. vm_compute. discriminate.
Defined.

Lemma worker_emails_snoc (l : list Worker.t) (w : Worker.t) :
  worker_emails (l ++ [w])
  = (worker_emails l
     ++ match Worker.email w with Some x => [x] | None => [] end)%list.
Proof.
  unfold worker_emails. rewrite flat_map_app. cbn [flat_map].
  now rewrite app_nil_r.
Qed.

Lemma commit_workers_insert (w : Worker.t) (st : Store) :
  integrity st = true ->
  workers_ok (workers st) = true ->
  (forall x, Worker.email w = Some x -> ~ In x (worker_emails (workers st))) ->
  commit_workers true (with_workers (workers st ++ [w]) st)
  = inr (with_workers (workers st ++ [w]) st).
Proof.
  intros Hlegal Hok Hemail. unfold commit_workers. cbn [negb].
  cbn [workers with_workers]. unfold workers_ok in *.
  rewrite worker_emails_snoc.
  destruct (Worker.email w) as [x|].
  - rewrite (uniqueb_snoc String.eqb string_eqb_spec); auto.
    now apply commit_accepts.
  - rewrite app_nil_r, Hok. now apply commit_accepts.
Qed.

Lemma commit_workers_email_taken (w : Worker.t) (x : string) (st : Store) :
  Worker.email w = Some x -> In x (worker_emails (workers st)) ->
  commit_workers true (with_workers (workers st ++ [w]) st)
  = inl IntegrityError.
Proof.
  intros Hw Hin. unfold commit_workers, workers_ok. cbn [negb].
  cbn [workers with_workers]. rewrite worker_emails_snoc, Hw.
  now rewrite (uniqueb_snoc_dup String.eqb string_eqb_spec).
Qed.

(** X11.  Registering a worker gives it a token of 32 lowercase hexadecimal
    characters.  On a legal store that accepts the commit, with an email
    that no worker has (or none) and a token that no worker holds, the
    registration succeeds in the Flask backend (201) and, for the admin, in
    the FastAPI backend (200); the new worker gets the next id and
    authenticates with its token; and every header that authenticated a
    worker before authenticates the same worker afterwards. *)
Theorem register_worker_then_authenticate (e : Secrets.Entropy)
    (name : string) (email : option string) (st : Store)
    (Hlegal : integrity st = true)
    (Hemails : workers_ok (workers st) = true)
    (Hemail : forall x, email = Some x ->
                        ~ In x (worker_emails (workers st)))
    (Hnew : forall w, In w (workers st) ->
                      Worker.token w <> Some (Secrets.token_hex e 16)) :
  let token := Secrets.token_hex e 16 in
  let w :=
    Worker.mk (next_id (map Worker.id (workers st))) name email (Some token) in
  let st' := with_workers (workers st ++ [w]) st in
  Flask.register_worker e true
    (Some (Flask.WorkerCreateSchema.mk name email)) st
  = (Ok 201 w, st')
  /\ (forall current,
        FastApi.register_worker (Customer.email current) e true current
          (FastApi.WorkerCreate.mk name email) st
        = (Ok 200 w, st'))
  /\ String.length token = 32%nat
  /\ Secrets.string_forallb Secrets.is_lower_hex token = true
  /\ Flask.require_worker_token (Some ("Bearer " ++ token)%string) st' = inr w
  /\ (forall authorization w0,
        Flask.require_worker_token authorization st = inr w0 ->
        Flask.require_worker_token authorization st' = inr w0).
Proof.
  intros token w st'.
  assert (Hcommit : commit_workers true st' = inr st').
  { apply commit_workers_insert; auto. }
  repeat apply conj.
  - subst st' w token. unfold Flask.register_worker, Worker.set_token.
    cbn [Flask.WorkerCreateSchema.name Flask.WorkerCreateSchema.email
           Worker.id Worker.name Worker.email].
    now rewrite Hcommit.
  - intros current. subst st' w token. unfold FastApi.register_worker.
    rewrite String.eqb_refl. cbn [negb].
    cbn [FastApi.WorkerCreate.name FastApi.WorkerCreate.email].
    now rewrite Hcommit.
  - subst token. unfold Secrets.token_hex.
    now rewrite hexlify_length, token_bytes_length.
  - apply hexlify_lower_hex.
  - unfold Flask.require_worker_token. rewrite bearer_token_of.
    unfold worker_by_token. subst st'. cbn [workers with_workers].
    rewrite (find_snoc_new (has_token token) (workers st) w);
      [reflexivity | |].
    + intros x Hx. unfold has_token. specialize (Hnew x Hx).
      destruct (Worker.token x) as [t|]; [|reflexivity].
      apply String.eqb_neq. intros E. apply Hnew. now rewrite E.
    + unfold has_token. cbn [Worker.token w]. apply String.eqb_refl.
  - intros authorization w0. unfold Flask.require_worker_token.
    destruct (bearer_token authorization) as [tok|]; [|discriminate].
    unfold worker_by_token. subst st'. cbn [workers with_workers].
    destruct (find (has_token tok) (workers st)) as [w1|] eqn:Hfind;
      [|discriminate].
    intros H. injection H as <-.
    now rewrite (find_snoc_old _ _ w _ Hfind).
Qed.

Lemma register_worker_then_authenticate_witness :
  exists w,
    Flask.register_worker sample_entropy true
      (Some (Flask.WorkerCreateSchema.mk "Second Worker" None)) sample_store
    = (Ok 201 w, with_workers [sample_worker; w] sample_store)
    /\ Worker.id w = 2
    /\ Worker.token w = Some "031425364758697a8b9cadbecfe0f102".
Proof.
  eexists. split; [|split].
  - refine (proj1
      (register_worker_then_authenticate sample_entropy "Second Worker" None
         sample_store eq_refl eq_refl _ _)).
    + discriminate.
    + intros w [<-|[]]. vm_compute. discriminate.
  - reflexivity.
  - reflexivity.
Defined.

(** X12.  A registration with the email of an existing worker runs into the
    unique constraint in both backends: the [IntegrityError] leaves the
    handler and no worker is added.  In the FastAPI backend a customer whose
    email is not the admin email is answered 403 "Admin only" and nothing is
    written, whatever [WorkerCreate] the request carries. *)
Theorem register_worker_refused (e : Secrets.Entropy) (name email : string)
    (st : Store)
    (Htaken : In email (worker_emails (workers st))) :
  Flask.register_worker e true
    (Some (Flask.WorkerCreateSchema.mk name (Some email))) st
  = (Raised IntegrityError, st)
  /\ (forall current,
        FastApi.register_worker (Customer.email current) e true current
          (FastApi.WorkerCreate.mk name (Some email)) st
        = (Raised IntegrityError, st))
  /\ (forall admin_email db_accepts current payload,
        Customer.email current <> admin_email ->
        FastApi.register_worker admin_email e db_accepts current payload st
        = (Err 403 "Admin only", st)).
Proof.
  repeat apply conj.
  - unfold Flask.register_worker.
    now rewrite (commit_workers_email_taken _ email).
  - intros current. unfold FastApi.register_worker.
    rewrite String.eqb_refl. cbn [negb].
    now rewrite (commit_workers_email_taken _ email).
  - intros admin_email db current payload Hne.
    unfold FastApi.register_worker.
    apply String.eqb_neq in Hne. now rewrite Hne.
Qed.

Lemma register_worker_refused_witness :
  Flask.register_worker sample_entropy true
    (Some (Flask.WorkerCreateSchema.mk "Copy" (Some "worker@example.com")))
    sample_store
  = (Raised IntegrityError, sample_store).
Proof.
  refine (proj1
    (register_worker_refused sample_entropy "Copy" "worker@example.com"
       sample_store _)).
  cbn. auto.
Defined.

(** ** Scans in sequence *)

Lemma fold_max_from (b : Z) (l : list Z) :
  fold_right Z.max b l = Z.max b (fold_right Z.max 0 l) \/ b < 0.
Proof.
  destruct (Z.ltb_spec b 0) as [Hneg|Hpos]; [now right | left].
  induction l as [|x l IH]; cbn [fold_right]; [lia|].
  rewrite IH. lia.
Qed.

Lemma next_id_snoc (ids : list Z) :
  next_id (ids ++ [next_id ids]) = next_id ids + 1.
Proof.
  unfold next_id. rewrite fold_right_app. cbn [fold_right].
  destruct (fold_max_from (Z.max (1 + fold_right Z.max 0 ids) 0) ids)
    as [->|H]; [|lia].
  assert (0 <= fold_right Z.max 0 ids).
  { clear. induction ids as [|x ids IH]; cbn [fold_right]; lia. }
  lia.
Qed.

Lemma integrity_scan_work (status : option Order.Status) (order : Order.t)
    (tr : Track.t) (st : Store) :
  integrity st = true -> In order (orders st) ->
  is_some (Track.order_id tr) = true ->
  integrity (scan_work status order tr st) = true.
Proof.
  rewrite !integrity_parts. intros (Hs & Ho & Ht) Hin Htr.
  unfold scan_work. destruct status as [s|];
    cbn [services orders tracks with_tracks with_orders];
    rewrite tracks_ok_snoc, Ht, Htr; repeat split; auto.
  now apply (orders_ok_put _ order).
Qed.

Lemma order_by_number_put (o' : Order.t) (number : string) (order : Order.t)
    (l : list Order.t) :
  uniqueb Z.eqb (map Order.id l) = true ->
  find (fun o => String.eqb (Order.order_number o) number) l = Some order ->
  Order.id o' = Order.id order -> Order.order_number o' = number ->
  find (fun o => String.eqb (Order.order_number o) number) (put_order o' l)
  = Some o'.
Proof.
  rewrite (uniqueb_NoDup Z.eqb Z.eqb_eq). intros Hnd Hfind Hid Hnum.
  induction l as [|x l IH]; cbn in *; [discriminate|].
  apply NoDup_cons_iff in Hnd as [Hx Hl].
  destruct (String.eqb (Order.order_number x) number) eqn:E.
  - injection Hfind as ->. rewrite Hid, Z.eqb_refl, Hnum.
    now rewrite String.eqb_refl.
  - apply find_some in Hfind as Hin. destruct Hin as [Hin _].
    destruct (Z.eqb_spec (Order.id x) (Order.id o')) as [Eid|NE].
    + exfalso. apply Hx. rewrite Eid, Hid. now apply in_map.
    + rewrite E. now apply IH.
Qed.

Lemma order_by_number_scan_work (status : option Order.Status)
    (order : Order.t) (tr : Track.t) (number : string) (st : Store) :
  integrity st = true ->
  order_by_number number st = Some order ->
  exists order',
    order_by_number number (scan_work status order tr st) = Some order'
    /\ Order.id order' = Order.id order.
Proof.
  intros Hlegal Hfind. unfold scan_work, order_by_number in *.
  destruct status as [s|]; cbn [orders with_tracks with_orders].
  - exists (Order.set_status (Some s) order). split; [|reflexivity].
    apply integrity_parts in Hlegal as (_ & Ho & _).
    unfold orders_ok in Ho. rewrite !andb_true_iff in Ho.
    destruct Ho as [[_ Hid] _].
    apply (order_by_number_put _ number order); auto.
    apply find_some in Hfind as [_ H]. now apply String.eqb_eq in H.
  - exists order. auto.
Qed.

Lemma flask_scan_accepted (authorization : option string) (worker : Worker.t)
    (number action : string) (location note : option string)
    (order : Order.t) (st : Store) :
  integrity st = true ->
  Flask.require_worker_token authorization st = inr worker ->
  number <> EmptyString -> action <> EmptyString ->
  order_by_number number st = Some order ->
  Flask.scan true authorization
    (Flask.ScanBody.mk (Some number) (Some action) location note) st
  = (ScanRecorded (next_id (map Track.id (tracks st))) action,
     scan_work (Flask.action_status action) order
       (Track.mk (next_id (map Track.id (tracks st))) (Some (Order.id order))
          (Some (Worker.id worker)) action note location) st).
Proof.
  intros Hlegal Hw Hn Ha Ho. unfold Flask.scan. rewrite Hw.
  cbn [Flask.ScanBody.order_number Flask.ScanBody.action
         Flask.ScanBody.note Flask.ScanBody.location].
  destruct number as [|c rest]; [congruence|].
  destruct action as [|c' rest']; [congruence|].
  cbn [nonempty]. rewrite Ho.
  match goal with
  | |- context [commit true ?w] =>
      change w with
        (scan_work (Flask.action_status (String c' rest')) order
           (Track.mk (next_id (map Track.id (tracks st)))
              (Some (Order.id order)) (Some (Worker.id worker))
              (String c' rest') note location) st)
  end.
  rewrite commit_accepts; [reflexivity|].
  apply integrity_scan_work; auto.
  now apply order_by_number_In in Ho as [Hin _].
Qed.

(** X13.  The Flask scan checks no transition.  Two scans of the same order
    by an authenticated worker, on a legal store that accepts both commits,
    are both recorded: the two Track rows follow the former rows in the
    order of the requests, with consecutive ids, and the order ends in the
    status of the second action, whatever the first action was and whatever
    the status before. *)
Theorem flask_scan_twice (authorization : option string) (worker : Worker.t)
    (number action1 action2 : string)
    (location1 note1 location2 note2 : option string)
    (order : Order.t) (status2 : Order.Status) (st : Store)
    (Hlegal : integrity st = true)
    (Hworker : Flask.require_worker_token authorization st = inr worker)
    (Hnumber : number <> EmptyString)
    (Haction1 : action1 <> EmptyString)
    (Haction2 : action2 <> EmptyString)
    (Horder : order_by_number number st = Some order)
    (Hstatus2 : Flask.action_status action2 = Some status2) :
  let r1 :=
    Flask.scan true authorization
      (Flask.ScanBody.mk (Some number) (Some action1) location1 note1) st in
  let r2 :=
    Flask.scan true authorization
      (Flask.ScanBody.mk (Some number) (Some action2) location2 note2)
      (snd r1) in
  let id1 := next_id (map Track.id (tracks st)) in
  fst r1 = ScanRecorded id1 action1
  /\ fst r2 = ScanRecorded (id1 + 1) action2
  /\ tracks (snd r2)
     = (tracks st
        ++ [Track.mk id1 (Some (Order.id order)) (Some (Worker.id worker))
              action1 note1 location1;
            Track.mk (id1 + 1) (Some (Order.id order))
              (Some (Worker.id worker)) action2 note2 location2])%list
  /\ option_map Order.status (get_order (Order.id order) (snd r2))
     = Some (Some status2).
Proof.
  intros r1 r2 id1. subst r2 r1.
  rewrite (flask_scan_accepted authorization worker number action1 location1
             note1 order st Hlegal Hworker Hnumber Haction1 Horder).
  cbn [fst snd]. fold id1.
  set (t1 := Track.mk id1 (Some (Order.id order)) (Some (Worker.id worker))
               action1 note1 location1).
  set (st1 := scan_work (Flask.action_status action1) order t1 st).
  pose proof (order_by_number_In _ _ _ Horder) as [Hin _].
  assert (Hlegal1 : integrity st1 = true)
    by (apply integrity_scan_work; auto).
  assert (Hworker1 : Flask.require_worker_token authorization st1 = inr worker).
  { rewrite <- Hworker. unfold st1, scan_work, Flask.require_worker_token,
      worker_by_token.
    destruct (Flask.action_status action1); reflexivity. }
  destruct (order_by_number_scan_work (Flask.action_status action1) order t1
              number st Hlegal Horder) as (order1 & Horder1 & Hid1).
  fold st1 in Horder1.
  rewrite (flask_scan_accepted authorization worker number action2 location2
             note2 order1 st1 Hlegal1 Hworker1 Hnumber Haction2 Horder1).
  cbn [fst snd]. rewrite Hstatus2, Hid1.
  assert (Htracks1 : tracks st1 = (tracks st ++ [t1])%list).
  { unfold st1, scan_work. destruct (Flask.action_status action1); reflexivity. }
  assert (Hid2 : next_id (map Track.id (tracks st1)) = id1 + 1).
  { rewrite Htracks1, map_app. cbn [map Track.id t1]. apply next_id_snoc. }
  rewrite Hid2. split; [reflexivity|]. split; [reflexivity|]. split.
  - unfold scan_work at 1. cbn [tracks with_tracks with_orders].
    rewrite Htracks1, <- app_assoc. reflexivity.
  - rewrite <- Hid1. rewrite scan_work_status; [reflexivity|].
    now apply order_by_number_In in Horder1 as [Hin1 _].
Qed.

Lemma flask_scan_twice_witness :
  let r1 :=
    Flask.scan true sample_authorization
      (Flask.ScanBody.mk (Some "ORD-TEST-001") (Some "delivered") None None)
      sample_store in
  let r2 :=
    Flask.scan true sample_authorization
      (Flask.ScanBody.mk (Some "ORD-TEST-001") (Some "picked_up") None None)
      (snd r1) in
  option_map Order.status (get_order 1 (snd r2))
  = Some (Some Order.picked_up).
Proof.
  cbv zeta.
  refine (proj2 (proj2 (proj2
    (flask_scan_twice sample_authorization sample_worker "ORD-TEST-001"
       "delivered" "picked_up" None None None None sample_order
       Order.picked_up sample_store eq_refl eq_refl _ _ _ eq_refl eq_refl))));
    discriminate.
Defined.

(** ** What no request does *)

Lemma commit_workers_inr (db_accepts : bool) (work st' : Store) :
  commit_workers db_accepts work = inr st' ->
  integrity work = true /\ st' = work.
Proof.
  unfold commit_workers. destruct db_accepts; cbn [negb]; [|discriminate].
  destruct (workers_ok (workers work)); [|discriminate].
  intros H. apply commit_inr in H. tauto.
Qed.

Ltac break_match :=
  match goal with
  | |- context [match ?x with _ => _ end] => destruct x eqn:?
  end.

Ltac committed :=
  repeat match goal with
  | H : commit _ _ = inr _ |- _ =>
      apply commit_inr in H; destruct H as (_ & ? & ->)
  | H : commit_workers _ _ = inr _ |- _ =>
      apply commit_workers_inr in H; destruct H as (? & ->)
  end.

Lemma delete_work_tracks (o : Order.t) (st : Store) :
  integrity (session_delete_order o st) = true ->
  tracks (session_delete_order o st) = tracks st.
Proof.
  intros H. apply integrity_parts in H as (_ & _ & Ht).
  unfold session_delete_order in *. cbn [tracks with_tracks] in *.
  apply blank_tracks_none. now apply blank_tracks_ok.
Qed.

Lemma handle_tracks (req : Request) (st : Store) :
  exists added, tracks (handle req st) = (tracks st ++ added)%list.
Proof.
  assert (Hsame : forall st', tracks st' = tracks st ->
            exists added, tracks st' = (tracks st ++ added)%list).
  { intros st' ->. exists []. now rewrite app_nil_r. }
  destruct req; cbn [handle].
  - unfold Flask.create_order. repeat break_match; committed;
      apply Hsame; reflexivity.
  - unfold Flask.update_order. repeat break_match; committed;
      apply Hsame; reflexivity.
  - unfold Flask.delete_order. repeat break_match; committed;
      apply Hsame; try reflexivity.
    cbn [snd]. now apply delete_work_tracks.
  - unfold Flask.create_service. repeat break_match; committed;
      apply Hsame; reflexivity.
  - unfold Flask.update_service. repeat break_match; committed;
      apply Hsame; reflexivity.
  - unfold Flask.worker_login. repeat break_match; committed;
      apply Hsame; reflexivity.
  - unfold Flask.register_worker. repeat break_match; committed;
      apply Hsame; reflexivity.
  - destruct (flask_scan_cases db_accepts authorization data st)
      as [[_ ->]|(w & n & a & o & _ & _ & _ & _ & ->)].
    + now apply Hsame.
    + cbn [snd]. unfold scan_work. cbn [tracks with_tracks]. eauto.
  - unfold FastApi.create_order. repeat break_match; committed;
      apply Hsame; reflexivity.
  - unfold FastApi.update_order. repeat break_match; committed;
      apply Hsame; reflexivity.
  - unfold FastApi.delete_order. repeat break_match; committed;
      apply Hsame; try reflexivity.
    cbn [snd]. now apply delete_work_tracks.
  - unfold FastApi.create_service. repeat break_match; committed;
      apply Hsame; reflexivity.
  - unfold FastApi.register_worker. repeat break_match; committed;
      apply Hsame; reflexivity.
  - destruct (fastapi_scan_cases db_accepts authorization payload st)
      as [[_ ->]|(t & w & o & _ & _ & _ & ->)].
    + now apply Hsame.
    + cbn [snd]. unfold scan_work. cbn [tracks with_tracks]. eauto.
Qed.

(** X14.  The Track table is append-only.  Whatever sequence of requests
    the writing handlers of the two backends serve (orders, services,
    workers, scans; accepted, refused or failing), the Track rows that were
    in the store are still there afterwards, unchanged and in their place at
    the head of the table; rows are only ever added behind them. *)
Theorem tracks_append_only (reqs : list Request) (st : Store) :
  exists added, tracks (run reqs st) = (tracks st ++ added)%list.
Proof.
  unfold run. revert st. induction reqs as [|req reqs IH]; intros st.
  - exists []. cbn. now rewrite app_nil_r.
  - cbn [fold_left]. destruct (IH (handle req st)) as [added2 H2].
    destruct (handle_tracks req st) as [added1 H1].
    exists (added1 ++ added2)%list. now rewrite H2, H1, app_assoc.
Qed.

Lemma same_fixed_refl (o : Order.t) : same_fixed_columns o o.
Proof. repeat split. Qed.

Lemma find_filter_same {A : Type} (p q : A -> bool) (l : list A) :
  (forall y, p y = true -> q y = true) ->
  find p (filter q l) = find p l.
Proof.
  intros H. induction l as [|x l IH]; cbn [filter find]; [reflexivity|].
  destruct (q x) eqn:Hq; cbn [find].
  - now rewrite IH.
  - destruct (p x) eqn:Hp; [|assumption].
    rewrite (H x Hp) in Hq. discriminate.
Qed.

Lemma put_order_fixed (ox r o o' : Order.t) (i : Z) (l : list Order.t) :
  uniqueb Z.eqb (map Order.id l) = true ->
  In r l -> Order.id ox = Order.id r -> same_fixed_columns ox r ->
  find (fun x => Order.id x =? i) l = Some o ->
  find (fun x => Order.id x =? i) (put_order ox l) = Some o' ->
  same_fixed_columns o' o.
Proof.
  intros Hu Hr Hid Hfixed Ho Ho'.
  destruct (Z.eq_dec i (Order.id ox)) as [->|Hne].
  - rewrite get_order_put in Ho' by (rewrite Hid; now apply in_map).
    injection Ho' as <-.
    apply find_some in Ho as [Hin Hi]. apply Z.eqb_eq in Hi.
    assert (o = r) as ->; [|assumption].
    apply (unique_key_eq Z.eqb Z.eqb_eq Order.id l); auto. congruence.
  - rewrite get_order_put_other in Ho' by assumption.
    assert (o' = o) as -> by congruence. apply same_fixed_refl.
Qed.

Lemma orders_unique_ids (st : Store) :
  integrity st = true -> uniqueb Z.eqb (map Order.id (orders st)) = true.
Proof.
  intros H. apply integrity_parts in H as (_ & Ho & _).
  unfold orders_ok in Ho. rewrite !andb_true_iff in Ho. tauto.
Qed.

Lemma inserted_order_fixed (i : Z) (o o' x x' : Order.t) (l : list Order.t) :
  find (fun y => Order.id y =? i) l = Some o ->
  Order.id x = next_id (map Order.id l) -> Order.id x' = Order.id x ->
  (find (fun y => Order.id y =? i) (l ++ [x]) = Some o'
   \/ find (fun y => Order.id y =? i) (put_order x' (l ++ [x])) = Some o') ->
  same_fixed_columns o' o.
Proof.
  intros Ho Hx Hx' [H|H].
  - rewrite (find_snoc_old _ _ x _ Ho) in H.
    injection H as <-. apply same_fixed_refl.
  - rewrite put_order_snoc in H;
      [|assumption | rewrite Hx; apply next_id_fresh].
    rewrite (find_snoc_old _ _ x' _ Ho) in H.
    injection H as <-. apply same_fixed_refl.
Qed.

Lemma deleted_order_fixed (i : Z) (o o' order : Order.t) (st : Store) :
  get_order i st = Some o ->
  get_order i (session_delete_order order st) = Some o' ->
  same_fixed_columns o' o.
Proof.
  unfold get_order, session_delete_order. cbn [orders with_tracks with_orders].
  intros Ho Ho'.
  destruct (Z.eq_dec i (Order.id order)) as [->|Hne].
  - now rewrite find_filter_out in Ho'.
  - rewrite find_filter_same in Ho'.
    + assert (o' = o) as -> by congruence. apply same_fixed_refl.
    + intros y Hy. apply Z.eqb_eq in Hy. apply negb_true_iff.
      apply Z.eqb_neq. congruence.
Qed.

Ltac by_put_order Hu Hbefore :=
  repeat match goal with
  | Hf : find _ (put_order ?ox _) = Some _ |- _ =>
      match ox with
      | context [match ?x with _ => _ end] => destruct x
      end
  end;
  match goal with
  | Hf : find _ (put_order ?ox ?l) = Some ?o',
    Hin : In ?r ?l |- same_fixed_columns ?o' ?o =>
      refine (put_order_fixed ox r o o' _ l Hu Hin _ _ Hbefore Hf);
      [reflexivity | repeat split]
  end.

(** X15.  No request rewrites what an order was created with.  On a legal
    store, for every request to a writing handler of either backend: an
    order that exists before the request and still exists after it has the
    same order number, customer, service and total cost; requests can
    change its pickup date, instructions, status and label path only. *)
Theorem order_fixed_columns_kept (req : Request) (st : Store) (i : Z)
    (o o' : Order.t)
    (Hlegal : integrity st = true)
    (Hbefore : get_order i st = Some o)
    (Hafter : get_order i (handle req st) = Some o') :
  same_fixed_columns o' o.
Proof.
  assert (Hsame : forall st', orders st' = orders st ->
                    get_order i st' = Some o' -> same_fixed_columns o' o).
  { unfold get_order in *. intros st' -> H. rewrite Hbefore in H.
    injection H as <-. apply same_fixed_refl. }
  pose proof (orders_unique_ids st Hlegal) as Hu.
  revert Hafter. destruct req; cbn [handle].
  - unfold Flask.create_order. repeat break_match; committed; cbn [snd];
      try (apply Hsame; reflexivity);
      unfold get_order; cbn [orders with_orders]; intros Hfound;
      match goal with
      | Hf : find _ (put_order ?x' (?l ++ [?x])) = Some _ |- _ =>
          exact (inserted_order_fixed i o o' x x' l Hbefore eq_refl eq_refl
                   (or_intror Hf))
      | Hf : find _ (?l ++ [?x]) = Some _ |- _ =>
          exact (inserted_order_fixed i o o' x x l Hbefore eq_refl eq_refl
                   (or_introl Hf))
      end.
  - unfold Flask.update_order. repeat break_match; committed; cbn [snd];
      try (apply Hsame; reflexivity).
    all: unfold get_order; cbn [orders with_orders]; intros Hfound.
    all: repeat match goal with
         | Hg : get_order _ _ = Some ?r |- _ =>
             lazymatch goal with
             | _ : In r _ |- _ => fail
             | _ => pose proof (proj1 (get_order_id _ _ _ Hg))
             end
         end.
    all: by_put_order Hu Hbefore.
  - unfold Flask.delete_order. repeat break_match; committed; cbn [snd];
      try (apply Hsame; reflexivity).
    now apply deleted_order_fixed.
  - unfold Flask.create_service. repeat break_match; committed;
      apply Hsame; reflexivity.
  - unfold Flask.update_service. repeat break_match; committed;
      apply Hsame; reflexivity.
  - unfold Flask.worker_login. repeat break_match; committed;
      apply Hsame; reflexivity.
  - unfold Flask.register_worker. repeat break_match; committed;
      apply Hsame; reflexivity.
  - destruct (flask_scan_cases db_accepts authorization data st)
      as [[_ ->]|(w & n & a & r & _ & _ & _ & Hr & ->)];
      [now apply Hsame|].
    cbn [snd]. unfold scan_work.
    destruct (Flask.action_status a) as [s|]; [|now apply Hsame].
    unfold get_order. cbn [orders with_tracks with_orders]. intros Hfound.
    apply order_by_number_In in Hr as [Hin _].
    by_put_order Hu Hbefore.
  - unfold FastApi.create_order. repeat break_match; committed; cbn [snd];
      try (apply Hsame; reflexivity);
      unfold get_order; cbn [orders with_orders]; intros Hfound;
      match goal with
      | Hf : find _ (put_order ?x' (?l ++ [?x])) = Some _ |- _ =>
          exact (inserted_order_fixed i o o' x x' l Hbefore eq_refl eq_refl
                   (or_intror Hf))
      | Hf : find _ (?l ++ [?x]) = Some _ |- _ =>
          exact (inserted_order_fixed i o o' x x l Hbefore eq_refl eq_refl
                   (or_introl Hf))
      end.
  - unfold FastApi.update_order. repeat break_match; committed; cbn [snd];
      try (apply Hsame; reflexivity).
    all: unfold get_order; cbn [orders with_orders]; intros Hfound.
    all: repeat match goal with
         | Hg : get_order _ _ = Some ?r |- _ =>
             lazymatch goal with
             | _ : In r _ |- _ => fail
             | _ => pose proof (proj1 (get_order_id _ _ _ Hg))
             end
         end.
    all: by_put_order Hu Hbefore.
  - unfold FastApi.delete_order. repeat break_match; committed; cbn [snd];
      try (apply Hsame; reflexivity).
    now apply deleted_order_fixed.
  - unfold FastApi.create_service. repeat break_match; committed;
      apply Hsame; reflexivity.
  - unfold FastApi.register_worker. repeat break_match; committed;
      apply Hsame; reflexivity.
  - destruct (fastapi_scan_cases db_accepts authorization payload st)
      as [[_ ->]|(t & w & r & _ & _ & Hr & ->)];
      [now apply Hsame|].
    cbn [snd]. unfold scan_work.
    destruct (FastApi.action_status _) as [s|]; [|now apply Hsame].
    unfold get_order. cbn [orders with_tracks with_orders]. intros Hfound.
    apply order_by_number_In in Hr as [Hin _].
    by_put_order Hu Hbefore.
Qed.

Lemma order_fixed_columns_kept_witness :
  same_fixed_columns
    (Order.set_status (Some Order.delivered) sample_order) sample_order.
Proof.
  apply (order_fixed_columns_kept
           (FlaskScan true sample_authorization
              (Flask.ScanBody.mk (Some "ORD-TEST-001") (Some "delivered")
                 None None))
           sample_store 1); reflexivity.
Defined.

(** X16.  After the owner has deleted an order (one that no Track row
    references, on a legal store that accepts the commit), the order is
    gone for every later request: the owner's get is answered 404, the
    owner's list is the former list without it, and a scan of its order
    number by an authenticated worker is answered 404 in both backends and
    records nothing. *)
Theorem delete_order_then_gone (st : Store) (order_id : Z) (order : Order.t)
    (authorization : option string) (worker : Worker.t)
    (Hlegal : integrity st = true)
    (Hget : get_order order_id st = Some order)
    (Hnone : existsb (references order_id) (tracks st) = false)
    (Hworker : Flask.require_worker_token authorization st = inr worker)
    (Hnumber : Order.order_number order <> EmptyString) :
  let r := Flask.delete_order true (Order.customer_id order) order_id st in
  let st' := snd r in
  fst r = Msg 200 "Deleted"
  /\ Flask.get_order (Order.customer_id order) order_id st'
     = Err 404 "Not Found"
  /\ (forall item, In item (Flask.list_orders (Order.customer_id order) st') ->
        Flask.OrderItem.id item <> order_id)
  /\ (forall db_accepts action location note,
        action <> EmptyString ->
        Flask.scan db_accepts authorization
          (Flask.ScanBody.mk (Some (Order.order_number order)) (Some action)
             location note) st'
        = (Msg 404 "Order not found", st'))
  /\ (forall db_accepts action location,
        FastApi.scan db_accepts authorization
          (FastApi.WorkerScanIn.mk (Order.order_number order) action location)
          st'
        = (Msg 404 "Order not found", st')).
Proof.
  intros r st'.
  pose proof (get_order_id _ _ _ Hget) as [Hin Hid].
  assert (Hr : r = (Msg 200 "Deleted",
                    with_orders
                      (filter (fun x => negb (Order.id x =? order_id))
                         (orders st)) st)).
  { subst r. unfold Flask.delete_order. rewrite Hget, Z.eqb_refl. cbn [negb].
    unfold session_delete_order. rewrite Hid.
    rewrite (blank_tracks_none _ _ Hnone).
    rewrite commit_accepts; [now destruct st|].
    apply integrity_parts in Hlegal as (Hs & Ho & Ht).
    apply integrity_parts. cbn [services orders tracks with_tracks with_orders].
    repeat split; auto using orders_ok_filter. }
  subst st'. rewrite Hr. cbn [fst snd]. clear r Hr.
  set (st' := with_orders _ st).
  assert (Hgone : order_by_number (Order.order_number order) st' = None).
  { unfold order_by_number. apply find_all_false. intros x Hx.
    subst st'. cbn [orders with_orders] in Hx.
    apply filter_In in Hx as [Hx Hne]. apply String.eqb_neq. intros E.
    apply negb_true_iff, Z.eqb_neq in Hne. apply Hne. rewrite <- Hid.
    f_equal.
    apply integrity_parts in Hlegal as (_ & Ho & _).
    unfold orders_ok in Ho. rewrite !andb_true_iff in Ho.
    destruct Ho as [_ Hnum].
    now apply (unique_key_eq String.eqb string_eqb_spec Order.order_number
                 (orders st)). }
  assert (Hworker' : Flask.require_worker_token authorization st' = inr worker)
    by exact Hworker.
  repeat apply conj.
  - reflexivity.
  - unfold Flask.get_order. subst st'. cbn [orders with_orders].
    now rewrite find_filter_out.
  - intros item Hitem. unfold Flask.list_orders in Hitem.
    apply in_map_iff in Hitem as (o & <- & Ho).
    apply filter_In in Ho as [Ho _]. subst st'. cbn [orders with_orders] in Ho.
    apply filter_In in Ho as [_ Hne]. cbn.
    now apply negb_true_iff, Z.eqb_neq in Hne.
  - intros db action location note Ha. unfold Flask.scan. rewrite Hworker'.
    cbn [Flask.ScanBody.order_number Flask.ScanBody.action].
    destruct (Order.order_number order) as [|c rest] eqn:En; [congruence|].
    destruct action as [|c' rest']; [congruence|].
    cbn [nonempty]. now rewrite Hgone.
  - intros db action location. unfold FastApi.scan.
    unfold Flask.require_worker_token in Hworker'.
    destruct (bearer_token authorization) as [tok|]; [|discriminate].
    destruct (worker_by_token tok st') as [w|]; [|discriminate].
    cbn [FastApi.WorkerScanIn.order_number]. now rewrite Hgone.
Qed.

Lemma delete_order_then_gone_witness :
  let st' := snd (Flask.delete_order true 1 1 sample_store) in
  Flask.scan true sample_authorization
    (Flask.ScanBody.mk (Some "ORD-TEST-001") (Some "picked_up") None None) st'
  = (Msg 404 "Order not found", st').
Proof.
  cbv zeta.
  refine (proj1 (proj2 (proj2 (proj2
    (delete_order_then_gone sample_store 1 sample_order sample_authorization
       sample_worker eq_refl eq_refl eq_refl eq_refl _)))) true "picked_up"
    None None _); discriminate.
Defined.

(** ** Utilities *)

(** X17.  [paginated_response] returns the items, page and page size as
    given and, for the total, the given value or else the number of items.
    The page count is 0 when the total is not positive; for a positive
    total and a positive page size it is the least number of pages that
    hold the total; and for a positive total and a page size of 0 the
    division raises. *)
Theorem paginated_response_pages {A : Type} (items : list A)
    (page per_page : Z) (total : option Z) :
  let n :=
    match total with
    | None => Z.of_nat (List.length items)
    | Some t => t
    end in
  match Utils.paginated_response items page per_page total with
  | None => per_page = 0 /\ 0 < n
  | Some (items', p) =>
      items' = items /\ Utils.page p = page /\ Utils.per_page p = per_page
      /\ Utils.total p = n
      /\ (per_page = 0 -> n <= 0)
      /\ (n <= 0 -> Utils.pages p = 0)
      /\ (0 < n -> 0 < per_page ->
          (Utils.pages p - 1) * per_page < n <= Utils.pages p * per_page)
  end.
Proof.
  intros n. unfold Utils.paginated_response. fold n.
  destruct (Z.ltb_spec 0 n) as [Hpos|Hle].
  - destruct (Z.eqb_spec per_page 0) as [Hz|Hnz]; [auto|].
    cbn [Utils.page Utils.per_page Utils.total Utils.pages].
    assert (Hdiv : 0 < per_page ->
              per_page * ((n + per_page - 1) / per_page) <= n + per_page - 1
              /\ n + per_page - 1
                 < per_page * Z.succ ((n + per_page - 1) / per_page)).
    { intros Hp. split; [now apply Z.mul_div_le
                        | now apply Z.mul_succ_div_gt]. }
    repeat split; intros; try lia;
      match goal with
      | Hp : 0 < per_page |- _ => destruct (Hdiv Hp); nia
      end.
  - cbn [Utils.page Utils.per_page Utils.total Utils.pages].
    repeat split; lia.
Qed.

Example paginated_response_sample :
  Utils.paginated_response [1; 2; 3] 1 20 (Some 41)
  = Some ([1; 2; 3], Utils.mkPagination 1 20 41 3)
  /\ Utils.paginated_response [1; 2; 3] 1 0 None = None
  /\ Utils.paginated_response (@nil Z) 1 0 None
     = Some ([], Utils.mkPagination 1 0 0 0).
Proof. repeat split. Qed.

Lemma b64_char_urlsafe (n : N) : Utils.is_urlsafe (Secrets.b64_char n) = true.
Proof.
  unfold Secrets.b64_char.
  remember (N.to_nat n) as k eqn:E. clear E n.
  do 64 (destruct k as [|k]; [reflexivity|]). reflexivity.
Qed.

Lemma b64_urlsafe_nopad_format (bs : list byte) :
  String.length (Secrets.b64_urlsafe_nopad bs)
  = ((4 * List.length bs + 2) / 3)%nat
  /\ Secrets.string_forallb Utils.is_urlsafe (Secrets.b64_urlsafe_nopad bs)
     = true.
Proof.
  remember (List.length bs) as n eqn:Hn.
  revert bs Hn. induction n as [n IH] using lt_wf_ind. intros bs Hn.
  destruct bs as [|a [|b [|c rest]]]; cbn [List.length] in Hn; subst n.
  - split; reflexivity.
  - split; [reflexivity|].
    cbn [Secrets.b64_urlsafe_nopad Secrets.string_forallb].
    now rewrite !b64_char_urlsafe.
  - split; [reflexivity|].
    cbn [Secrets.b64_urlsafe_nopad Secrets.string_forallb].
    now rewrite !b64_char_urlsafe.
  - destruct (IH (List.length rest) ltac:(lia) rest eq_refl) as [Hl Hc].
    cbn [Secrets.b64_urlsafe_nopad Secrets.string_forallb String.length].
    rewrite Hl, Hc, !b64_char_urlsafe. split; [|reflexivity].
    replace (4 * S (S (S (List.length rest))) + 2)%nat
      with (4 * List.length rest + 2 + 4 * 3)%nat by lia.
    rewrite Nat.div_add by discriminate. lia.
Qed.

(** X18.  A token from [generate_token] for [length] bytes has
    [ceil(4 * length / 3)] characters, each a letter, a digit, [-] or [_];
    [generate_order_token] is the case of 32 bytes and has 43 characters. *)
Theorem generate_token_format (e : Secrets.Entropy) (length : nat) :
  String.length (Utils.generate_token e length) = ((4 * length + 2) / 3)%nat
  /\ Secrets.string_forallb Utils.is_urlsafe (Utils.generate_token e length)
     = true
  /\ Utils.generate_order_token e = Utils.generate_token e 32
  /\ String.length (Utils.generate_order_token e) = 43%nat.
Proof.
  unfold Utils.generate_token, Utils.generate_order_token,
    Secrets.token_urlsafe.
  destruct (b64_urlsafe_nopad_format (Secrets.token_bytes e length))
    as [Hl Hc].
  rewrite token_bytes_length in Hl.
  repeat split; auto.
Qed.

(** ** The admin session *)

Lemma eq_optional_eq (a b : option string) :
  FlaskAdmin.eq_optional a b = true <-> a = b.
Proof.
  destruct a as [x|], b as [y|]; cbn; split; try discriminate; auto.
  - intros H. apply String.eqb_eq in H. now subst.
  - intros H. injection H as ->. apply String.eqb_refl.
Qed.

(** X19.  The admin login of the Flask application accepts a request
    exactly when its email and password both equal the two environment
    variables, strings or missing alike: with both variables unset, a
    request with neither field is accepted.  An accepted login opens the
    admin views for the session; a refused one leaves the session as it
    was; after a logout the admin views answer 401 whatever the session was;
    and a session that only has the key ["admin_logged_in"], the one the
    fixture of [tests/conftest.py] sets, is not an admin session. *)
Theorem admin_login_logout (env : FlaskAdmin.Env)
    (data : FlaskAdmin.LoginBody.data) (session : FlaskAdmin.Session)
    (st : Store) :
  (replied_ok (fst (FlaskAdmin.login env data session)) = true <->
   FlaskAdmin.LoginBody.email data = FlaskAdmin.ADMIN_EMAIL env
   /\ FlaskAdmin.LoginBody.password data = FlaskAdmin.ADMIN_PASSWORD env)
  /\ fst (FlaskAdmin.login (FlaskAdmin.mkEnv None None)
            (FlaskAdmin.LoginBody.mk None None) session)
     = Ok 200 "ok"
  /\ (replied_ok (fst (FlaskAdmin.login env data session)) = true ->
      replied_ok
        (fst (FlaskAdmin.list_orders st
                (snd (FlaskAdmin.login env data session)))) = true)
  /\ (replied_ok (fst (FlaskAdmin.login env data session)) = false ->
      FlaskAdmin.login env data session = (Err 401 "Bad creds", session))
  /\ fst (FlaskAdmin.list_orders st (snd (FlaskAdmin.logout session)))
     = Err 401 "Admin login required"
  /\ fst (FlaskAdmin.list_orders st [("admin_logged_in", true)])
     = Err 401 "Admin login required".
Proof.
  assert (Hlogout : forall s,
             FlaskAdmin.session_get "is_admin" (snd (FlaskAdmin.logout s))
             <> Some true).
  { intros s. unfold FlaskAdmin.logout, FlaskAdmin.admin_required.
    destruct (FlaskAdmin.session_get "is_admin" s) as [[|]|] eqn:Hs;
      cbn [snd]; try rewrite Hs; discriminate. }
  assert (Hclosed : forall s,
             FlaskAdmin.session_get "is_admin" s <> Some true ->
             fst (FlaskAdmin.list_orders st s)
             = Err 401 "Admin login required").
  { intros s Hs. unfold FlaskAdmin.list_orders, FlaskAdmin.admin_required.
    destruct (FlaskAdmin.session_get "is_admin" s) as [[|]|];
      [congruence | reflexivity | reflexivity]. }
  split; [|split; [|split; [|split; [|split]]]].
  - rewrite <- !eq_optional_eq. unfold FlaskAdmin.login.
    destruct (FlaskAdmin.eq_optional _ _), (FlaskAdmin.eq_optional _ _);
      cbn; intuition discriminate.
  - reflexivity.
  - unfold FlaskAdmin.login.
    destruct (_ && _); cbn [fst snd replied_ok]; [|discriminate].
    intros _. reflexivity.
  - unfold FlaskAdmin.login.
    destruct (_ && _); cbn [fst snd replied_ok]; [discriminate|].
    reflexivity.
  - apply Hclosed, Hlogout.
  - reflexivity.
Qed.

(** ** Accepted and refused commits *)

Lemma fastapi_scan_accepted (authorization : option string) (token : string)
    (worker : Worker.t) (payload : FastApi.WorkerScanIn.t) (order : Order.t)
    (st : Store) :
  integrity st = true ->
  bearer_token authorization = Some token ->
  worker_by_token token st = Some worker ->
  order_by_number (FastApi.WorkerScanIn.order_number payload) st = Some order ->
  FastApi.scan true authorization payload st
  = (ScanRecorded (next_id (map Track.id (tracks st)))
       (FastApi.WorkerScanIn.action payload),
     scan_work (FastApi.action_status (FastApi.WorkerScanIn.action payload))
       order
       (Track.mk (next_id (map Track.id (tracks st))) (Some (Order.id order))
          (Some (Worker.id worker)) (FastApi.WorkerScanIn.action payload)
          None (FastApi.WorkerScanIn.location payload)) st).
Proof.
  intros Hlegal Hb Hw Ho. unfold FastApi.scan. rewrite Hb, Hw, Ho.
  match goal with
  | |- context [commit true ?w] =>
      change w with
        (scan_work
           (FastApi.action_status (FastApi.WorkerScanIn.action payload)) order
           (Track.mk (next_id (map Track.id (tracks st)))
              (Some (Order.id order)) (Some (Worker.id worker))
              (FastApi.WorkerScanIn.action payload) None
              (FastApi.WorkerScanIn.location payload)) st)
  end.
  rewrite commit_accepts; [reflexivity|].
  apply integrity_scan_work; auto.
  now apply order_by_number_In in Ho as [Hin _].
Qed.

(** X20.  On a legal store whose database accepts the commit, a scan by an
    authenticated worker of an existing order number is always recorded:
    the Flask backend asks for a non-empty action and nothing else, and the
    FastAPI backend records any action, the empty string included.  The
    Track row gets the next id and carries the order, the worker, the action
    and the location (and, in the Flask backend, the note). *)
Theorem scan_accepted (authorization : option string) (token : string)
    (worker : Worker.t) (number : string) (order : Order.t) (st : Store)
    (Hlegal : integrity st = true)
    (Hbearer : bearer_token authorization = Some token)
    (Hworker : worker_by_token token st = Some worker)
    (Horder : order_by_number number st = Some order) :
  (forall action location note,
     number <> EmptyString -> action <> EmptyString ->
     let r := Flask.scan true authorization
                (Flask.ScanBody.mk (Some number) (Some action) location note)
                st in
     fst r = ScanRecorded (next_id (map Track.id (tracks st))) action
     /\ tracks (snd r)
        = (tracks st
           ++ [Track.mk (next_id (map Track.id (tracks st)))
                 (Some (Order.id order)) (Some (Worker.id worker)) action
                 note location])%list)
  /\ (forall action location,
        let r := FastApi.scan true authorization
                   (FastApi.WorkerScanIn.mk number action location) st in
        fst r = ScanRecorded (next_id (map Track.id (tracks st))) action
        /\ tracks (snd r)
           = (tracks st
              ++ [Track.mk (next_id (map Track.id (tracks st)))
                    (Some (Order.id order)) (Some (Worker.id worker)) action
                    None location])%list).
Proof.
  assert (Hreq : Flask.require_worker_token authorization st = inr worker).
  { unfold Flask.require_worker_token. now rewrite Hbearer, Hworker. }
  split.
  - intros action location note Hn Ha r. subst r.
    rewrite (flask_scan_accepted authorization worker number action location
               note order st Hlegal Hreq Hn Ha Horder).
    split; [reflexivity|]. unfold scan_work.
    destruct (Flask.action_status action); reflexivity.
  - intros action location r. subst r.
    rewrite (fastapi_scan_accepted authorization token worker
               (FastApi.WorkerScanIn.mk number action location) order st
               Hlegal Hbearer Hworker Horder).
    split; [reflexivity|]. unfold scan_work.
    cbn [FastApi.WorkerScanIn.action].
    destruct (FastApi.action_status action); reflexivity.
Qed.

Lemma scan_accepted_witness :
  let r := FastApi.scan true sample_authorization
             (FastApi.WorkerScanIn.mk "ORD-TEST-001" "" None) sample_store in
  fst r = ScanRecorded 1 ""
  /\ tracks (snd r) = [Track.mk 1 (Some 1) (Some 1) "" None None].
Proof.
  cbv zeta.
  apply (proj2 (scan_accepted sample_authorization "test-worker-token"
                  sample_worker "ORD-TEST-001" sample_order sample_store
                  eq_refl eq_refl eq_refl eq_refl) "" None).
Defined.

Lemma in_put_order_self (o : Order.t) (l : list Order.t) :
  In (Order.id o) (map Order.id l) -> In o (put_order o l).
Proof.
  intros H. apply in_map_iff in H as (x & Hx & Hin).
  unfold put_order. apply in_map_iff. exists x.
  rewrite Hx, Z.eqb_refl. auto.
Qed.

(** X21.  In the Flask backend an update by the owner on a legal store
    whose database accepts the commit succeeds for every validated body,
    except one: a body with ["status": null] passes the schema, sets the
    status to [None] and is refused at the commit by [nullable=False]; the
    [IntegrityError] leaves the handler and the order is as before. *)
Theorem flask_update_order_null_status (st : Store) (order_id : Z)
    (order : Order.t) (pickup_date : option (option Z))
    (instructions : option (option string))
    (status : option (option Order.Status))
    (Hlegal : integrity st = true)
    (Hget : get_order order_id st = Some order) :
  let r :=
    Flask.update_order true (Order.customer_id order) order_id
      (Some (Flask.OrderUpdateSchema.mk pickup_date instructions status)) st in
  match status with
  | Some None => r = (Unhandled IntegrityError, st)
  | _ => is_success (fst r) = true
  end.
Proof.
  intros r. subst r. unfold Flask.update_order.
  rewrite Hget, Z.eqb_refl. cbn [negb].
  cbn [Flask.OrderUpdateSchema.pickup_date Flask.OrderUpdateSchema.instructions
         Flask.OrderUpdateSchema.status].
  pose proof (get_order_id _ _ _ Hget) as [Hin Hid].
  pose proof Hlegal as Hparts.
  apply integrity_parts in Hparts as (Hs & Ho & Ht).
  assert (Hsome : is_some (Order.status order) = true).
  { unfold orders_ok in Ho. rewrite !andb_true_iff in Ho.
    destruct Ho as [[Hst _] _].
    now apply (proj1 (forallb_forall _ _) Hst). }
  set (o1 := match pickup_date with
             | Some v => Order.set_pickup_date v order
             | None => order
             end).
  set (o2 := match instructions with
             | Some v => Order.set_instructions v o1
             | None => o1
             end).
  assert (Hsame : Order.id o2 = Order.id order
                  /\ Order.order_number o2 = Order.order_number order
                  /\ Order.status o2 = Order.status order).
  { subst o2 o1. destruct pickup_date, instructions; repeat split. }
  destruct Hsame as (Hid2 & Hnum2 & Hst2).
  assert (Haccept : forall o3,
             Order.id o3 = Order.id order ->
             Order.order_number o3 = Order.order_number order ->
             is_some (Order.status o3) = true ->
             commit true (with_orders (put_order o3 (orders st)) st)
             = inr (with_orders (put_order o3 (orders st)) st)).
  { intros o3 H1 H2 H3. apply commit_accepts. apply integrity_parts.
    cbn [services orders tracks with_orders]. repeat split; auto.
    now apply (orders_ok_put o3 order). }
  destruct status as [[v|]|].
  - rewrite Haccept; auto.
  - unfold commit. cbn [negb].
    replace (integrity
               (with_orders
                  (put_order (Order.set_status None o2) (orders st)) st))
      with false; [reflexivity|].
    symmetry. apply not_true_is_false. intros H.
    apply integrity_parts in H as (_ & H & _).
    unfold orders_ok in H. rewrite !andb_true_iff in H.
    destruct H as [[H _] _].
    assert (Hbad : In (Order.set_status None o2)
                     (put_order (Order.set_status None o2) (orders st))).
    { apply in_put_order_self. cbn [Order.id Order.set_status].
      rewrite Hid2. now apply in_map. }
    apply (proj1 (forallb_forall _ _) H) in Hbad. discriminate.
  - rewrite Haccept; auto. now rewrite Hst2.
Qed.

Lemma flask_update_order_null_status_witness :
  Flask.update_order true 1 1
    (Some (Flask.OrderUpdateSchema.mk None None (Some None))) sample_store
  = (Unhandled IntegrityError, sample_store).
Proof.
  apply (flask_update_order_null_status sample_store 1 sample_order None None
           (Some None) eq_refl eq_refl).
Defined.

(** X22.  [create_order] is two commits.  When the first is accepted, the
    image is written and the second commit is refused, the exception leaves
    the handler of either backend and the store keeps the order of the first
    commit: in state [created], at the price of the service, without the
    label path. *)
Theorem create_order_second_commit_refused (e : Secrets.Entropy)
    (customer_id : Z) (current : Customer.t) (service : Service.t)
    (service_id : Z) (pickup_date : option Z) (instructions : option string)
    (st : Store)
    (Hlegal : integrity st = true)
    (Hcustomer : get_customer customer_id st = Some current)
    (Hservice : get_service service_id st = Some service)
    (Hfresh : ~ In (Flask.gen_order_number e)
                (map Order.order_number (orders st))) :
  let order :=
    Order.mk (next_id (map Order.id (orders st))) (Flask.gen_order_number e)
      (Customer.id current) (Service.id service) pickup_date instructions
      (Service.price service) (Some Order.created) None in
  Flask.create_order e true true false customer_id
    (Some (Flask.OrderCreateSchema.mk service_id pickup_date instructions)) st
  = (Unhandled OperationalError, with_orders (orders st ++ [order]) st)
  /\ FastApi.create_order e true true false current
       (FastApi.OrderCreate.mk service_id pickup_date instructions) st
     = (Unhandled OperationalError, with_orders (orders st ++ [order]) st).
Proof.
  intros order.
  assert (Hw : commit true (with_orders (orders st ++ [order]) st)
               = inr (with_orders (orders st ++ [order]) st)).
  { apply commit_accepts. now apply integrity_insert_order. }
  split.
  - rewrite (flask_create_order_eq e true true false customer_id
               (Flask.OrderCreateSchema.mk service_id pickup_date instructions)
               current service st Hcustomer Hservice).
    cbn [Flask.OrderCreateSchema.pickup_date
           Flask.OrderCreateSchema.instructions].
    fold order. now rewrite Hw.
  - rewrite (fastapi_create_order_eq e true true false current
               (FastApi.OrderCreate.mk service_id pickup_date instructions)
               service st Hservice).
    cbn [FastApi.OrderCreate.pickup_date FastApi.OrderCreate.instructions].
    unfold FastApi.gen_order_number. fold (Flask.gen_order_number e).
    fold order. now rewrite Hw.
Qed.

Lemma create_order_second_commit_refused_witness :
  Flask.create_order sample_entropy true true false 1
    (Some (Flask.OrderCreateSchema.mk 1 None None)) sample_store
  = (Unhandled OperationalError,
     with_orders
       [sample_order;
        Order.mk 2 "031425364758" 1 1 None None 10000 (Some Order.created)
          None]
       sample_store).
Proof.
  refine (proj1 (create_order_second_commit_refused sample_entropy 1
                   sample_customer sample_service 1 None None sample_store
                   eq_refl eq_refl eq_refl _)).
  cbn. intros [H|[]]. discriminate.
Defined.

Lemma put_order_ids (o : Order.t) (l : list Order.t) :
  map Order.id (put_order o l) = map Order.id l.
Proof. apply map_put_order. auto. Qed.

Lemma put_worker_ids (w : Worker.t) (l : list Worker.t) :
  map Worker.id (put_worker w l) = map Worker.id l.
Proof.
  unfold put_worker. rewrite map_map. apply map_ext. intros x.
  destruct (Z.eqb_spec (Worker.id x) (Worker.id w)); congruence.
Qed.

Lemma track_refers_frame (st st' : Store) (tr : Track.t) :
  incl (map Order.id (orders st)) (map Order.id (orders st')) ->
  incl (map Worker.id (workers st)) (map Worker.id (workers st')) ->
  track_refers st tr = true -> track_refers st' tr = true.
Proof.
  intros Ho Hw. unfold track_refers. rewrite !andb_true_iff.
  intros [H1 H2]. split.
  - destruct (Track.order_id tr) as [i|]; [|discriminate].
    apply (memb_In Z.eqb Z.eqb_eq) in H1. apply (memb_In Z.eqb Z.eqb_eq).
    now apply Ho.
  - destruct (Track.worker_id tr) as [i|]; [|reflexivity].
    apply (memb_In Z.eqb Z.eqb_eq) in H2. apply (memb_In Z.eqb Z.eqb_eq).
    now apply Hw.
Qed.

(** A request that adds no Track row and drops neither an order nor a
    worker keeps the references. *)
Lemma tracks_refer_frame (st st' : Store) :
  tracks_refer st = true ->
  tracks st' = tracks st ->
  incl (map Order.id (orders st)) (map Order.id (orders st')) ->
  incl (map Worker.id (workers st)) (map Worker.id (workers st')) ->
  tracks_refer st' = true.
Proof.
  unfold tracks_refer. intros H -> Ho Hw. rewrite forallb_forall in *.
  intros tr Hin. apply (track_refers_frame st); auto.
Qed.

(** A scan adds a row for the order it found and the worker it
    authenticated. *)
Lemma tracks_refer_scan (status : option Order.Status) (order : Order.t)
    (worker : Worker.t) (n : Z) (action : string) (note location : option string)
    (st : Store) :
  tracks_refer st = true ->
  In order (orders st) -> In worker (workers st) ->
  tracks_refer
    (scan_work status order
       (Track.mk n (Some (Order.id order)) (Some (Worker.id worker)) action
          note location) st) = true.
Proof.
  intros H Ho Hw.
  assert (Hids : map Order.id (orders (scan_work status order
                   (Track.mk n (Some (Order.id order))
                      (Some (Worker.id worker)) action note location) st))
                 = map Order.id (orders st)).
  { unfold scan_work. destruct status; cbn [orders with_tracks with_orders];
      [apply put_order_ids | reflexivity]. }
  assert (Hws : workers (scan_work status order
                   (Track.mk n (Some (Order.id order))
                      (Some (Worker.id worker)) action note location) st)
                = workers st)
    by (unfold scan_work; now destruct status).
  unfold tracks_refer in *. rewrite forallb_forall in *.
  intros tr Hin.
  assert (Hin' : In tr (tracks st)
                 \/ tr = Track.mk n (Some (Order.id order))
                           (Some (Worker.id worker)) action note location).
  { unfold scan_work in Hin. cbn [tracks with_tracks] in Hin.
    apply in_app_or in Hin as [Hin|[<-|[]]]; auto. }
  destruct Hin' as [Hold| ->].
  - apply (track_refers_frame st); [| |auto].
    + rewrite Hids. apply incl_refl.
    + rewrite Hws. apply incl_refl.
  - unfold track_refers. cbn [Track.order_id Track.worker_id].
    rewrite Hids, Hws. apply andb_true_iff.
    split; apply (memb_In Z.eqb Z.eqb_eq); now apply in_map.
Qed.

(** An accepted delete removes an order that no Track row names. *)
Lemma tracks_refer_delete (o : Order.t) (st : Store) :
  tracks_refer st = true ->
  integrity (session_delete_order o st) = true ->
  tracks_refer (session_delete_order o st) = true.
Proof.
  intros H Hlegal.
  pose proof (delete_work_tracks o st Hlegal) as Hsame.
  apply integrity_parts in Hlegal as (_ & _ & Hlegal).
  unfold session_delete_order in Hlegal. cbn [tracks with_tracks] in Hlegal.
  apply blank_tracks_ok in Hlegal.
  unfold tracks_refer in *. rewrite Hsame. rewrite forallb_forall in *.
  intros tr Hin. specialize (H tr Hin).
  assert (Hfree : references (Order.id o) tr = false).
  { destruct (references (Order.id o) tr) eqn:E; [|reflexivity].
    rewrite <- Hlegal. symmetry. apply existsb_exists. eauto. }
  unfold track_refers, references in *.
  apply andb_true_iff in H as [H1 H2]. apply andb_true_iff. split; [|exact H2].
  destruct (Track.order_id tr) as [i|]; [|discriminate].
  apply (memb_In Z.eqb Z.eqb_eq) in H1. apply (memb_In Z.eqb Z.eqb_eq).
  apply in_map_iff in H1 as (x & <- & Hx). apply in_map.
  unfold session_delete_order. cbn [orders with_tracks with_orders].
  apply filter_In. split; [assumption|]. now rewrite Hfree.
Qed.

Ltac ids_kept :=
  cbn [snd orders workers tracks with_orders with_workers with_services
       with_tracks];
  rewrite ?put_order_ids, ?put_worker_ids, ?map_app;
  first [apply incl_refl | apply incl_appl, incl_refl].

Ltac refs_kept st Hrefs :=
  cbn [snd];
  first [ exact Hrefs
        | apply (tracks_refer_frame st);
          [exact Hrefs | reflexivity | ids_kept ..] ].

Lemma handle_tracks_refer (req : Request) (st : Store) :
  tracks_refer st = true -> tracks_refer (handle req st) = true.
Proof.
  intros Hrefs. destruct req; cbn [handle].
  - unfold Flask.create_order. repeat break_match; committed; refs_kept st Hrefs.
  - unfold Flask.update_order. repeat break_match; committed; refs_kept st Hrefs.
  - unfold Flask.delete_order. repeat break_match; committed; cbn [snd];
      try exact Hrefs.
    now apply tracks_refer_delete.
  - unfold Flask.create_service. repeat break_match; committed;
      refs_kept st Hrefs.
  - unfold Flask.update_service. repeat break_match; committed;
      refs_kept st Hrefs.
  - unfold Flask.worker_login. repeat break_match; committed; refs_kept st Hrefs.
  - unfold Flask.register_worker. repeat break_match; committed;
      refs_kept st Hrefs.
  - destruct (flask_scan_cases db_accepts authorization data st)
      as [[_ ->]|(w & n & a & o & Hw & _ & _ & Ho & ->)]; [exact Hrefs|].
    cbn [snd]. apply order_by_number_In in Ho as [Ho _].
    unfold Flask.require_worker_token in Hw.
    destruct (bearer_token authorization) as [token|]; [|discriminate].
    destruct (worker_by_token token st) as [w'|] eqn:Hwt; [|discriminate].
    injection Hw as ->. apply worker_by_token_In in Hwt as [Hw _].
    now apply tracks_refer_scan.
  - unfold FastApi.create_order. repeat break_match; committed;
      refs_kept st Hrefs.
  - unfold FastApi.update_order. repeat break_match; committed;
      refs_kept st Hrefs.
  - unfold FastApi.delete_order. repeat break_match; committed; cbn [snd];
      try exact Hrefs.
    now apply tracks_refer_delete.
  - unfold FastApi.create_service. repeat break_match; committed;
      refs_kept st Hrefs.
  - unfold FastApi.register_worker. repeat break_match; committed;
      refs_kept st Hrefs.
  - destruct (fastapi_scan_cases db_accepts authorization payload st)
      as [[_ ->]|(t & w & o & _ & Hw & Ho & ->)]; [exact Hrefs|].
    cbn [snd]. apply order_by_number_In in Ho as [Ho _].
    apply worker_by_token_In in Hw as [Hw _].
    now apply tracks_refer_scan.
Qed.

(** X23.  No Track row is ever left dangling.  From a store in which every
    Track row names a stored order and, where it names a worker, a stored
    worker, every sequence of requests to the writing handlers of the two
    backends ([create_order], [update_order], [delete_order],
    [create_service], [register_worker] and [scan] of either backend,
    [update_service] and [worker_login] of the Flask backend), accepted,
    refused or failing, leads to a store of which the same holds: a scan
    writes the ids of the order and the worker it looked up, and no accepted
    request removes an order that a Track row names, or a worker. *)
Theorem run_keeps_track_references (reqs : list Request) (st : Store)
    (Hrefs : tracks_refer st = true) :
  tracks_refer (run reqs st) = true
  /\ forall tr, In tr (tracks (run reqs st)) ->
       (exists order, In order (orders (run reqs st))
                      /\ Track.order_id tr = Some (Order.id order))
       /\ (forall i, Track.worker_id tr = Some i ->
             exists worker, In worker (workers (run reqs st))
                            /\ Worker.id worker = i).
Proof.
  assert (Hrun : tracks_refer (run reqs st) = true).
  { unfold run. revert st Hrefs.
    induction reqs as [|req reqs IH]; intros st Hrefs; [assumption|].
    cbn [fold_left]. apply IH. now apply handle_tracks_refer. }
  split; [exact Hrun|].
  intros tr Hin. unfold tracks_refer in Hrun.
  rewrite forallb_forall in Hrun. specialize (Hrun tr Hin).
  unfold track_refers in Hrun. apply andb_true_iff in Hrun as [H1 H2]. split.
  - destruct (Track.order_id tr) as [i|]; [|discriminate].
    apply (memb_In Z.eqb Z.eqb_eq) in H1.
    apply in_map_iff in H1 as (order & <- & Horder). eauto.
  - intros i Hi. rewrite Hi in H2.
    apply (memb_In Z.eqb Z.eqb_eq) in H2.
    apply in_map_iff in H2 as (worker & <- & Hworker). eauto.
Qed.

Lemma run_keeps_track_references_witness :
  tracks_refer
    (run [FlaskDeleteOrder true 1 1;
          FastApiScan true sample_authorization
            (FastApi.WorkerScanIn.mk "ORD-TEST-001" "delivered" None);
          FlaskWorkerLogin sample_entropy true
            (Flask.LoginBody.mk (Some 1) None);
          FastApiDeleteOrder true sample_customer 1]
       sample_store_scanned) = true.
Proof.
  refine (proj1 (run_keeps_track_references _ sample_store_scanned _)).
  reflexivity.
Defined.
